(** * Simple Python executor service (backend/e2b-service/main_simple.py)

    A shallow embedding of [execute_python_code] and of the three execute
    endpoints, together with the properties of the service that the
    specification states.

    Python [str] values are sequences of Unicode code points, the result
    dictionary is a record threaded through a small state monad, and every
    interaction with the operating system (directory creation, the two
    child processes, directory scans, file reads, removal of the workspace)
    appends an event to a trace and takes its outcome from an [Env]. *)

From Stdlib Require Import List ZArith NArith Lia String Ascii Bool DecimalString.
Import ListNotations.

Set Implicit Arguments.

(* ================================================================== *)
(** ** Python strings *)
(* ================================================================== *)

Module PyStr.

(** A [str] is a list of code points; [len] counts code points, as the
    builtin [len] does. *)
Definition str := list N.

Definition lit (s : string) : str := map N_of_ascii (list_ascii_of_string s).

Definition len (s : str) : Z := Z.of_nat (List.length s).

(** Width of one code point in the UTF-8 encoding. *)
Definition utf8_width (c : N) : Z :=
  if (c <? 128)%N then 1%Z
  else if (c <? 2048)%N then 2%Z
  else if (c <? 65536)%N then 3%Z
  else 4%Z.

Definition utf8_len (s : str) : Z := fold_right (fun c acc => (utf8_width c + acc)%Z) 0%Z s.

Definition str_eqb (a b : str) : bool :=
  if list_eq_dec N.eq_dec a b then true else false.

(** [s[:n]] for a non-negative [n]. *)
Definition slice_to (n : Z) (s : str) : str := firstn (Z.to_nat n) s.

(** [s.startswith(p)] *)
Fixpoint startswith (p s : str) : bool :=
  match p, s with
  | [], _ => true
  | _ :: _, [] => false
  | a :: p', b :: s' => (a =? b)%N && startswith p' s'
  end.

(** [s.endswith(p)] *)
Definition endswith (p s : str) : bool := startswith (rev p) (rev s).

(** [sub in s] *)
Fixpoint contains (sub s : str) : bool :=
  startswith sub s ||
  match s with
  | [] => false
  | _ :: t => contains sub t
  end.

Definition NL : N := 10.

(** [s.split("\n")]: never empty, ["".split("\n") == [""]]. *)
Fixpoint split_nl (s : str) : list str :=
  match s with
  | [] => [[]]
  | c :: t =>
      if (c =? NL)%N then [] :: split_nl t
      else match split_nl t with
           | h :: r => (c :: h) :: r
           | [] => [[c]]
           end
  end.

(** ["\n".join(ls)] *)
Fixpoint join_nl (ls : list str) : str :=
  match ls with
  | [] => []
  | [l] => l
  | l :: r => l ++ NL :: join_nl r
  end.

(** [str(n)] for an [int]. *)
Definition str_of_int (n : Z) : str := lit (NilZero.string_of_int (Z.to_int n)).

(** [s.lower()] on the ASCII letters.  No code point outside ASCII
    lowercases to one of the letters of [".png"] and [".pyc"], the only
    strings a lowered value is compared with. *)
Definition lower_char (c : N) : N :=
  if (65 <=? c)%N && (c <=? 90)%N then (c + 32)%N else c.

Definition lower (s : str) : str := map lower_char s.

(** [s.rfind(c)] for a single character, [None] standing for [-1]. *)
Fixpoint rfind (c : N) (s : str) : option nat :=
  match s with
  | [] => None
  | x :: t =>
      match rfind c t with
      | Some i => Some (S i)
      | None => if (x =? c)%N then Some O else None
      end
  end.

(** [PurePath.suffix] of a file name: the part from the last dot on, when
    that dot is neither the first nor the last character. *)
Definition suffix (name : str) : str :=
  match rfind 46 name with
  | Some i =>
      if (0 <? i)%nat && (i <? List.length name - 1)%nat then skipn i name else []
  | None => []
  end.

End PyStr.
Import PyStr.

(* ================================================================== *)
(** ** base64 *)
(* ================================================================== *)

Module Base64.

Definition bytes := list Byte.byte.

Definition alphabet (i : N) : N :=
  if (i <? 26)%N then (65 + i)%N
  else if (i <? 52)%N then (97 + (i - 26))%N
  else if (i <? 62)%N then (48 + (i - 52))%N
  else if (i =? 62)%N then 43%N
  else 47%N.

Definition PAD : N := 61.

(** [base64.b64encode(bs).decode("utf-8")] *)
Fixpoint b64encode (bs : bytes) : str :=
  match bs with
  | [] => []
  | [a] =>
      let n := (Byte.to_N a * 65536)%N in
      [alphabet (n / 262144); alphabet ((n / 4096) mod 64); PAD; PAD]
  | [a; b] =>
      let n := (Byte.to_N a * 65536 + Byte.to_N b * 256)%N in
      [alphabet (n / 262144); alphabet ((n / 4096) mod 64);
       alphabet ((n / 64) mod 64); PAD]
  | a :: b :: c :: r =>
      let n := (Byte.to_N a * 65536 + Byte.to_N b * 256 + Byte.to_N c)%N in
      alphabet (n / 262144) :: alphabet ((n / 4096) mod 64)
        :: alphabet ((n / 64) mod 64) :: alphabet (n mod 64) :: b64encode r
  end.

Definition bytes_of_string (s : string) : bytes := list_byte_of_string s.

End Base64.
Import Base64.

(* ================================================================== *)
(** ** Paths, exceptions, the operating system *)
(* ================================================================== *)

Definition Path := str.

Definition SLASH : N := 47.

(** [s.split("/")] and ["/".join(parts)]. *)
Fixpoint split_slash (s : str) : list str :=
  match s with
  | [] => [[]]
  | c :: t =>
      if (c =? SLASH)%N then [] :: split_slash t
      else match split_slash t with
           | h :: r => (c :: h) :: r
           | [] => [[c]]
           end
  end.

Fixpoint join_slash (parts : list str) : str :=
  match parts with
  | [] => []
  | [x] => x
  | x :: r => x ++ SLASH :: join_slash r
  end.

(** The root that pathlib's POSIX flavour splits off a path: ["//"] when the
    path starts with exactly two slashes, ["/"] when it starts with one or
    with more than two, and nothing otherwise. *)
Definition path_root (s : str) : str :=
  if startswith [SLASH; SLASH] s && negb (startswith [SLASH; SLASH; SLASH] s)
  then [SLASH; SLASH]
  else if startswith [SLASH] s then [SLASH]
  else [].

(** The components pathlib keeps: empty ones (doubled or trailing slashes)
    and ["."] are dropped, [".."] stays. *)
Definition is_component (x : str) : bool :=
  negb (str_eqb x []) && negb (str_eqb x [46%N]).

Definition path_parts (s : str) : list str := filter is_component (split_slash s).

(** [str] of a path with the given root and components; the empty path
    prints as ["."]. *)
Definition render (root : str) (parts : list str) : Path :=
  match root, parts with
  | [], [] => [46%N]
  | _, _ => root ++ join_slash parts
  end.

(** [str(PurePosixPath(s))] *)
Definition PurePath (s : str) : Path := render (path_root s) (path_parts s).

(** [p / c] of pathlib: an absolute right operand replaces the left one,
    otherwise its components follow those of [p]. *)
Definition joinpath (p : Path) (c : str) : Path :=
  match path_root c with
  | [] => render (path_root p) (path_parts p ++ path_parts c)
  | _ :: _ => PurePath c
  end.

Declare Scope path_scope.
Delimit Scope path_scope with path.
Notation "p // c" := (joinpath p c) (at level 40, left associativity) : path_scope.
Local Open Scope path_scope.

(** The exceptions that occur.  [TimeoutExpired] carries the output the
    child had produced when it was killed; [OSError] stands for any fault
    of the operating system. *)
Inductive exn : Type :=
| TimeoutExpired (captured_stdout captured_stderr : str)
| IndexError
| OSError.

Inductive res (A : Type) : Type :=
| Ok (a : A)
| Err (e : exn).
Arguments Ok {A} a.
Arguments Err {A} e.

(** [subprocess.CompletedProcess] with [capture_output=True, text=True]. *)
Module CompletedProcess.
Record t : Type := mk { returncode : Z; stdout : str; stderr : str }.
End CompletedProcess.

(** One entry of a directory: its name, whether [is_file()] holds, and what
    opening and reading it in binary mode gives. *)
Module DirEntry.
Record t : Type := mk { name : str; is_file : bool; read : res bytes }.
End DirEntry.

(** The server settings read from the process environment at start-up. *)
Record Settings : Type := {
  EXECUTION_TIMEOUT : Z;
  WORK_DIR : Path
}.

Definition MAX_OUTPUT_SIZE : Z := 100 * 1024.

(** What the world answers during one call of [execute_python_code]. *)
Record Env : Type := {
  uuid4 : str;                         (* str(uuid.uuid4()) *)
  repr : str -> str;                   (* the builtin repr on str *)
  time_start : Z;                      (* time.time() on entry *)
  time_abort : Z;                      (* time.time() at an install failure *)
  time_end : Z;                        (* time.time() in the finally block *)
  mkdir_exec_dir : res unit;
  mkdir_plot_dir : res unit;
  pip_install : res CompletedProcess.t;
  write_text : res unit;
  run_script : res CompletedProcess.t;
  scan_plot_dir : res (list DirEntry.t);  (* what the glob of exec_dir/plots meets
                                             afterwards: its entries, none when it
                                             is gone, or the fault the glob raises *)
  scan_exec_dir : res (list DirEntry.t);  (* the listing of exec_dir afterwards *)
  rmtree : res unit
}.

Inductive level : Type := INFO | WARNING.

Inductive event : Type :=
| EMkdir (p : Path)
| EPipInstall (dependencies : list str) (timeout : Z)
| EWriteText (p : Path) (content : str)
| ERunScript (script : Path) (timeout : Z) (cwd : Path)
| EGlobPng (dir : Path)
| EIterdir (dir : Path)
| EOpenRead (p : Path)
| EWriteBytes (p : Path) (content : bytes)
| ERmtree (p : Path)
| ELog (lvl : level) (msg : str).

(* ================================================================== *)
(** ** The result dictionary and the response models *)
(* ================================================================== *)

Module PlotResult.
Record t : Type := mk { format : str; data : str }.
End PlotResult.

Module FileResult.
Record t : Type := mk { filename : str; data : str; size : Z }.
End FileResult.

(** The dictionary [result] of [execute_python_code]. *)
Module Result.
Record t : Type := mk {
  stdout : str;
  stderr : str;
  error : option str;
  plots : list PlotResult.t;
  files : list FileResult.t;
  install_output : str;
  execution_time : Z
}.

Definition initial : t := mk [] [] None [] [] [] 0.

Definition set_stdout (v : str) (r : t) : t :=
  mk v (stderr r) (error r) (plots r) (files r) (install_output r) (execution_time r).
Definition set_stderr (v : str) (r : t) : t :=
  mk (stdout r) v (error r) (plots r) (files r) (install_output r) (execution_time r).
Definition set_error (v : option str) (r : t) : t :=
  mk (stdout r) (stderr r) v (plots r) (files r) (install_output r) (execution_time r).
Definition append_plot (p : PlotResult.t) (r : t) : t :=
  mk (stdout r) (stderr r) (error r) (plots r ++ [p]) (files r) (install_output r)
     (execution_time r).
Definition append_file (f : FileResult.t) (r : t) : t :=
  mk (stdout r) (stderr r) (error r) (plots r) (files r ++ [f]) (install_output r)
     (execution_time r).
Definition set_install_output (v : str) (r : t) : t :=
  mk (stdout r) (stderr r) (error r) (plots r) (files r) v (execution_time r).
Definition set_execution_time (v : Z) (r : t) : t :=
  mk (stdout r) (stderr r) (error r) (plots r) (files r) (install_output r) v.
End Result.

Module ExecuteRequest.
Record t : Type := mk { code : str; timeout : option Z }.
End ExecuteRequest.

Module ExecuteResponse.
Record t : Type := mk {
  success : bool;
  stdout : str;
  stderr : str;
  error : option str;
  plots : list PlotResult.t;
  execution_time : option Z
}.
End ExecuteResponse.

Module AdvancedExecuteRequest.
Record t : Type := mk {
  code : str;
  timeout : option Z;
  dependencies : list str;
  output_files : list str
}.
End AdvancedExecuteRequest.

Module AdvancedExecuteResponse.
Record t : Type := mk {
  success : bool;
  stdout : str;
  stderr : str;
  error : option str;
  plots : list PlotResult.t;
  files : list FileResult.t;
  execution_time : option Z;
  install_output : str
}.
End AdvancedExecuteResponse.

(* ================================================================== *)
(** ** Statements with effects *)
(* ================================================================== *)

(** A statement runs on the trace of events so far and on the current
    content of the dictionary [result].  It falls through with a value,
    executes [return result], or raises. *)
Record state : Type := mkState { trace : list event; result : Result.t }.

Inductive ctl (A : Type) : Type :=
| Next (a : A)
| Return
| Raise (e : exn).
Arguments Next {A} a.
Arguments Return {A}.
Arguments Raise {A} e.

Definition M (A : Type) : Type := state -> state * ctl A.

Definition ret {A : Type} (a : A) : M A := fun s => (s, Next a).

Definition bind {A B : Type} (m : M A) (k : A -> M B) : M B :=
  fun s =>
    match m s with
    | (s', Next a) => k a s'
    | (s', Return) => (s', Return)
    | (s', Raise e) => (s', Raise e)
    end.

Declare Scope stmt_scope.
Delimit Scope stmt_scope with stmt.
Notation "x <- m ;; k" := (bind m (fun x => k))
  (at level 61, m at next level, right associativity) : stmt_scope.
Notation "m ;; k" := (bind m (fun _ => k))
  (at level 61, right associativity) : stmt_scope.
Local Open Scope stmt_scope.

Definition emit (e : event) : M unit :=
  fun s => (mkState (trace s ++ [e]) (result s), Next tt).

Definition update (f : Result.t -> Result.t) : M unit :=
  fun s => (mkState (trace s) (f (result s)), Next tt).

Definition get_result : M Result.t := fun s => (s, Next (result s)).

Definition return_result {A : Type} : M A := fun s => (s, Return).

Definition raise {A : Type} (e : exn) : M A := fun s => (s, Raise e).

Definition lift {A : Type} (r : res A) : M A :=
  match r with
  | Ok a => ret a
  | Err e => raise e
  end.

Definition pass : M unit := ret tt.

Definition log (lvl : level) (msg : string) : M unit := emit (ELog lvl (lit msg)).

(** [try: m except ...: h], the handler choosing the exceptions it takes. *)
Definition try_except {A : Type} (m : M A) (handler : exn -> option (M A)) : M A :=
  fun s =>
    match m s with
    | (s', Raise e) =>
        match handler e with
        | Some h => h s'
        | None => (s', Raise e)
        end
    | other => other
    end.

(** [try: m finally: f].  The finally block runs on every way out of [m];
    the way out of [m] is resumed unless the block itself leaves. *)
Definition try_finally {A : Type} (m : M A) (f : M unit) : M A :=
  fun s =>
    match m s with
    | (s1, c) =>
        match f s1 with
        | (s2, Next _) => (s2, c)
        | (s2, Return) => (s2, Return)
        | (s2, Raise e) => (s2, Raise e)
        end
    end.

Fixpoint for_each {X : Type} (l : list X) (body : X -> M unit) : M unit :=
  match l with
  | [] => pass
  | x :: t => body x ;; for_each t body
  end.

Definition except_TimeoutExpired {A : Type} (h : M A) (e : exn) : option (M A) :=
  match e with
  | TimeoutExpired _ _ => Some h
  | _ => None
  end.

Definition except_Exception {A : Type} (h : M A) (e : exn) : option (M A) := Some h.

(** Truth value of a [str] and of an optional list. *)
Definition truthy (s : str) : bool :=
  match s with
  | [] => false
  | _ :: _ => true
  end.

Definition truthy_list {X : Type} (l : option (list X)) : bool :=
  match l with
  | Some (_ :: _) => true
  | _ => false
  end.

(** [l[-2]] *)
Definition second_to_last {X : Type} (l : list X) : res X :=
  match rev l with
  | _ :: x :: _ => Ok x
  | _ => Err IndexError
  end.

(* ================================================================== *)
(** ** create_wrapper_code *)
(* ================================================================== *)

Definition DQ : str := [34%N].

Definition PLOT_SAVED : str := lit "[PLOT_SAVED]".

Definition create_wrapper_code (env : Env) (user_code : str) (plot_dir : str) : str :=
  join_nl [
    lit "";
    lit "import sys";
    lit "import os";
    lit "";
    lit "# Set matplotlib to use non-interactive backend BEFORE importing pyplot";
    lit "import matplotlib";
    lit "matplotlib.use('Agg')";
    lit "";
    lit "# Configure plot output directory";
    lit "_plot_dir = " ++ repr env plot_dir;
    lit "_plot_counter = [0]";
    lit "";
    lit "# Patch plt.show() to save plots instead";
    lit "import matplotlib.pyplot as plt";
    lit "_original_show = plt.show";
    lit "";
    lit "def _patched_show(" ++ lit "*args, **kwargs):";
    lit "    _plot_counter[0] += 1";
    lit "    plot_path = os.path.join(_plot_dir, f" ++ DQ
      ++ lit "plot_{_plot_counter[0]}.png" ++ DQ ++ lit ")";
    lit "    plt.savefig(plot_path, format='png', dpi=100, bbox_inches='tight')";
    lit "    print(f" ++ DQ ++ PLOT_SAVED ++ lit "{plot_path}" ++ DQ ++ lit ")";
    lit "    plt.close()";
    lit "";
    lit "plt.show = _patched_show";
    lit "";
    lit "# Also save figures when plt.savefig is called";
    lit "_original_savefig = plt.savefig";
    lit "";
    lit "def _patched_savefig(fname, " ++ lit "*args, **kwargs):";
    lit "    # Call original savefig";
    lit "    result = _original_savefig(fname, " ++ lit "*args, **kwargs)";
    lit "    # Also save to our plot dir if it's a new file";
    lit "    if not str(fname).startswith(_plot_dir):";
    lit "        _plot_counter[0] += 1";
    lit "        copy_path = os.path.join(_plot_dir, f" ++ DQ
      ++ lit "plot_{_plot_counter[0]}.png" ++ DQ ++ lit ")";
    lit "        _original_savefig(copy_path, format='png', dpi=100, bbox_inches='tight')";
    lit "        print(f" ++ DQ ++ PLOT_SAVED ++ lit "{copy_path}" ++ DQ ++ lit ")";
    lit "    return result";
    lit "";
    lit "# Don't patch savefig - let user control where files go";
    lit "# plt.savefig = _patched_savefig";
    lit "";
    lit "# Change to work directory";
    lit "os.chdir(" ++ repr env plot_dir ++ lit ")";
    lit "";
    lit "# Execute user code";
    user_code;
    lit ""
  ].

(* ================================================================== *)
(** ** execute_python_code *)
(* ================================================================== *)

Section ExecutePythonCode.

Variable env : Env.
Variable code : str.
Variable timeout : Z.
Variable work_dir : Path.
Variable dependencies : option (list str).

Definition exec_id : str := slice_to 8 (uuid4 env).
Definition exec_dir : Path := work_dir // exec_id.
Definition plot_dir : Path := exec_dir // lit "plots".
Definition code_file : Path := exec_dir // lit "script.py".

(** [if dependencies: ...]: the installer, its non-zero exit and its
    timeout both leaving through [return result]. *)
Definition install_dependencies : M unit :=
  if truthy_list dependencies then
    log INFO "Installing dependencies: " ;;
    try_except
      (emit (EPipInstall (match dependencies with Some l => l | None => [] end) 60) ;;
       install_result <- lift (pip_install env) ;;
       update (Result.set_install_output
                 (CompletedProcess.stdout install_result
                    ++ CompletedProcess.stderr install_result)) ;;
       if negb (CompletedProcess.returncode install_result =? 0)%Z then
         r <- get_result ;;
         update (Result.set_error
                   (Some (lit "Failed to install dependencies: "
                            ++ Result.install_output r))) ;;
         update (Result.set_execution_time (time_abort env - time_start env)) ;;
         return_result
       else
         log INFO "Dependencies installed: ")
      (except_TimeoutExpired
         (update (Result.set_error (Some (lit "Dependency installation timed out"))) ;;
          update (Result.set_execution_time (time_abort env - time_start env)) ;;
          return_result))
  else pass.

(** [x[:MAX_OUTPUT_SIZE] if x else ""] *)
Definition capped (x : str) : str :=
  if truthy x then slice_to MAX_OUTPUT_SIZE x else [].

(** The error message drawn from [stderr] after a non-zero exit. *)
Definition extract_error : M unit :=
  r <- get_result ;;
  let stderr := Result.stderr r in
  if contains (lit "Error:") stderr then
    if truthy stderr then
      line <- lift (second_to_last (split_nl stderr)) ;;
      update (Result.set_error (Some line))
    else
      update (Result.set_error (Some (lit "Execution failed")))
  else
    update (Result.set_error
              (Some (if truthy stderr then stderr
                     else lit "Execution failed with non-zero exit code"))).

(** The child process: [subprocess.run] under the deadline. *)
Definition run_code : M unit :=
  try_except
    (emit (ERunScript code_file timeout exec_dir) ;;
     proc <- lift (run_script env) ;;
     update (Result.set_stdout (capped (CompletedProcess.stdout proc))) ;;
     update (Result.set_stderr (capped (CompletedProcess.stderr proc))) ;;
     if negb (CompletedProcess.returncode proc =? 0)%Z then extract_error else pass)
    (except_TimeoutExpired
       (update (Result.set_error
                  (Some (lit "Execution timed out after " ++ str_of_int timeout
                           ++ lit " seconds"))) ;;
        update (Result.set_stderr
                  (lit "TimeoutError: Code execution exceeded " ++ str_of_int timeout
                     ++ lit " second limit")))).

Definition is_png (e : DirEntry.t) : bool := endswith (lit ".png") (DirEntry.name e).

(** [list(dir.glob("*.png"))]: the entries of [dir] whose name ends in
    [.png], in the order of the scan, each with its path.  [scan] is what
    the glob meets: the entries, or the fault it raises (it starts with a
    [stat] of [dir], which fails for [exec_dir/plots] when [exec_dir] cannot
    be searched). *)
Definition glob_png (dir : Path) (scan : res (list DirEntry.t))
  : M (list (Path * DirEntry.t)) :=
  emit (EGlobPng dir) ;;
  entries <- lift scan ;;
  ret (map (fun e => (dir // DirEntry.name e, e)) (filter is_png entries)).

(** [dir.iterdir()]: the listing of [dir], or its fault. *)
Definition iterdir (dir : Path) (scan : res (list DirEntry.t))
  : M (list (Path * DirEntry.t)) :=
  emit (EIterdir dir) ;;
  entries <- lift scan ;;
  ret (map (fun e => (dir // DirEntry.name e, e)) entries).

(** [with open(p, "rb") as f: f.read()] *)
Definition open_read (p : Path * DirEntry.t) : M bytes :=
  emit (EOpenRead (fst p)) ;;
  lift (DirEntry.read (snd p)).

Definition collect_plot (plot_file : Path * DirEntry.t) : M unit :=
  try_except
    (content <- open_read plot_file ;;
     update (Result.append_plot (PlotResult.mk (lit "png") (b64encode content))) ;;
     log INFO "Collected plot: ")
    (except_Exception (log WARNING "Failed to read plot ")).

(** What a glob makes of the listing of its directory: a directory that
    is gone or cannot be listed matches nothing, the fault is left to
    whoever lists it next. *)
Definition seen_by_glob (listing : res (list DirEntry.t)) : res (list DirEntry.t) :=
  match listing with
  | Ok entries => Ok entries
  | Err _ => Ok []
  end.

Definition collect_plots : M unit :=
  in_plot_dir <- glob_png plot_dir (scan_plot_dir env) ;;
  in_exec_dir <- glob_png exec_dir (seen_by_glob (scan_exec_dir env)) ;;
  for_each (in_plot_dir ++ in_exec_dir) collect_plot.

Definition is_marker_line (line : str) : bool := startswith PLOT_SAVED line.

(** Removal of the [[PLOT_SAVED]] lines from [stdout]. *)
Definition strip_plot_markers : M unit :=
  r <- get_result ;;
  if truthy (Result.stdout r) then
    let lines := split_nl (Result.stdout r) in
    update (Result.set_stdout
              (join_nl (filter (fun line => negb (is_marker_line line)) lines)))
  else pass.

Definition excluded_suffix (name : str) : bool :=
  let s := lower (suffix name) in
  str_eqb s (lit ".png") || str_eqb s (lit ".pyc").

Definition collect_file (file_path : Path * DirEntry.t) : M unit :=
  let name := DirEntry.name (snd file_path) in
  if DirEntry.is_file (snd file_path) && negb (str_eqb name (lit "script.py")) then
    if negb (excluded_suffix name) then
      try_except
        (file_data <- open_read file_path ;;
         update (Result.append_file
                   (FileResult.mk name (b64encode file_data)
                      (Z.of_nat (List.length file_data)))) ;;
         log INFO "Collected file: ")
        (except_Exception (log WARNING "Failed to read file "))
    else pass
  else pass.

Definition collect_files : M unit :=
  entries <- iterdir exec_dir (scan_exec_dir env) ;;
  for_each entries collect_file.

(** The body of the outer [try]: the install step, then everything that
    follows it. *)
Definition after_install : M unit :=
  let wrapped_code := create_wrapper_code env code exec_dir in
  emit (EWriteText code_file wrapped_code) ;;
  lift (write_text env) ;;
  run_code ;;
  collect_plots ;;
  strip_plot_markers ;;
  collect_files.

Definition guarded_body : M unit :=
  install_dependencies ;;
  after_install.

(** The [finally] block. *)
Definition cleanup : M unit :=
  try_except
    (emit (ERmtree exec_dir) ;; lift (rmtree env))
    (except_Exception (log WARNING "Failed to cleanup exec dir: ")) ;;
  update (Result.set_execution_time (time_end env - time_start env)).

Definition execute_python_code_stmt : M unit :=
  emit (EMkdir exec_dir) ;;
  lift (mkdir_exec_dir env) ;;
  emit (EMkdir plot_dir) ;;
  lift (mkdir_plot_dir env) ;;
  try_finally guarded_body cleanup.

(** The call: it starts from the fresh dictionary, appends to the trace it
    is given, and returns the dictionary as it is at the very end. *)
Definition execute_python_code (t : list event) : list event * res Result.t :=
  match execute_python_code_stmt (mkState t Result.initial) with
  | (s, Next _) => (trace s, Ok (result s))
  | (s, Return) => (trace s, Ok (result s))
  | (s, Raise e) => (trace s, Err e)
  end.

End ExecutePythonCode.

(* ================================================================== *)
(** ** The endpoints *)
(* ================================================================== *)

(** A call that appends to the trace and returns or raises. *)
Definition T (A : Type) : Type := list event -> list event * res A.

Definition tret {A : Type} (a : A) : T A := fun t => (t, Ok a).

Definition tbind {A B : Type} (m : T A) (k : A -> T B) : T B :=
  fun t =>
    match m t with
    | (t', Ok a) => k a t'
    | (t', Err e) => (t', Err e)
    end.

Declare Scope call_scope.
Delimit Scope call_scope with call.
Notation "x <-- m ;; k" := (tbind m (fun x => k))
  (at level 61, m at next level, right associativity) : call_scope.
Notation "m ;;; k" := (tbind m (fun _ => k))
  (at level 61, right associativity) : call_scope.
Local Open Scope call_scope.

Definition temit (e : event) : T unit := fun t => (t ++ [e], Ok tt).

Definition tlog (lvl : level) (msg : string) : T unit := temit (ELog lvl (lit msg)).

Definition tlift {A : Type} (r : res A) : T A := fun t => (t, r).

(** [try: m finally: f] for a block [f] that swallows its own faults. *)
Definition t_finally {A : Type} (m : T A) (f : T unit) : T A :=
  fun t =>
    match m t with
    | (t1, r) =>
        match f t1 with
        | (t2, Ok _) => (t2, r)
        | (t2, Err e) => (t2, Err e)
        end
    end.

(** [try: m except: pass] *)
Definition t_except_pass (m : T unit) : T unit :=
  fun t =>
    match m t with
    | (t', _) => (t', Ok tt)
    end.

Fixpoint t_for_each {X : Type} (l : list X) (body : X -> T unit) : T unit :=
  match l with
  | [] => tret tt
  | x :: r => body x ;;; t_for_each r body
  end.

(** [x or d] on an optional integer: [None] and [0] are both false. *)
Definition or_default (x : option Z) (d : Z) : Z :=
  match x with
  | Some v => if (v =? 0)%Z then d else v
  | None => d
  end.

Definition is_None {X : Type} (o : option X) : bool :=
  match o with
  | None => true
  | Some _ => false
  end.

Definition ExecuteResponse_of (r : Result.t) : ExecuteResponse.t :=
  ExecuteResponse.mk
    (is_None (Result.error r))
    (Result.stdout r)
    (Result.stderr r)
    (Result.error r)
    (Result.plots r)
    (Some (Result.execution_time r)).

Definition AdvancedExecuteResponse_of (r : Result.t) : AdvancedExecuteResponse.t :=
  AdvancedExecuteResponse.mk
    (is_None (Result.error r))
    (Result.stdout r)
    (Result.stderr r)
    (Result.error r)
    (Result.plots r)
    (Result.files r)
    (Some (Result.execution_time r))
    (Result.install_output r).

(** POST /execute *)
Definition execute_code (cfg : Settings) (env : Env) (request : ExecuteRequest.t)
  : T ExecuteResponse.t :=
  tlog INFO "Executing code (length: " ;;;
  let timeout :=
    Z.min (or_default (ExecuteRequest.timeout request) (EXECUTION_TIMEOUT cfg))
          (EXECUTION_TIMEOUT cfg) in
  result <-- execute_python_code env (ExecuteRequest.code request) timeout
               (WORK_DIR cfg) None ;;
  let response := ExecuteResponse_of result in
  tlog INFO "Execution completed: success=" ;;;
  tret response.

(** An uploaded file: its name and what [await file.read()] gives. *)
Module UploadFile.
Record t : Type := mk { filename : str; read : res bytes }.
End UploadFile.

(** What the world answers to [execute_with_files] itself. *)
Record FilesEnv : Type := {
  files_uuid4 : str;
  mkdir_files_dir : res unit;
  write_bytes : Path -> res unit;
  rmtree_files_dir : res unit
}.

Definition files_dir (cfg : Settings) (fenv : FilesEnv) : Path :=
  WORK_DIR cfg // slice_to 8 (files_uuid4 fenv).

Definition save_upload (fenv : FilesEnv) (dir : Path) (file : UploadFile.t) : T unit :=
  content <-- tlift (UploadFile.read file) ;;
  let file_path := dir // UploadFile.filename file in
  temit (EWriteBytes file_path content) ;;;
  tlift (write_bytes fenv file_path) ;;;
  tlog INFO "Uploaded file: ".

(** POST /execute-with-files *)
Definition execute_with_files (cfg : Settings) (fenv : FilesEnv) (env : Env)
  (code : str) (files : list UploadFile.t) (timeout : Z) : T ExecuteResponse.t :=
  tlog INFO "Executing code with " ;;;
  let exec_dir := files_dir cfg fenv in
  temit (EMkdir exec_dir) ;;;
  tlift (mkdir_files_dir fenv) ;;;
  t_finally
    (t_for_each files (save_upload fenv exec_dir) ;;;
     let full_code :=
       lit "import os; os.chdir(" ++ repr env exec_dir ++ lit ")" ++ NL :: code in
     let timeout := Z.min timeout (EXECUTION_TIMEOUT cfg) in
     result <-- execute_python_code env full_code timeout exec_dir None ;;
     let response := ExecuteResponse_of result in
     tlog INFO "Execution with files completed: success=" ;;;
     tret response)
    (t_except_pass (temit (ERmtree exec_dir) ;;; tlift (rmtree_files_dir fenv))).

(** POST /execute-advanced *)
Definition execute_advanced (cfg : Settings) (env : Env)
  (request : AdvancedExecuteRequest.t) : T AdvancedExecuteResponse.t :=
  tlog INFO "Advanced execution: code=" ;;;
  let timeout :=
    Z.min (or_default (AdvancedExecuteRequest.timeout request) (EXECUTION_TIMEOUT cfg))
          (EXECUTION_TIMEOUT cfg) in
  result <-- execute_python_code env (AdvancedExecuteRequest.code request) timeout
               (WORK_DIR cfg) (Some (AdvancedExecuteRequest.dependencies request)) ;;
  let response := AdvancedExecuteResponse_of result in
  tlog INFO "Advanced execution completed: success=" ;;;
  tret response.

(** The response models as they are serialised: one JSON member per
    declared field, in declaration order. *)
Inductive scalar : Type :=
| JNull
| JBool (b : bool)
| JNum (z : Z)
| JStr (s : str).

Inductive json : Type :=
| JScalar (v : scalar)
| JList (objects : list (list (string * scalar))).

Definition json_opt {X : Type} (f : X -> scalar) (o : option X) : scalar :=
  match o with
  | Some x => f x
  | None => JNull
  end.

Definition json_of_plot (p : PlotResult.t) : list (string * scalar) :=
  [("format", JStr (PlotResult.format p)); ("data", JStr (PlotResult.data p))]%string.

Definition json_of_file (f : FileResult.t) : list (string * scalar) :=
  [("filename", JStr (FileResult.filename f));
   ("data", JStr (FileResult.data f));
   ("size", JNum (FileResult.size f))]%string.

Definition ExecuteResponse_members (r : ExecuteResponse.t) : list (string * json) :=
  [("success", JScalar (JBool (ExecuteResponse.success r)));
   ("stdout", JScalar (JStr (ExecuteResponse.stdout r)));
   ("stderr", JScalar (JStr (ExecuteResponse.stderr r)));
   ("error", JScalar (json_opt JStr (ExecuteResponse.error r)));
   ("plots", JList (map json_of_plot (ExecuteResponse.plots r)));
   ("execution_time", JScalar (json_opt JNum (ExecuteResponse.execution_time r)))]%string.

Definition AdvancedExecuteResponse_members (r : AdvancedExecuteResponse.t)
  : list (string * json) :=
  [("success", JScalar (JBool (AdvancedExecuteResponse.success r)));
   ("stdout", JScalar (JStr (AdvancedExecuteResponse.stdout r)));
   ("stderr", JScalar (JStr (AdvancedExecuteResponse.stderr r)));
   ("error", JScalar (json_opt JStr (AdvancedExecuteResponse.error r)));
   ("plots", JList (map json_of_plot (AdvancedExecuteResponse.plots r)));
   ("files", JList (map json_of_file (AdvancedExecuteResponse.files r)));
   ("execution_time", JScalar (json_opt JNum (AdvancedExecuteResponse.execution_time r)));
   ("install_output", JScalar (JStr (AdvancedExecuteResponse.install_output r)))]%string.

Fixpoint member (key : string) (members : list (string * json)) : option json :=
  match members with
  | [] => None
  | (k, v) :: rest => if String.eqb k key then Some v else member key rest
  end.

(* ================================================================== *)
(** ** Observations on traces and on the collection loops *)
(* ================================================================== *)

Definition is_pip (e : event) : bool :=
  match e with EPipInstall _ _ => true | _ => false end.

Definition is_log (e : event) : bool :=
  match e with ELog _ _ => true | _ => false end.

(** The events of the execution stage: writing and running the script. *)
Definition is_execution (e : event) : bool :=
  match e with EWriteText _ _ | ERunScript _ _ _ => true | _ => false end.

(** The events the guarded body of [execute_python_code] can emit. *)
Definition is_body_event (e : event) : bool :=
  match e with
  | EMkdir _ | ERmtree _ | EWriteBytes _ _ => false
  | _ => true
  end.

(** The directories created and the trees removed, in order. *)
Definition created (t : list event) : list Path :=
  flat_map (fun e => match e with EMkdir p => [p] | _ => [] end) t.

Definition removed (t : list event) : list Path :=
  flat_map (fun e => match e with ERmtree p => [p] | _ => [] end) t.

(** What the finally block logs after [rmtree]. *)
Definition cleanup_log (env : Env) : list event :=
  match rmtree env with
  | Ok _ => []
  | Err _ => [ELog WARNING (lit "Failed to cleanup exec dir: ")]
  end.

(** One workspace lived in the events [evs]: [ws] and [ws/plots] are
    created first, nothing else is created or removed until [rmtree ws],
    which comes after every other action on the file system and is
    followed by [tail] only. *)
Definition one_workspace (ws : Path) (tail evs : list event) : Prop :=
  exists mid,
    evs = EMkdir ws :: EMkdir (ws // lit "plots") :: mid ++ ERmtree ws :: tail
    /\ forallb is_body_event mid = true.

(** [m] appends only events that satisfy [P]. *)
Definition emits {A : Type} (P : event -> bool) (m : M A) : Prop :=
  forall s, exists evs, trace (fst (m s)) = trace s ++ evs /\ forallb P evs = true.

(** The dictionary with plots, respectively files, appended. *)
Definition add_plots (l : list PlotResult.t) (r : Result.t) : Result.t :=
  Result.mk (Result.stdout r) (Result.stderr r) (Result.error r)
    (Result.plots r ++ l) (Result.files r) (Result.install_output r)
    (Result.execution_time r).

Definition add_files (l : list FileResult.t) (r : Result.t) : Result.t :=
  Result.mk (Result.stdout r) (Result.stderr r) (Result.error r)
    (Result.plots r) (Result.files r ++ l) (Result.install_output r)
    (Result.execution_time r).

(** What the plot loop appends for a list of candidate entries. *)
Definition plot_of (e : DirEntry.t) : list PlotResult.t :=
  match DirEntry.read e with
  | Ok content => [PlotResult.mk (lit "png") (b64encode content)]
  | Err _ => []
  end.

Definition plots_of (l : list DirEntry.t) : list PlotResult.t := flat_map plot_of l.

Definition plot_events (pe : Path * DirEntry.t) : list event :=
  EOpenRead (fst pe) ::
  match DirEntry.read (snd pe) with
  | Ok _ => [ELog INFO (lit "Collected plot: ")]
  | Err _ => [ELog WARNING (lit "Failed to read plot ")]
  end.

(** The entries the file loop reads. *)
Definition is_candidate_file (e : DirEntry.t) : bool :=
  DirEntry.is_file e
  && negb (str_eqb (DirEntry.name e) (lit "script.py"))
  && negb (excluded_suffix (DirEntry.name e)).

Definition file_of (e : DirEntry.t) : list FileResult.t :=
  if is_candidate_file e then
    match DirEntry.read e with
    | Ok content =>
        [FileResult.mk (DirEntry.name e) (b64encode content)
           (Z.of_nat (List.length content))]
    | Err _ => []
    end
  else [].

Definition files_of (l : list DirEntry.t) : list FileResult.t := flat_map file_of l.

Definition file_events (pe : Path * DirEntry.t) : list event :=
  if is_candidate_file (snd pe) then
    EOpenRead (fst pe) ::
    match DirEntry.read (snd pe) with
    | Ok _ => [ELog INFO (lit "Collected file: ")]
    | Err _ => [ELog WARNING (lit "Failed to read file ")]
    end
  else [].

Definition with_path (dir : Path) (e : DirEntry.t) : Path * DirEntry.t :=
  (dir // DirEntry.name e, e).

(** The lines of a text and the marker lines among them. *)
Definition no_marker_line (s : str) : Prop :=
  forall line, In line (split_nl s) -> is_marker_line line = false.

Definition keep_line (line : str) : bool := negb (is_marker_line line).

(** The candidate plots, in the order the plot loop visits them. *)
Definition globbed (env : Env) (work_dir : Path) (ps rs : list DirEntry.t)
  : list (Path * DirEntry.t) :=
  map (with_path (plot_dir env work_dir)) (filter is_png ps)
    ++ map (with_path (exec_dir env work_dir)) (filter is_png rs).

(** The dictionary after the three collection steps, for a plot directory
    holding [ps] and a workspace root holding [rs]. *)
Definition collected (ps rs : list DirEntry.t) (r : Result.t) : Result.t :=
  add_files (files_of rs)
    (Result.set_stdout (join_nl (filter keep_line (split_nl (Result.stdout r))))
       (add_plots (plots_of (filter is_png ps ++ filter is_png rs)) r)).

(** The install step lets the request go on: it is skipped, or the
    installer exits with status zero. *)
Definition install_passes (env : Env) (dependencies : option (list str)) : Prop :=
  truthy_list dependencies = false
  \/ exists p, pip_install env = Ok p /\ CompletedProcess.returncode p = 0%Z.

(** The request gets as far as starting the child process. *)
Definition reaches_run (env : Env) (dependencies : option (list str)) : Prop :=
  mkdir_exec_dir env = Ok tt /\ mkdir_plot_dir env = Ok tt
  /\ install_passes env dependencies /\ write_text env = Ok tt.

(** What the call gives back for the way [c] out of the guarded body. *)
Definition outcome {A : Type} (env : Env) (c : ctl A) (r : Result.t) : res Result.t :=
  match c with
  | Raise e => Err e
  | _ => Ok (Result.set_execution_time (time_end env - time_start env) r)
  end.

(** The environment with another outcome of the final [rmtree]. *)
Definition with_rmtree (r : res unit) (env : Env) : Env :=
  Build_Env (uuid4 env) (repr env) (time_start env) (time_abort env) (time_end env)
    (mkdir_exec_dir env) (mkdir_plot_dir env) (pip_install env) (write_text env)
    (run_script env) (scan_plot_dir env) (scan_exec_dir env) r.


(* ================================================================== *)
(** ** Responses, deadlines *)
(* ================================================================== *)

(** The deadline expression of /execute and /execute-advanced:
    [min(request.timeout or EXECUTION_TIMEOUT, EXECUTION_TIMEOUT)]. *)
Definition clamp_timeout (cfg : Settings) (requested : option Z) : Z :=
  Z.min (or_default requested (EXECUTION_TIMEOUT cfg)) (EXECUTION_TIMEOUT cfg).

(** The deadlines under which a child process was started. *)
Definition run_timeouts (t : list event) : list Z :=
  flat_map (fun e => match e with ERunScript _ timeout _ => [timeout] | _ => [] end) t.

(** [e] starts the script under the deadline [timeout], if it starts it. *)
Definition runs_under (timeout : Z) (e : event) : bool :=
  match e with
  | ERunScript _ timeout' _ => (timeout' =? timeout)%Z
  | _ => true
  end.

(** A response of either model. *)
Inductive response : Type :=
| Basic (r : ExecuteResponse.t)
| Advanced (r : AdvancedExecuteResponse.t).

Definition success_of (resp : response) : bool :=
  match resp with
  | Basic r => ExecuteResponse.success r
  | Advanced r => AdvancedExecuteResponse.success r
  end.

Definition error_of (resp : response) : option str :=
  match resp with
  | Basic r => ExecuteResponse.error r
  | Advanced r => AdvancedExecuteResponse.error r
  end.

Definition stdout_of (resp : response) : str :=
  match resp with
  | Basic r => ExecuteResponse.stdout r
  | Advanced r => AdvancedExecuteResponse.stdout r
  end.

Definition members_of (resp : response) : list (string * json) :=
  match resp with
  | Basic r => ExecuteResponse_members r
  | Advanced r => AdvancedExecuteResponse_members r
  end.

(** The responses the three execute endpoints can return. *)
Inductive serves (cfg : Settings) : response -> Prop :=
| serves_execute (env : Env) (request : ExecuteRequest.t) (t t' : list event)
    (r : ExecuteResponse.t) :
    execute_code cfg env request t = (t', Ok r) -> serves cfg (Basic r)
| serves_with_files (fenv : FilesEnv) (env : Env) (code : str)
    (files : list UploadFile.t) (timeout : Z) (t t' : list event)
    (r : ExecuteResponse.t) :
    execute_with_files cfg fenv env code files timeout t = (t', Ok r) ->
    serves cfg (Basic r)
| serves_advanced (env : Env) (request : AdvancedExecuteRequest.t)
    (t t' : list event) (r : AdvancedExecuteResponse.t) :
    execute_advanced cfg env request t = (t', Ok r) -> serves cfg (Advanced r).

(** The install step stops the request: the installer exits non-zero or
    runs into its own timeout. *)
Definition install_fails (env : Env) : Prop :=
  (exists p, pip_install env = Ok p /\ CompletedProcess.returncode p <> 0%Z)
  \/ (exists o e, pip_install env = Err (TimeoutExpired o e)).

(** The error reported for an install failure. *)
Definition install_error (env : Env) : str :=
  match pip_install env with
  | Ok p =>
      lit "Failed to install dependencies: "
        ++ (CompletedProcess.stdout p ++ CompletedProcess.stderr p)
  | Err _ => lit "Dependency installation timed out"
  end.

(** The installer log kept in the dictionary after an install failure. *)
Definition install_log (env : Env) : str :=
  match pip_install env with
  | Ok p => CompletedProcess.stdout p ++ CompletedProcess.stderr p
  | Err _ => []
  end.

(** The dictionary returned after an install failure. *)
Definition install_failure_result (env : Env) : Result.t :=
  Result.mk [] [] (Some (install_error env)) [] [] (install_log env)
    (time_end env - time_start env).

(** The fixed texts of a timed-out execution. *)
Definition timeout_error (timeout : Z) : str :=
  lit "Execution timed out after " ++ str_of_int timeout ++ lit " seconds".

Definition timeout_stderr (timeout : Z) : str :=
  lit "TimeoutError: Code execution exceeded " ++ str_of_int timeout
    ++ lit " second limit".

(** A call [m] appends only events that satisfy [P]. *)
Definition temits {A : Type} (P : event -> bool) (m : T A) : Prop :=
  forall t, exists evs, fst (m t) = t ++ evs /\ forallb P evs = true.

(** The characters of a list of lines, one more per line for its newline. *)
Definition weight (ls : list str) : nat :=
  list_sum (map (fun l => S (List.length l)) ls).

(** The child process comes to an end that lets the collection start:
    it exits with status zero or it is killed at the deadline. *)
Definition run_settles (env : Env) : Prop :=
  (exists proc, run_script env = Ok proc /\ CompletedProcess.returncode proc = 0%Z)
  \/ (exists o e, run_script env = Err (TimeoutExpired o e)).

(** The events of the upload loop of /execute-with-files. *)
Definition is_upload_event (e : event) : bool :=
  match e with
  | EWriteBytes _ _ | ELog _ _ => true
  | _ => false
  end.

(** Every uploaded file can be read and written into [dir]. *)
Definition uploads_ok (fenv : FilesEnv) (dir : Path) (files : list UploadFile.t) : Prop :=
  forall f, In f files ->
    (exists content, UploadFile.read f = Ok content)
    /\ write_bytes fenv (dir // UploadFile.filename f) = Ok tt.

(** The environment of /execute-with-files with another outcome of its
    own [rmtree]. *)
Definition with_rmtree_files (r : res unit) (fenv : FilesEnv) : FilesEnv :=
  Build_FilesEnv (files_uuid4 fenv) (mkdir_files_dir fenv) (write_bytes fenv) r.

(** The block guarded by the [try] of /execute-with-files. *)
Definition with_files_body (cfg : Settings) (fenv : FilesEnv) (env : Env) (code : str)
  (files : list UploadFile.t) (timeout : Z) : T ExecuteResponse.t :=
  t_for_each files (save_upload fenv (files_dir cfg fenv)) ;;;
  result <-- execute_python_code env
               (lit "import os; os.chdir(" ++ repr env (files_dir cfg fenv) ++ lit ")"
                  ++ NL :: code)
               (Z.min timeout (EXECUTION_TIMEOUT cfg)) (files_dir cfg fenv) None ;;
  tlog INFO "Execution with files completed: success=" ;;;
  tret (ExecuteResponse_of result).


(* ================================================================== *)
(** ** Further observations *)
(* ================================================================== *)

(** [s] holds a newline. *)
Definition has_newline (s : str) : bool := existsb (N.eqb NL) s.

(** The stage an event belongs to; logging belongs to none. *)
Definition stage (e : event) : option nat :=
  match e with
  | EMkdir _ => Some 0%nat
  | EWriteBytes _ _ => Some 0%nat
  | EPipInstall _ _ => Some 1%nat
  | EWriteText _ _ => Some 2%nat
  | ERunScript _ _ _ => Some 3%nat
  | EGlobPng _ | EIterdir _ | EOpenRead _ => Some 4%nat
  | ERmtree _ => Some 5%nat
  | ELog _ _ => None
  end.

Definition stages (evs : list event) : list nat :=
  flat_map (fun e => match stage e with Some n => [n] | None => [] end) evs.

Definition in_stages (lo hi : nat) (e : event) : bool :=
  match stage e with
  | Some n => (lo <=? n)%nat && (n <=? hi)%nat
  | None => true
  end.

Fixpoint nondecreasing (l : list nat) : bool :=
  match l with
  | [] => true
  | a :: r =>
      match r with
      | [] => true
      | b :: _ => (a <=? b)%nat && nondecreasing r
      end
  end.

(** [m] appends events of the stages [lo..hi] only, in stage order. *)
Definition phased {A : Type} (lo hi : nat) (m : M A) : Prop :=
  forall s, exists evs,
    trace (fst (m s)) = trace s ++ evs
    /\ forallb (in_stages lo hi) evs = true
    /\ nondecreasing (stages evs) = true.

(** The installer log as the dictionary holds it from the install step on. *)
Definition install_output_of (env : Env) (dependencies : option (list str)) : str :=
  if truthy_list dependencies then
    match pip_install env with
    | Ok p => CompletedProcess.stdout p ++ CompletedProcess.stderr p
    | Err _ => []
    end
  else [].

Definition is_mkdir_event (e : event) : bool :=
  match e with
  | EMkdir _ => true
  | _ => false
  end.

(** What the upload loop of /execute-with-files appends for the files it
    saves into [dir]: the write of each file, followed by its log line. *)
Definition saved_events (dir : Path) (files : list UploadFile.t) : list event :=
  flat_map
    (fun g =>
       match UploadFile.read g with
       | Ok content =>
           [EWriteBytes (dir // UploadFile.filename g) content;
            ELog INFO (lit "Uploaded file: ")]
       | Err _ => []
       end)
    files.

(** What the loop appends for the file at which it stops: nothing when the
    file cannot be read, the write that fails otherwise. *)
Definition attempted_events (dir : Path) (f : UploadFile.t) : list event :=
  match UploadFile.read f with
  | Ok content => [EWriteBytes (dir // UploadFile.filename f) content]
  | Err _ => []
  end.

(** The paths at which the events [evs] write uploaded bytes, in order. *)
Definition written_paths (evs : list event) : list Path :=
  flat_map (fun ev => match ev with EWriteBytes p _ => [p] | _ => [] end) evs.

(** The only script text an event writes is [content]. *)
Definition writes_only (content : str) (e : event) : bool :=
  match e with
  | EWriteText _ c => str_eqb c content
  | _ => true
  end.

(** The line that /execute-with-files puts in front of the submitted code. *)
Definition chdir_line (env : Env) (dir : Path) : str :=
  lit "import os; os.chdir(" ++ repr env dir ++ lit ")".


(* ================================================================== *)
(** ** Sample settings, environments and requests *)
(* ================================================================== *)

Module Sample.

Definition cfg : Settings := Build_Settings 30 (lit "/tmp/code-executor").

(** A [repr] good enough for paths without quotes or backslashes. *)
Definition quote (s : str) : str := lit "'" ++ s ++ lit "'".

Definition file (name : string) (content : string) : DirEntry.t :=
  DirEntry.mk (lit name) true (Ok (bytes_of_string content)).

Definition unreadable (name : string) : DirEntry.t :=
  DirEntry.mk (lit name) true (Err OSError).

Definition directory (name : string) : DirEntry.t :=
  DirEntry.mk (lit name) false (Err OSError).

(** The workspace root as every run leaves it at least. *)
Definition bare_root : list DirEntry.t :=
  [file "script.py" "print(1)"; directory "plots"].

Definition env_with (pip run : res CompletedProcess.t)
  (plots root : list DirEntry.t) (rm : res unit) : Env :=
  Build_Env (lit "0123abcd-89ab-4cde-8f01-23456789abcd") quote 0 3 5
    (Ok tt) (Ok tt) pip (Ok tt) run (Ok plots) (Ok root) rm.

Definition completed (returncode : Z) (out err : string) : res CompletedProcess.t :=
  Ok (CompletedProcess.mk returncode (lit out) (lit err)).

Definition pip_ok : res CompletedProcess.t := completed 0 "" "".

(** [print("hello")] *)
Definition hello : Env :=
  env_with pip_ok (Ok (CompletedProcess.mk 0 (lit "hello" ++ [NL]) [])) [] bare_root (Ok tt).

Definition hello_request : ExecuteRequest.t :=
  ExecuteRequest.mk (lit "print('hello')") (Some 30%Z).

(** The same request with [timeout = 0] and with [timeout = 1]. *)
Definition zero_timeout_request : ExecuteRequest.t :=
  ExecuteRequest.mk (lit "print('hello')") (Some 0%Z).

Definition one_second_request : ExecuteRequest.t :=
  ExecuteRequest.mk (lit "print('hello')") (Some 1%Z).

(** A run that leaves [out.csv] in the workspace root. *)
Definition writes_csv : Env :=
  env_with pip_ok (completed 0 "" "") [] (bare_root ++ [file "out.csv" "a,b"]) (Ok tt).

Definition advanced_request (dependencies : list str) : AdvancedExecuteRequest.t :=
  AdvancedExecuteRequest.mk (lit "open('out.csv', 'w').write('a,b')") (Some 30%Z)
    dependencies [].

(** [pip install nonexistent-package-xyz] exits with status 1. *)
Definition pip_fails : Env :=
  env_with (completed 1 "" "ERROR: No matching distribution found")
    (completed 0 "" "") [] bare_root (Ok tt).

Definition failing_install_request : AdvancedExecuteRequest.t :=
  advanced_request [lit "nonexistent-package-xyz"].


(** [sys.stderr.write("Error: boom"); sys.exit(1)] *)
Definition exits_with_error : Env :=
  env_with pip_ok (completed 1 "" "Error: boom") [] bare_root (Ok tt).


(** A run that shows one figure between two prints. *)
Definition shows_plot : Env :=
  env_with pip_ok
    (Ok (CompletedProcess.mk 0
           (join_nl [lit "hello"; PLOT_SAVED ++ lit "/tmp/w/plot_1.png"; lit "bye"; []])
           []))
    [] (bare_root ++ [file "plot_1.png" "PNG"]) (Ok tt).

(** A run that prints 102400 times the letter e with an acute accent
    (U+00E9, two bytes in UTF-8) to both streams. *)
Definition accents : str := repeat 233%N (Z.to_nat MAX_OUTPUT_SIZE).

Definition prints_accents : Env :=
  env_with pip_ok (Ok (CompletedProcess.mk 0 accents accents)) [] bare_root (Ok tt).

(** A run after which one plot and one file cannot be read. *)
Definition partly_unreadable : Env :=
  env_with pip_ok (completed 0 "" "")
    [unreadable "plot_1.png"; file "plot_2.png" "PNG"]
    (bare_root ++ [unreadable "a.txt"; file "b.txt" "abc"; file "FIG.PNG" "PNG"])
    (Ok tt).

(** One upload, [data.csv], to /execute-with-files. *)
Definition fenv : FilesEnv :=
  Build_FilesEnv (lit "aaaa1111-89ab-4cde-8f01-23456789abcd") (Ok tt)
    (fun _ => Ok tt) (Ok tt).

Definition upload : UploadFile.t :=
  UploadFile.mk (lit "data.csv") (Ok (bytes_of_string "a,b")).

(** A run that exits with status 0 after writing a warning that mentions
    an error to its standard error. *)
Definition warns : Env :=
  env_with pip_ok (completed 0 "done" "DeprecationWarning: Error: old API") []
    bare_root (Ok tt).

(** A plot saved in the workspace root next to a text file. *)
Definition plot_in_root : Env :=
  env_with pip_ok (completed 0 "" "") []
    (bare_root ++ [file "figure.png" "PNG"; file "notes.txt" "abc"]) (Ok tt).

(** A file named [.png], without a base name, in the workspace root. *)
Definition dot_png : Env :=
  env_with pip_ok (completed 0 "" "") [] (bare_root ++ [file ".png" "PNG"]) (Ok tt).

(** The plots subdirectory cannot be created. *)
Definition no_plot_dir : Env :=
  Build_Env (lit "0123abcd-89ab-4cde-8f01-23456789abcd") quote 0 3 5
    (Ok tt) (Err OSError) pip_ok (Ok tt) (completed 0 "" "") (Ok []) (Ok bare_root)
    (Ok tt).

(** The script removes its own working directory: nothing is left to
    glob, to list or to remove. *)
Definition root_gone : Env :=
  Build_Env (lit "0123abcd-89ab-4cde-8f01-23456789abcd") quote 0 3 5
    (Ok tt) (Ok tt) pip_ok (Ok tt) (completed 0 "" "") (Ok []) (Err OSError)
    (Err OSError).

(** The script cannot be written. *)
Definition read_only : Env :=
  Build_Env (lit "0123abcd-89ab-4cde-8f01-23456789abcd") quote 0 3 5
    (Ok tt) (Ok tt) pip_ok (Err OSError) (completed 0 "" "") (Ok []) (Ok bare_root)
    (Ok tt).

(** An upload that cannot be read. *)
Definition broken_upload : UploadFile.t := UploadFile.mk (lit "data.csv") (Err OSError).

(** An upload named by an absolute path that is not in normal form. *)
Definition dotted_upload : UploadFile.t :=
  UploadFile.mk (lit "/etc//cron.d/./job") (Ok (bytes_of_string "x")).

(** An environment of /execute-with-files in which nothing can be written
    under /etc. *)
Definition fenv_no_etc : FilesEnv :=
  Build_FilesEnv (lit "aaaa1111-89ab-4cde-8f01-23456789abcd") (Ok tt)
    (fun p => if startswith (lit "/etc/") p then Err OSError else Ok tt) (Ok tt).

(** An installer that succeeds with some output. *)
Definition pip_talks : Env :=
  env_with (completed 0 "Collecting numpy" "WARNING: cache disabled")
    (completed 0 "" "") [] bare_root (Ok tt).


End Sample.
(* ================================================================== *)
(** ** Lemmas on strings *)
(* ================================================================== *)

Section StringLemmas.

Lemma split_nl_no_newline (s line : str) :
  In line (split_nl s) -> ~ In NL line.
Proof.
  revert line; induction s as [|c t IH]; simpl; intros line Hin.
  - destruct Hin as [<-|[]]. intros [].
  - destruct (N.eqb_spec c NL) as [->|Hc].
    + destruct Hin as [<-|Hin]; [intros []|now apply IH].
    + destruct (split_nl t) as [|h r] eqn:E.
      * destruct Hin as [<-|[]]. intros [H|[]]. now apply Hc.
      * destruct Hin as [<-|Hin].
        -- intros [H|H]; [now apply Hc|]. apply (IH h); [now left|exact H].
        -- apply IH. now right.
Qed.

Lemma split_nl_line (l : str) : ~ In NL l -> split_nl l = [l].
Proof.
  induction l as [|c t IH]; simpl; intros H; [reflexivity|].
  destruct (N.eqb_spec c NL) as [->|Hc]; [exfalso; apply H; now left|].
  rewrite IH; [reflexivity|]. intros Hin; apply H; now right.
Qed.

Lemma split_nl_app (l rest : str) :
  ~ In NL l -> split_nl (l ++ NL :: rest) = l :: split_nl rest.
Proof.
  induction l as [|c t IH]; simpl; intros H.
  - reflexivity.
  - destruct (N.eqb_spec c NL) as [->|Hc]; [exfalso; apply H; now left|].
    rewrite IH; [reflexivity|]. intros Hin; apply H; now right.
Qed.

(** Splitting what was joined gives the lines back, as long as there is
    at least one line and no line holds a newline. *)
Lemma split_join_nl (ls : list str) :
  ls <> [] -> (forall l, In l ls -> ~ In NL l) -> split_nl (join_nl ls) = ls.
Proof.
  induction ls as [|l r IH]; intros Hne Hnl; [congruence|].
  destruct r as [|l' r'].
  - simpl. apply split_nl_line. apply Hnl; now left.
  - change (join_nl (l :: l' :: r')) with (l ++ NL :: join_nl (l' :: r')).
    rewrite split_nl_app by (apply Hnl; now left).
    f_equal. apply IH; [discriminate|]. intros x Hx; apply Hnl; now right.
Qed.

Lemma empty_not_marker : is_marker_line [] = false.
Proof. reflexivity. Qed.

(** The text rebuilt from the lines that are kept has no marker line. *)
Lemma strip_no_marker (s : str) :
  no_marker_line (join_nl (filter keep_line (split_nl s))).
Proof.
  unfold no_marker_line. intros line Hin.
  destruct (filter keep_line (split_nl s)) as [|l r] eqn:E.
  - simpl in Hin. destruct Hin as [<-|[]]. apply empty_not_marker.
  - rewrite split_join_nl in Hin.
    + rewrite <- E in Hin. apply filter_In in Hin. destruct Hin as [_ Hk].
      unfold keep_line in Hk. now apply negb_true_iff in Hk.
    + discriminate.
    + intros x Hx. rewrite <- E in Hx. apply filter_In in Hx.
      apply (split_nl_no_newline s). tauto.
Qed.

Lemma no_marker_empty : no_marker_line [].
Proof. intros line [<-|[]]. apply empty_not_marker. Qed.

Lemma len_slice_to (n : Z) (s : str) : (0 <= n)%Z -> (len (slice_to n s) <= n)%Z.
Proof.
  intros Hn. unfold len, slice_to.
  pose proof (firstn_le_length (Z.to_nat n) s). lia.
Qed.

Lemma len_capped (s : str) : (len (capped s) <= MAX_OUTPUT_SIZE)%Z.
Proof.
  unfold capped. destruct (truthy s).
  - apply len_slice_to. unfold MAX_OUTPUT_SIZE. lia.
  - unfold len, MAX_OUTPUT_SIZE. simpl. lia.
Qed.

Lemma truthy_false (s : str) : truthy s = false -> s = [].
Proof. destruct s; [reflexivity|discriminate]. Qed.

Lemma str_eqb_eq (a b : str) : str_eqb a b = true <-> a = b.
Proof.
  unfold str_eqb. destruct (list_eq_dec N.eq_dec a b); split; congruence.
Qed.

End StringLemmas.

(* ================================================================== *)
(** ** Lemmas on statements *)
(* ================================================================== *)

Section EmitsLemmas.

Variable P : event -> bool.

Lemma emits_ret {A : Type} (a : A) : emits P (ret a).
Proof. intros s. exists []. simpl. now rewrite app_nil_r. Qed.

Lemma emits_pass : emits P pass.
Proof. apply emits_ret. Qed.

Lemma emits_raise {A : Type} (e : exn) : emits P (@raise A e).
Proof. intros s. exists []. simpl. now rewrite app_nil_r. Qed.

Lemma emits_return {A : Type} : emits P (@return_result A).
Proof. intros s. exists []. simpl. now rewrite app_nil_r. Qed.

Lemma emits_lift {A : Type} (r : res A) : emits P (lift r).
Proof. destruct r; [apply emits_ret|apply emits_raise]. Qed.

Lemma emits_update (f : Result.t -> Result.t) : emits P (update f).
Proof. intros s. exists []. simpl. now rewrite app_nil_r. Qed.

Lemma emits_get : emits P get_result.
Proof. intros s. exists []. simpl. now rewrite app_nil_r. Qed.

Lemma emits_emit (e : event) : P e = true -> emits P (emit e).
Proof. intros H s. exists [e]. simpl. now rewrite H. Qed.

Lemma emits_bind {A B : Type} (m : M A) (k : A -> M B) :
  emits P m -> (forall a, emits P (k a)) -> emits P (bind m k).
Proof.
  intros Hm Hk s. unfold bind.
  destruct (Hm s) as [e1 [E1 F1]].
  destruct (m s) as [s1 [a| |e]]; simpl in E1.
  - destruct (Hk a s1) as [e2 [E2 F2]].
    exists (e1 ++ e2). rewrite E2, E1, app_assoc, forallb_app, F1, F2. now split.
  - exists e1. now split.
  - exists e1. now split.
Qed.

Lemma emits_try_except {A : Type} (m : M A) (handler : exn -> option (M A)) :
  emits P m -> (forall e h, handler e = Some h -> emits P h) ->
  emits P (try_except m handler).
Proof.
  intros Hm Hh s. unfold try_except.
  destruct (Hm s) as [e1 [E1 F1]].
  destruct (m s) as [s1 [a| |e]]; simpl in E1.
  - exists e1. now split.
  - exists e1. now split.
  - destruct (handler e) as [h|] eqn:Eh.
    + destruct (Hh e h Eh s1) as [e2 [E2 F2]].
      exists (e1 ++ e2). rewrite E2, E1, app_assoc, forallb_app, F1, F2. now split.
    + exists e1. now split.
Qed.

Lemma emits_for_each {X : Type} (l : list X) (body : X -> M unit) :
  (forall x, emits P (body x)) -> emits P (for_each l body).
Proof.
  intros Hb. induction l as [|x r IH]; simpl.
  - apply emits_pass.
  - apply emits_bind; [apply Hb|intros _; exact IH].
Qed.

Lemma emits_log (lvl : level) (msg : string) :
  (forall e, is_log e = true -> P e = true) -> emits P (log lvl msg).
Proof. intros H. apply emits_emit. now apply H. Qed.

End EmitsLemmas.

Lemma emits_weaken {A : Type} (P Q : event -> bool) (m : M A) :
  (forall e, P e = true -> Q e = true) -> emits P m -> emits Q m.
Proof.
  intros HPQ Hm s. destruct (Hm s) as [evs [E F]]. exists evs. split; [exact E|].
  rewrite forallb_forall in *. auto.
Qed.

Create HintDb emits.

#[local] Hint Resolve emits_ret emits_pass emits_raise emits_return emits_lift
  emits_update emits_get : emits.

(** Solves [emits P m] for a statement built from the combinators, given
    that [P] holds of every event the statement names. *)
Ltac emits_tac :=
  repeat first
    [ progress intros
    | apply emits_bind
    | apply emits_try_except
    | apply emits_for_each
    | apply emits_emit; reflexivity
    | apply emits_emit; simpl; apply Z.eqb_refl
    | solve [auto with emits]
    | match goal with
      | |- emits _ (if ?b then _ else _) => destruct b
      | |- emits _ (match ?x with _ => _ end) => destruct x
      | H : except_TimeoutExpired _ ?e = Some _ |- _ =>
          destruct e; simpl in H; inversion H; subst; clear H
      | H : except_Exception _ _ = Some _ |- _ =>
          unfold except_Exception in H; inversion H; subst; clear H
      end ].

Section StageLemmas.

Variable env : Env.
Variable code : str.
Variable timeout : Z.
Variable work_dir : Path.
Variable dependencies : option (list str).

Lemma emits_install :
  emits (fun e => is_pip e || is_log e) (install_dependencies env dependencies).
Proof. unfold install_dependencies, log. emits_tac. Qed.

Lemma install_skipped :
  truthy_list dependencies = false -> install_dependencies env dependencies = pass.
Proof. intros H. unfold install_dependencies. now rewrite H. Qed.

Lemma emits_run_code :
  emits (fun e => is_execution e && runs_under timeout e)
    (run_code env timeout work_dir).
Proof. unfold run_code, extract_error. emits_tac. Qed.

Lemma emits_collect_plots :
  emits (fun e => is_body_event e && negb (is_pip e) && negb (is_execution e))
    (collect_plots env work_dir).
Proof.
  unfold collect_plots, glob_png, collect_plot, open_read, log. emits_tac.
Qed.

Lemma emits_strip : emits (fun _ => false) strip_plot_markers.
Proof. unfold strip_plot_markers. emits_tac. Qed.

Lemma emits_collect_files :
  emits (fun e => is_body_event e && negb (is_pip e) && negb (is_execution e))
    (collect_files env work_dir).
Proof.
  unfold collect_files, iterdir, collect_file, open_read, log. emits_tac.
Qed.

Lemma emits_after_install :
  emits (fun e => is_body_event e && negb (is_pip e) && runs_under timeout e)
    (after_install env code timeout work_dir).
Proof.
  unfold after_install.
  apply emits_bind; [apply emits_emit; reflexivity|intros _].
  apply emits_bind; [apply emits_lift|intros _].
  apply emits_bind.
  { eapply emits_weaken; [|apply emits_run_code]. now intros []. }
  intros _. apply emits_bind.
  { eapply emits_weaken; [|apply emits_collect_plots].
    intros e H. now destruct e. }
  intros _. apply emits_bind.
  { eapply emits_weaken; [|apply emits_strip]. discriminate. }
  intros _. eapply emits_weaken; [|apply emits_collect_files].
  intros e H. now destruct e.
Qed.

Lemma emits_guarded_body :
  emits (fun e => is_body_event e && runs_under timeout e)
    (guarded_body env code timeout work_dir dependencies).
Proof.
  unfold guarded_body. apply emits_bind.
  - eapply emits_weaken; [|apply emits_install]. now intros [].
  - intros _. eapply emits_weaken; [|apply emits_after_install].
    intros e H. apply andb_true_iff in H. destruct H as [H1 H2].
    apply andb_true_iff in H1. destruct H1 as [H1 _]. now rewrite H1, H2.
Qed.

(** Without dependencies the guarded body starts no installer. *)
Lemma emits_guarded_body_no_pip :
  truthy_list dependencies = false ->
  emits (fun e => is_body_event e && negb (is_pip e))
    (guarded_body env code timeout work_dir dependencies).
Proof.
  intros H. unfold guarded_body. rewrite (install_skipped H).
  apply emits_bind; [apply emits_pass|intros _].
  eapply emits_weaken; [|apply emits_after_install].
  intros e He. apply andb_true_iff in He. tauto.
Qed.

Lemma emits_try_finally {A : Type} (P : event -> bool) (m : M A) (f : M unit) :
  emits P m -> emits P f -> emits P (try_finally m f).
Proof.
  intros Hm Hf s. unfold try_finally.
  destruct (Hm s) as [e1 [E1 F1]].
  destruct (m s) as [s1 c]. simpl in E1.
  destruct (Hf s1) as [e2 [E2 F2]].
  destruct (f s1) as [s2 [a| |e]]; simpl in E2; simpl;
    exists (e1 ++ e2); rewrite E2, E1, app_assoc, forallb_app, F1, F2; now split.
Qed.

Lemma emits_cleanup (P : event -> bool) :
  (forall p, P (ERmtree p) = true) -> (forall e, is_log e = true -> P e = true) ->
  emits P (cleanup env work_dir).
Proof.
  intros Hrm Hlog. unfold cleanup.
  apply emits_bind; [|intros _; apply emits_update].
  apply emits_try_except.
  - apply emits_bind; [apply emits_emit, Hrm|intros _; apply emits_lift].
  - intros e h H. inversion H. now apply emits_log.
Qed.

(** The whole statement emits only [P]-events as soon as the guarded body
    does and [P] holds of creation, removal and logging. *)
Lemma emits_stmt (P : event -> bool) :
  (forall p, P (EMkdir p) = true) -> (forall p, P (ERmtree p) = true) ->
  (forall e, is_log e = true -> P e = true) ->
  emits P (guarded_body env code timeout work_dir dependencies) ->
  emits P (execute_python_code_stmt env code timeout work_dir dependencies).
Proof.
  intros Hmk Hrm Hlog Hbody. unfold execute_python_code_stmt.
  apply emits_bind; [apply emits_emit, Hmk|intros _].
  apply emits_bind; [apply emits_lift|intros _].
  apply emits_bind; [apply emits_emit, Hmk|intros _].
  apply emits_bind; [apply emits_lift|intros _].
  apply emits_try_finally; [exact Hbody|now apply emits_cleanup].
Qed.

Lemma temits_execute_python_code (P : event -> bool) :
  emits P (execute_python_code_stmt env code timeout work_dir dependencies) ->
  temits P (execute_python_code env code timeout work_dir dependencies).
Proof.
  intros H t. unfold execute_python_code.
  destruct (H (mkState t Result.initial)) as [evs [E F]].
  destruct (execute_python_code_stmt _ _ _ _ _ _) as [s [a| |e]];
    simpl in *; exists evs; now split.
Qed.

End StageLemmas.

Section LoopLemmas.

Lemma add_plots_nil (r : Result.t) : add_plots [] r = r.
Proof. destruct r. unfold add_plots. simpl. now rewrite app_nil_r. Qed.

Lemma add_files_nil (r : Result.t) : add_files [] r = r.
Proof. destruct r. unfold add_files. simpl. now rewrite app_nil_r. Qed.

Lemma add_plots_app (l1 l2 : list PlotResult.t) (r : Result.t) :
  add_plots l2 (add_plots l1 r) = add_plots (l1 ++ l2) r.
Proof. unfold add_plots. simpl. now rewrite app_assoc. Qed.

Lemma add_files_app (l1 l2 : list FileResult.t) (r : Result.t) :
  add_files l2 (add_files l1 r) = add_files (l1 ++ l2) r.
Proof. unfold add_files. simpl. now rewrite app_assoc. Qed.

Lemma collect_plot_eq (pe : Path * DirEntry.t) (s : state) :
  collect_plot pe s
  = (mkState (trace s ++ plot_events pe) (add_plots (plot_of (snd pe)) (result s)),
     Next tt).
Proof.
  unfold collect_plot, plot_events, plot_of, open_read, log, try_except, bind, emit,
    lift, update, except_Exception, ret, raise.
  destruct (DirEntry.read (snd pe)); simpl.
  - now rewrite <- app_assoc.
  - now rewrite add_plots_nil, <- app_assoc.
Qed.

Lemma for_each_collect_plot (l : list (Path * DirEntry.t)) (s : state) :
  for_each l collect_plot s
  = (mkState (trace s ++ flat_map plot_events l)
       (add_plots (plots_of (map snd l)) (result s)),
     Next tt).
Proof.
  revert s. induction l as [|pe l IH]; intros s; simpl.
  - destruct s. unfold pass, ret. simpl. now rewrite app_nil_r, add_plots_nil.
  - unfold bind. rewrite collect_plot_eq, IH. simpl.
    now rewrite add_plots_app, <- app_assoc.
Qed.

Lemma collect_file_eq (pe : Path * DirEntry.t) (s : state) :
  collect_file pe s
  = (mkState (trace s ++ file_events pe) (add_files (file_of (snd pe)) (result s)),
     Next tt).
Proof.
  unfold collect_file, file_events, file_of, is_candidate_file.
  destruct s as [t r].
  destruct (DirEntry.is_file (snd pe)); simpl;
    [|unfold pass, ret; now rewrite app_nil_r, add_files_nil].
  destruct (str_eqb (DirEntry.name (snd pe)) (lit "script.py")); simpl;
    [unfold pass, ret; now rewrite app_nil_r, add_files_nil|].
  destruct (excluded_suffix (DirEntry.name (snd pe))); simpl;
    [unfold pass, ret; now rewrite app_nil_r, add_files_nil|].
  unfold open_read, log, try_except, bind, emit, lift, update, except_Exception,
    ret, raise.
  destruct (DirEntry.read (snd pe)); simpl.
  - now rewrite <- app_assoc.
  - now rewrite add_files_nil, <- app_assoc.
Qed.

Lemma for_each_collect_file (l : list (Path * DirEntry.t)) (s : state) :
  for_each l collect_file s
  = (mkState (trace s ++ flat_map file_events l)
       (add_files (files_of (map snd l)) (result s)),
     Next tt).
Proof.
  revert s. induction l as [|pe l IH]; intros s; simpl.
  - destruct s. unfold pass, ret. simpl. now rewrite app_nil_r, add_files_nil.
  - unfold bind. rewrite collect_file_eq, IH. simpl.
    now rewrite add_files_app, <- app_assoc.
Qed.

Lemma map_snd_with_path (dir : Path) (l : list DirEntry.t) :
  map snd (map (with_path dir) l) = l.
Proof. induction l; simpl; congruence. Qed.

Variable env : Env.
Variable work_dir : Path.

Lemma collect_plots_ok (ps rs : list DirEntry.t) (s : state) :
  scan_plot_dir env = Ok ps -> scan_exec_dir env = Ok rs ->
  collect_plots env work_dir s
  = (mkState
       (trace s ++ EGlobPng (plot_dir env work_dir) :: EGlobPng (exec_dir env work_dir)
          :: flat_map plot_events (globbed env work_dir ps rs))
       (add_plots (plots_of (filter is_png ps ++ filter is_png rs)) (result s)),
     Next tt).
Proof.
  intros Hp Hr. unfold collect_plots, glob_png, seen_by_glob, bind, emit, lift, ret.
  rewrite Hp, Hr. simpl.
  change (fun e : DirEntry.t => (?d // DirEntry.name e, e)) with (with_path d).
  rewrite for_each_collect_plot. simpl.
  rewrite map_app, !map_snd_with_path, <- !app_assoc. reflexivity.
Qed.

Lemma collect_plots_fault_plot_dir (e : exn) (s : state) :
  scan_plot_dir env = Err e ->
  collect_plots env work_dir s
  = (mkState (trace s ++ [EGlobPng (plot_dir env work_dir)]) (result s), Raise e).
Proof.
  intros Hp. unfold collect_plots, glob_png, bind, emit, lift, raise.
  now rewrite Hp.
Qed.

(** A workspace root that cannot be listed: the globs return, with the
    plots of the plots subdirectory only. *)
Lemma collect_plots_unlisted (ps : list DirEntry.t) (e : exn) (s : state) :
  scan_plot_dir env = Ok ps -> scan_exec_dir env = Err e ->
  collect_plots env work_dir s
  = (mkState
       (trace s ++ EGlobPng (plot_dir env work_dir) :: EGlobPng (exec_dir env work_dir)
          :: flat_map plot_events (globbed env work_dir ps []))
       (add_plots (plots_of (filter is_png ps)) (result s)),
     Next tt).
Proof.
  intros Hp Hr. unfold collect_plots, glob_png, seen_by_glob, bind, emit, lift, ret.
  rewrite Hp, Hr. simpl.
  change (fun e : DirEntry.t => (?d // DirEntry.name e, e)) with (with_path d).
  rewrite for_each_collect_plot. simpl.
  rewrite !app_nil_r, !map_snd_with_path, <- !app_assoc.
  unfold globbed. simpl. now rewrite app_nil_r.
Qed.

(** [iterdir] raises the fault of the listing. *)
Lemma collect_files_fault (e : exn) (s : state) :
  scan_exec_dir env = Err e ->
  collect_files env work_dir s
  = (mkState (trace s ++ [EIterdir (exec_dir env work_dir)]) (result s), Raise e).
Proof.
  intros Hr. unfold collect_files, iterdir, bind, emit, lift, raise.
  now rewrite Hr.
Qed.

Lemma collect_files_ok (rs : list DirEntry.t) (s : state) :
  scan_exec_dir env = Ok rs ->
  collect_files env work_dir s
  = (mkState
       (trace s ++ EIterdir (exec_dir env work_dir)
          :: flat_map file_events (map (with_path (exec_dir env work_dir)) rs))
       (add_files (files_of rs) (result s)),
     Next tt).
Proof.
  intros Hr. unfold collect_files, iterdir, bind, emit, lift, ret.
  rewrite Hr. simpl.
  change (fun e : DirEntry.t => (?d // DirEntry.name e, e)) with (with_path d).
  rewrite for_each_collect_file. simpl.
  rewrite map_snd_with_path, <- !app_assoc. reflexivity.
Qed.

End LoopLemmas.

Section PathLemmas.

Variable env : Env.
Variable code : str.
Variable timeout : Z.
Variable work_dir : Path.
Variable dependencies : option (list str).

Lemma set_install_output_same (r : Result.t) :
  Result.set_install_output (Result.install_output r) r = r.
Proof. now destruct r. Qed.

Lemma set_stdout_same (r : Result.t) : Result.set_stdout (Result.stdout r) r = r.
Proof. now destruct r. Qed.

Lemma strip_plot_markers_eq (s : state) :
  strip_plot_markers s
  = (mkState (trace s)
       (Result.set_stdout
          (join_nl (filter keep_line (split_nl (Result.stdout (result s))))) (result s)),
     Next tt).
Proof.
  unfold strip_plot_markers, bind, get_result, update, pass, ret.
  destruct (truthy (Result.stdout (result s))) eqn:E; [reflexivity|].
  apply truthy_false in E. rewrite E. simpl.
  rewrite <- E, set_stdout_same. now destruct s.
Qed.

(** The three collection steps when both directory scans succeed. *)
Lemma collect_eq (ps rs : list DirEntry.t) (s : state) :
  scan_plot_dir env = Ok ps -> scan_exec_dir env = Ok rs ->
  exists evs,
    (collect_plots env work_dir ;; strip_plot_markers ;; collect_files env work_dir) s
    = (mkState (trace s ++ evs) (collected ps rs (result s)), Next tt)
    /\ forallb is_body_event evs = true.
Proof.
  intros Hp Hr. unfold bind.
  rewrite (collect_plots_ok _ _ _ Hp Hr), strip_plot_markers_eq,
    (collect_files_ok _ _ _ Hr).
  simpl. rewrite <- app_assoc. eexists. split; [reflexivity|].
  destruct (emits_collect_plots env work_dir s) as [e1 [E1 F1]].
  rewrite (collect_plots_ok _ _ _ Hp Hr) in E1. simpl in E1.
  apply app_inv_head in E1. subst e1.
  destruct (emits_collect_files env work_dir s) as [e2 [E2 F2]].
  rewrite (collect_files_ok _ _ _ Hr) in E2. simpl in E2.
  apply app_inv_head in E2. subst e2.
  rewrite forallb_app. apply andb_true_iff. split.
  - rewrite forallb_forall in *. intros e He. specialize (F1 e He). now destruct e.
  - rewrite forallb_forall in *. intros e He. specialize (F2 e He). now destruct e.
Qed.

(** The install step when it lets the request go on. *)
Lemma install_passes_eq (s : state) :
  install_passes env dependencies ->
  exists evs io,
    install_dependencies env dependencies s
    = (mkState (trace s ++ evs) (Result.set_install_output io (result s)), Next tt)
    /\ forallb is_body_event evs = true.
Proof.
  intros [Hskip|[p [Hp Hrc]]].
  - rewrite install_skipped by exact Hskip.
    exists [], (Result.install_output (result s)).
    rewrite set_install_output_same, app_nil_r. now destruct s.
  - unfold install_dependencies.
    destruct (truthy_list dependencies).
    + unfold log, try_except, bind, emit, lift, update, get_result, ret.
      rewrite Hp, Hrc. simpl. rewrite <- !app_assoc. simpl.
      eexists. eexists. split; reflexivity.
    + exists [], (Result.install_output (result s)).
      rewrite set_install_output_same, app_nil_r. now destruct s.
Qed.

(** The finally block. *)
Lemma cleanup_eq (s : state) :
  exists tail,
    cleanup env work_dir s
    = (mkState (trace s ++ ERmtree (exec_dir env work_dir) :: tail)
         (Result.set_execution_time (time_end env - time_start env) (result s)),
       Next tt)
    /\ forallb is_log tail = true
    /\ (rmtree env = Ok tt -> tail = [])
    /\ (rmtree env <> Ok tt ->
        tail = [ELog WARNING (lit "Failed to cleanup exec dir: ")]).
Proof.
  unfold cleanup, log, try_except, bind, emit, lift, update, except_Exception, ret, raise.
  destruct (rmtree env) as [[]|e]; simpl.
  - exists []. repeat split; congruence.
  - eexists. rewrite <- app_assoc. simpl. repeat split; congruence.
Qed.

(** A request that reaches the child process returns what the collection
    steps make of the dictionary [run_code] leaves, or raises what
    [run_code] or the collection raises. *)
Lemma through_run (t : list event) :
  reaches_run env dependencies ->
  exists sC io,
    result sC = Result.set_install_output io Result.initial
    /\ forall s2 c,
        run_code env timeout work_dir sC = (s2, c) ->
        snd (execute_python_code env code timeout work_dir dependencies t)
        = match c with
          | Next _ =>
              let (s3, c3) :=
                (collect_plots env work_dir ;; strip_plot_markers ;;
                 collect_files env work_dir) s2 in
              outcome env c3 (result s3)
          | _ => outcome env c (result s2)
          end.
Proof.
  intros (Hm1 & Hm2 & Hinst & Hw).
  unfold execute_python_code, execute_python_code_stmt.
  unfold bind at 1. unfold emit at 1. unfold bind at 1. rewrite Hm1. simpl lift.
  unfold ret at 1. unfold bind at 1. unfold emit at 1. unfold bind at 1.
  rewrite Hm2. simpl lift. unfold ret at 1.
  simpl trace. simpl result.
  unfold try_finally, guarded_body. unfold bind at 1.
  destruct (install_passes_eq
              (mkState ((t ++ [EMkdir (exec_dir env work_dir)])
                          ++ [EMkdir (plot_dir env work_dir)]) Result.initial) Hinst)
    as (ievs & io & Hi & _).
  rewrite Hi. unfold after_install.
  unfold bind at 1. unfold emit at 1. unfold bind at 1. rewrite Hw. simpl lift.
  unfold ret at 1. simpl trace. simpl result.
  match goal with
  | |- context [bind (run_code _ _ _) _ ?s] => exists s
  end.
  exists io. split; [reflexivity|].
  intros s2 c Hrun. unfold bind at 1. rewrite Hrun.
  destruct c as [[]| |e].
  - destruct ((collect_plots env work_dir ;; strip_plot_markers ;;
               collect_files env work_dir) s2) as [s3 c3].
    destruct (cleanup_eq s3) as (tl & Hcl & _). rewrite Hcl.
    now destruct c3.
  - destruct (cleanup_eq s2) as (tl & Hcl & _). rewrite Hcl. reflexivity.
  - destruct (cleanup_eq s2) as (tl & Hcl & _). rewrite Hcl. reflexivity.
Qed.

(** The same with both directory scans succeeding. *)
Lemma through_run_collected (t : list event) (ps rs : list DirEntry.t) :
  reaches_run env dependencies ->
  scan_plot_dir env = Ok ps -> scan_exec_dir env = Ok rs ->
  exists sC io,
    result sC = Result.set_install_output io Result.initial
    /\ forall s2 c,
        run_code env timeout work_dir sC = (s2, c) ->
        snd (execute_python_code env code timeout work_dir dependencies t)
        = outcome env c
            (match c with
             | Next _ => collected ps rs (result s2)
             | _ => result s2
             end).
Proof.
  intros Hreach Hp Hr.
  destruct (through_run t Hreach) as (sC & io & HsC & H).
  exists sC, io. split; [exact HsC|].
  intros s2 c Hrun. rewrite (H s2 c Hrun).
  destruct c as [[]| |e]; try reflexivity.
  destruct (collect_eq s2 Hp Hr) as (cevs & Hc & _). now rewrite Hc.
Qed.

End PathLemmas.

Section TEmitsLemmas.

Variable P : event -> bool.

Lemma temits_tret {A : Type} (a : A) : temits P (tret a).
Proof. intros t. exists []. simpl. now rewrite app_nil_r. Qed.

Lemma temits_tlift {A : Type} (r : res A) : temits P (tlift r).
Proof. intros t. exists []. simpl. now rewrite app_nil_r. Qed.

Lemma temits_temit (e : event) : P e = true -> temits P (temit e).
Proof. intros H t. exists [e]. simpl. now rewrite H. Qed.

Lemma temits_tlog (lvl : level) (msg : string) :
  (forall e, is_log e = true -> P e = true) -> temits P (tlog lvl msg).
Proof. intros H. apply temits_temit. now apply H. Qed.

Lemma temits_tbind {A B : Type} (m : T A) (k : A -> T B) :
  temits P m -> (forall a, temits P (k a)) -> temits P (tbind m k).
Proof.
  intros Hm Hk t. unfold tbind.
  destruct (Hm t) as [e1 [E1 F1]].
  destruct (m t) as [t1 [a|e]]; simpl in E1.
  - destruct (Hk a t1) as [e2 [E2 F2]].
    exists (e1 ++ e2). rewrite E2, E1, app_assoc, forallb_app, F1, F2. now split.
  - exists e1. now split.
Qed.

Lemma temits_t_finally {A : Type} (m : T A) (f : T unit) :
  temits P m -> temits P f -> temits P (t_finally m f).
Proof.
  intros Hm Hf t. unfold t_finally.
  destruct (Hm t) as [e1 [E1 F1]].
  destruct (m t) as [t1 r]. simpl in E1.
  destruct (Hf t1) as [e2 [E2 F2]].
  destruct (f t1) as [t2 [a|e]]; simpl in E2; simpl;
    exists (e1 ++ e2); rewrite E2, E1, app_assoc, forallb_app, F1, F2; now split.
Qed.

Lemma temits_t_except_pass (m : T unit) : temits P m -> temits P (t_except_pass m).
Proof.
  intros Hm t. unfold t_except_pass.
  destruct (Hm t) as [e1 [E1 F1]].
  destruct (m t) as [t1 r]. simpl in *. exists e1. now split.
Qed.

Lemma temits_t_for_each {X : Type} (l : list X) (body : X -> T unit) :
  (forall x, temits P (body x)) -> temits P (t_for_each l body).
Proof.
  intros Hb. induction l as [|x r IH]; simpl.
  - apply temits_tret.
  - apply temits_tbind; [apply Hb|intros _; exact IH].
Qed.

End TEmitsLemmas.

Lemma temits_weaken {A : Type} (P Q : event -> bool) (m : T A) :
  (forall e, P e = true -> Q e = true) -> temits P m -> temits Q m.
Proof.
  intros HPQ Hm t. destruct (Hm t) as [evs [E F]]. exists evs. split; [exact E|].
  rewrite forallb_forall in *. auto.
Qed.

Section RunCode.

Variable env : Env.
Variable timeout : Z.
Variable work_dir : Path.

Lemma run_code_timeout (s : state) (o e : str) :
  run_script env = Err (TimeoutExpired o e) ->
  run_code env timeout work_dir s
  = (mkState
       (trace s ++ [ERunScript (code_file env work_dir) timeout (exec_dir env work_dir)])
       (Result.set_stderr (timeout_stderr timeout)
          (Result.set_error (Some (timeout_error timeout)) (result s))),
     Next tt).
Proof.
  intros H. unfold run_code, try_except, bind, emit, lift, update, raise.
  rewrite H. reflexivity.
Qed.

Lemma run_code_success (s : state) (proc : CompletedProcess.t) :
  run_script env = Ok proc -> CompletedProcess.returncode proc = 0%Z ->
  run_code env timeout work_dir s
  = (mkState
       (trace s ++ [ERunScript (code_file env work_dir) timeout (exec_dir env work_dir)])
       (Result.set_stderr (capped (CompletedProcess.stderr proc))
          (Result.set_stdout (capped (CompletedProcess.stdout proc)) (result s))),
     Next tt).
Proof.
  intros H Hrc. unfold run_code, try_except, bind, emit, lift, update, ret, pass.
  rewrite H, Hrc. reflexivity.
Qed.

Lemma second_to_last_raises {X : Type} (l : list X) (x : exn) :
  second_to_last l = Err x -> x = IndexError.
Proof.
  unfold second_to_last. destruct (rev l) as [|a [|b r]]; congruence.
Qed.

Lemma extract_error_raises (s s' : state) (x : exn) :
  extract_error s = (s', Raise x) -> x = IndexError.
Proof.
  unfold extract_error, bind, get_result, lift, update, ret, raise.
  destruct (contains _ _); [destruct (truthy _)|]; try discriminate.
  destruct (second_to_last _) as [line|x'] eqn:E; [discriminate|].
  intros H. inversion H. subst. now apply second_to_last_raises in E.
Qed.

(** After a non-zero exit [run_code] goes on as [extract_error] does, on
    the dictionary that holds the capped streams. *)
Lemma run_code_failure (s : state) (proc : CompletedProcess.t) :
  run_script env = Ok proc -> CompletedProcess.returncode proc <> 0%Z ->
  run_code env timeout work_dir s
  = extract_error
      (mkState
         (trace s ++ [ERunScript (code_file env work_dir) timeout (exec_dir env work_dir)])
         (Result.set_stderr (capped (CompletedProcess.stderr proc))
            (Result.set_stdout (capped (CompletedProcess.stdout proc)) (result s)))).
Proof.
  intros H Hrc. unfold run_code, try_except.
  unfold bind at 1. unfold emit at 1. unfold bind at 1. rewrite H. simpl lift.
  unfold ret at 1. unfold bind at 1. unfold update at 1.
  unfold bind at 1. unfold update at 1. simpl trace. simpl result.
  destruct (Z.eqb_spec (CompletedProcess.returncode proc) 0) as [E|_]; [contradiction|].
  cbn [negb].
  destruct (extract_error _) as [s' [a| |x]] eqn:E; try reflexivity.
  apply extract_error_raises in E. now subst.
Qed.

End RunCode.

Section InstallFailure.

Variable env : Env.
Variable code : str.
Variable timeout : Z.
Variable work_dir : Path.
Variable dependencies : option (list str).

(** The install step when the installer fails. *)
Lemma install_fails_eq (s : state) :
  truthy_list dependencies = true -> install_fails env ->
  result s = Result.initial ->
  install_dependencies env dependencies s
  = (mkState
       (trace s ++ [ELog INFO (lit "Installing dependencies: ");
                    EPipInstall (match dependencies with Some l => l | None => [] end) 60])
       (Result.set_execution_time (time_abort env - time_start env)
          (install_failure_result env)),
     Return).
Proof.
  intros Hd Hf Hs. unfold install_dependencies. rewrite Hd.
  unfold install_failure_result, install_error, install_log.
  unfold log, try_except, bind, emit, lift, update, get_result, return_result,
    except_TimeoutExpired, ret, raise.
  destruct Hf as [(p & Hp & Hrc)|(o & e & Hp)]; rewrite Hp; simpl.
  - destruct (Z.eqb_spec (CompletedProcess.returncode p) 0) as [E|_];
      [contradiction|]. simpl. now rewrite Hs, <- app_assoc.
  - now rewrite Hs, <- app_assoc.
Qed.

(** The whole call when the installer fails. *)
Lemma execute_python_code_install_fails (t : list event) :
  mkdir_exec_dir env = Ok tt -> mkdir_plot_dir env = Ok tt ->
  truthy_list dependencies = true -> install_fails env ->
  exists tail,
    execute_python_code env code timeout work_dir dependencies t
    = (t ++ EMkdir (exec_dir env work_dir) :: EMkdir (plot_dir env work_dir)
         :: ELog INFO (lit "Installing dependencies: ")
         :: EPipInstall (match dependencies with Some l => l | None => [] end) 60
         :: ERmtree (exec_dir env work_dir) :: tail,
       Ok (install_failure_result env))
    /\ forallb is_log tail = true.
Proof.
  intros Hm1 Hm2 Hd Hf.
  unfold execute_python_code, execute_python_code_stmt.
  unfold bind at 1. unfold emit at 1. unfold bind at 1. rewrite Hm1. simpl lift.
  unfold ret at 1. unfold bind at 1. unfold emit at 1. unfold bind at 1.
  rewrite Hm2. simpl lift. unfold ret at 1. simpl trace. simpl result.
  unfold try_finally, guarded_body. unfold bind at 1.
  rewrite (install_fails_eq
             (mkState ((t ++ [EMkdir (exec_dir env work_dir)])
                         ++ [EMkdir (plot_dir env work_dir)]) Result.initial)
             Hd Hf eq_refl).
  match goal with
  | |- context [cleanup _ _ ?s] => destruct (cleanup_eq env work_dir s)
                                     as (tl & Hcl & Ftl & _)
  end.
  rewrite Hcl. simpl. rewrite <- !app_assoc. simpl.
  exists tl. split; [reflexivity|exact Ftl].
Qed.

(** Without dependencies the call starts no installer. *)
Lemma execute_python_code_no_pip :
  truthy_list dependencies = false ->
  temits (fun e => negb (is_pip e))
    (execute_python_code env code timeout work_dir dependencies).
Proof.
  intros Hd. apply temits_execute_python_code, emits_stmt; try reflexivity.
  - now intros [].
  - eapply emits_weaken; [|apply (@emits_guarded_body_no_pip env code timeout work_dir dependencies Hd)].
    intros e H. apply andb_true_iff in H. tauto.
Qed.

End InstallFailure.

(* ================================================================== *)
(** ** Lemmas on the endpoints *)
(* ================================================================== *)

Section EndpointLemmas.

Variable cfg : Settings.

Lemma execute_code_inv (env : Env) (request : ExecuteRequest.t)
  (t t' : list event) (r : ExecuteResponse.t) :
  execute_code cfg env request t = (t', Ok r) ->
  exists t1 res,
    execute_python_code env (ExecuteRequest.code request)
      (clamp_timeout cfg (ExecuteRequest.timeout request)) (WORK_DIR cfg) None
      (t ++ [ELog INFO (lit "Executing code (length: ")]) = (t1, Ok res)
    /\ r = ExecuteResponse_of res
    /\ t' = t1 ++ [ELog INFO (lit "Execution completed: success=")].
Proof.
  unfold execute_code, tbind, tlog, temit, tret, clamp_timeout.
  destruct (execute_python_code _ _ _ _ _ _) as [t1 [res|e]]; intros H;
    inversion H; subst.
  now exists t1, res.
Qed.

Lemma execute_advanced_inv (env : Env) (request : AdvancedExecuteRequest.t)
  (t t' : list event) (r : AdvancedExecuteResponse.t) :
  execute_advanced cfg env request t = (t', Ok r) ->
  exists t1 res,
    execute_python_code env (AdvancedExecuteRequest.code request)
      (clamp_timeout cfg (AdvancedExecuteRequest.timeout request)) (WORK_DIR cfg)
      (Some (AdvancedExecuteRequest.dependencies request))
      (t ++ [ELog INFO (lit "Advanced execution: code=")]) = (t1, Ok res)
    /\ r = AdvancedExecuteResponse_of res
    /\ t' = t1 ++ [ELog INFO (lit "Advanced execution completed: success=")].
Proof.
  unfold execute_advanced, tbind, tlog, temit, tret, clamp_timeout.
  destruct (execute_python_code _ _ _ _ _ _) as [t1 [res|e]]; intros H;
    inversion H; subst.
  now exists t1, res.
Qed.

Lemma execute_with_files_inv (fenv : FilesEnv) (env : Env) (code : str)
  (files : list UploadFile.t) (timeout : Z) (t t' : list event)
  (r : ExecuteResponse.t) :
  execute_with_files cfg fenv env code files timeout t = (t', Ok r) ->
  exists full_code t0 t1 res,
    execute_python_code env full_code (Z.min timeout (EXECUTION_TIMEOUT cfg))
      (files_dir cfg fenv) None t0 = (t1, Ok res)
    /\ r = ExecuteResponse_of res.
Proof.
  unfold execute_with_files, t_finally, t_except_pass.
  unfold tbind at 1. unfold tlog, temit at 1. unfold tbind at 1. unfold temit at 1.
  unfold tbind at 1. unfold tlift at 1.
  destruct (mkdir_files_dir fenv) as [[]|e]; [|discriminate].
  unfold tbind at 1.
  destruct (t_for_each files _ _) as [t0 [[]|e]].
  - unfold tbind at 1.
    destruct (execute_python_code _ _ _ _ _ _) as [t1 [res|e]] eqn:E.
    + unfold tbind, temit, tret, tlift. intros H.
      destruct (rmtree_files_dir fenv); inversion H; subst;
        eexists; eexists; eexists; eexists; split; try exact E; reflexivity.
    + unfold tbind, temit, tlift. destruct (rmtree_files_dir fenv); discriminate.
  - unfold tbind, temit, tlift. destruct (rmtree_files_dir fenv); discriminate.
Qed.

(** Every response served is built from the dictionary of one call of
    [execute_python_code] that returned. *)
Lemma serves_inv (resp : response) :
  serves cfg resp ->
  exists env code timeout work_dir dependencies t res,
    snd (execute_python_code env code timeout work_dir dependencies t) = Ok res
    /\ (resp = Basic (ExecuteResponse_of res)
        \/ resp = Advanced (AdvancedExecuteResponse_of res)).
Proof.
  intros [env request t t' r H|fenv env code files timeout t t' r H
         |env request t t' r H].
  - apply execute_code_inv in H. destruct H as (t1 & res & E & -> & _).
    do 6 eexists. exists res. rewrite E. split; [reflexivity|now left].
  - apply execute_with_files_inv in H.
    destruct H as (full_code & t0 & t1 & res & E & ->).
    do 6 eexists. exists res. rewrite E. split; [reflexivity|now left].
  - apply execute_advanced_inv in H. destruct H as (t1 & res & E & -> & _).
    do 6 eexists. exists res. rewrite E. split; [reflexivity|now right].
Qed.

End EndpointLemmas.

(* ================================================================== *)
(** ** The ways through execute_python_code *)
(* ================================================================== *)

Section Ways.

Variable env : Env.
Variable code : str.
Variable timeout : Z.
Variable work_dir : Path.
Variable dependencies : option (list str).

Lemma mkdir_exec_dir_fault (t : list event) (e : exn) :
  mkdir_exec_dir env = Err e ->
  execute_python_code env code timeout work_dir dependencies t
  = (t ++ [EMkdir (exec_dir env work_dir)], Err e).
Proof.
  intros H. unfold execute_python_code, execute_python_code_stmt.
  unfold bind at 1. unfold emit at 1. unfold bind at 1. now rewrite H.
Qed.

Lemma mkdir_plot_dir_fault (t : list event) (e : exn) :
  mkdir_exec_dir env = Ok tt -> mkdir_plot_dir env = Err e ->
  execute_python_code env code timeout work_dir dependencies t
  = (t ++ [EMkdir (exec_dir env work_dir); EMkdir (plot_dir env work_dir)], Err e).
Proof.
  intros H1 H2. unfold execute_python_code, execute_python_code_stmt.
  unfold bind at 1. unfold emit at 1. unfold bind at 1. rewrite H1. simpl lift.
  unfold ret at 1. unfold bind at 1. unfold emit at 1. unfold bind at 1.
  rewrite H2. simpl. now rewrite <- app_assoc.
Qed.

(** The three ways out of the install step. *)
Lemma install_cases :
  install_passes env dependencies
  \/ (truthy_list dependencies = true /\ install_fails env)
  \/ (truthy_list dependencies = true
      /\ exists e, pip_install env = Err e
                   /\ forall o x, e <> TimeoutExpired o x).
Proof.
  destruct (truthy_list dependencies) eqn:Hd; [|left; now left].
  destruct (pip_install env) as [p|e] eqn:Hp.
  - destruct (Z.eq_dec (CompletedProcess.returncode p) 0) as [E|E].
    + left. right. now exists p.
    + right. left. split; [reflexivity|]. left. now exists p.
  - destruct e as [o x| |].
    + right. left. split; [reflexivity|]. right. now exists o, x.
    + right. right. split; [reflexivity|]. exists IndexError. split; [reflexivity|].
      discriminate.
    + right. right. split; [reflexivity|]. exists OSError. split; [reflexivity|].
      discriminate.
Qed.

Lemma install_fault (t : list event) (e : exn) :
  mkdir_exec_dir env = Ok tt -> mkdir_plot_dir env = Ok tt ->
  truthy_list dependencies = true -> pip_install env = Err e ->
  (forall o x, e <> TimeoutExpired o x) ->
  snd (execute_python_code env code timeout work_dir dependencies t) = Err e.
Proof.
  intros Hm1 Hm2 Hd Hp Hne.
  unfold execute_python_code, execute_python_code_stmt.
  unfold bind at 1. unfold emit at 1. unfold bind at 1. rewrite Hm1. simpl lift.
  unfold ret at 1. unfold bind at 1. unfold emit at 1. unfold bind at 1.
  rewrite Hm2. simpl lift. unfold ret at 1. simpl trace. simpl result.
  unfold try_finally, guarded_body. unfold bind at 1.
  unfold install_dependencies. rewrite Hd.
  unfold log, try_except. unfold bind at 1. unfold emit at 1.
  unfold bind at 1. unfold emit at 1. unfold bind at 1. rewrite Hp. simpl lift.
  unfold raise at 1. simpl trace. simpl result.
  assert (Hh : forall h : M unit, except_TimeoutExpired h e = None).
  { intros h. destruct e; try reflexivity. exfalso. now apply (Hne captured_stdout captured_stderr). }
  rewrite Hh.
  match goal with
  | |- context [cleanup _ _ ?s] => destruct (cleanup_eq env work_dir s) as (tl & Hcl & _)
  end.
  now rewrite Hcl.
Qed.

Lemma write_text_fault (t : list event) (e : exn) :
  mkdir_exec_dir env = Ok tt -> mkdir_plot_dir env = Ok tt ->
  install_passes env dependencies -> write_text env = Err e ->
  snd (execute_python_code env code timeout work_dir dependencies t) = Err e.
Proof.
  intros Hm1 Hm2 Hinst Hw.
  unfold execute_python_code, execute_python_code_stmt.
  unfold bind at 1. unfold emit at 1. unfold bind at 1. rewrite Hm1. simpl lift.
  unfold ret at 1. unfold bind at 1. unfold emit at 1. unfold bind at 1.
  rewrite Hm2. simpl lift. unfold ret at 1. simpl trace. simpl result.
  unfold try_finally, guarded_body. unfold bind at 1.
  destruct (install_passes_eq
              (mkState ((t ++ [EMkdir (exec_dir env work_dir)])
                          ++ [EMkdir (plot_dir env work_dir)]) Result.initial) Hinst)
    as (ievs & io & Hi & _).
  rewrite Hi. unfold after_install.
  unfold bind at 1. unfold emit at 1. unfold bind at 1. rewrite Hw. simpl lift.
  unfold raise at 1.
  match goal with
  | |- context [cleanup _ _ ?s] => destruct (cleanup_eq env work_dir s) as (tl & Hcl & _)
  end.
  now rewrite Hcl.
Qed.

Lemma set_error_same (r : Result.t) : Result.set_error (Result.error r) r = r.
Proof. now destruct r. Qed.

(** [run_code] never executes [return result]; when it falls through, the
    child timed out or completed, and the dictionary is as follows. *)
Lemma run_code_next (s s2 : state) (c : ctl unit) :
  run_code env timeout work_dir s = (s2, c) ->
  c <> Return
  /\ (c = Next tt ->
      (exists o e,
         run_script env = Err (TimeoutExpired o e)
         /\ result s2
            = Result.set_stderr (timeout_stderr timeout)
                (Result.set_error (Some (timeout_error timeout)) (result s)))
      \/ (exists proc err,
            run_script env = Ok proc
            /\ result s2
               = Result.set_error err
                   (Result.set_stderr (capped (CompletedProcess.stderr proc))
                      (Result.set_stdout (capped (CompletedProcess.stdout proc))
                         (result s))))).
Proof.
  destruct (run_script env) as [proc|e] eqn:Hrun.
  - destruct (Z.eq_dec (CompletedProcess.returncode proc) 0) as [Hrc|Hrc].
    + rewrite (@run_code_success env timeout work_dir s proc Hrun Hrc).
      intros H. inversion H. subst. split; [discriminate|]. intros _. right.
      exists proc. eexists. split; [reflexivity|]. now rewrite set_error_same.
    + rewrite (@run_code_failure env timeout work_dir s proc Hrun Hrc).
      unfold extract_error, bind, get_result, lift, update, ret, raise. simpl.
      destruct (contains _ _); [destruct (truthy _)|].
      * destruct (second_to_last _); simpl; intros H; inversion H; subst;
          (split; [discriminate|]); [|discriminate].
        intros _. right. exists proc. eexists. split; reflexivity.
      * simpl. intros H; inversion H; subst. split; [discriminate|].
        intros _. right. exists proc. eexists. split; reflexivity.
      * simpl. intros H; inversion H; subst. split; [discriminate|].
        intros _. right. exists proc. eexists. split; reflexivity.
  - destruct e as [o x| |].
    + rewrite (@run_code_timeout env timeout work_dir s o x Hrun).
      intros H. inversion H. subst. split; [discriminate|]. intros _. left.
      exists o, x. split; reflexivity.
    + unfold run_code, try_except, bind, emit, lift, raise. rewrite Hrun. simpl.
      intros H. inversion H. subst. split; discriminate.
    + unfold run_code, try_except, bind, emit, lift, raise. rewrite Hrun. simpl.
      intros H. inversion H. subst. split; discriminate.
Qed.

(** The collection steps fall through exactly when both scans succeed. *)
Lemma collect_cases (s : state) :
  (exists ps rs,
     scan_plot_dir env = Ok ps /\ scan_exec_dir env = Ok rs
     /\ exists evs,
          (collect_plots env work_dir ;; strip_plot_markers ;;
           collect_files env work_dir) s
          = (mkState (trace s ++ evs) (collected ps rs (result s)), Next tt))
  \/ (exists s' e,
        (collect_plots env work_dir ;; strip_plot_markers ;;
         collect_files env work_dir) s = (s', Raise e)).
Proof.
  destruct (scan_plot_dir env) as [ps|e] eqn:Hp.
  - destruct (scan_exec_dir env) as [rs|e] eqn:Hr.
    + left. exists ps, rs. split; [reflexivity|]. split; [reflexivity|].
      destruct (@collect_eq env work_dir ps rs s Hp Hr) as (evs & H & _).
      now exists evs.
    + right. unfold bind.
      rewrite (@collect_plots_unlisted env work_dir ps e s Hp Hr),
        strip_plot_markers_eq, (@collect_files_fault env work_dir e _ Hr).
      eexists. eexists. reflexivity.
  - right. unfold bind at 1.
    rewrite (@collect_plots_fault_plot_dir env work_dir e s Hp).
    eexists. eexists. reflexivity.
Qed.

(** Every dictionary the call returns comes from an install failure or
    from the collection steps after the child process. *)
Lemma returned_inv (t : list event) (r : Result.t) :
  snd (execute_python_code env code timeout work_dir dependencies t) = Ok r ->
  (truthy_list dependencies = true /\ install_fails env
   /\ r = install_failure_result env)
  \/ (reaches_run env dependencies
      /\ exists sC io s2 ps rs,
           result sC = Result.set_install_output io Result.initial
           /\ run_code env timeout work_dir sC = (s2, Next tt)
           /\ scan_plot_dir env = Ok ps /\ scan_exec_dir env = Ok rs
           /\ r = Result.set_execution_time (time_end env - time_start env)
                    (collected ps rs (result s2))).
Proof.
  intros H.
  destruct (mkdir_exec_dir env) as [[]|e] eqn:Hm1;
    [|rewrite (mkdir_exec_dir_fault t Hm1) in H; discriminate].
  destruct (mkdir_plot_dir env) as [[]|e] eqn:Hm2;
    [|rewrite (mkdir_plot_dir_fault t Hm1 Hm2) in H; discriminate].
  destruct install_cases as [Hpass|[[Hd Hfail]|[Hd (e & Hp & Hne)]]].
  - destruct (write_text env) as [[]|e] eqn:Hw;
      [|rewrite (write_text_fault t Hm1 Hm2 Hpass Hw) in H; discriminate].
    right.
    assert (Hreach : reaches_run env dependencies) by (repeat split; assumption).
    split; [exact Hreach|].
    destruct (@through_run env code timeout work_dir dependencies t Hreach)
      as (sC & io & HsC & Hrun).
    destruct (run_code env timeout work_dir sC) as [s2 c] eqn:Erun.
    specialize (Hrun s2 c eq_refl). rewrite Hrun in H.
    destruct (run_code_next sC Erun) as [Hnr _].
    destruct c as [[]| |e]; [|congruence|discriminate].
    destruct (collect_cases s2) as [(ps & rs & Hp & Hr & evs & Hc)|(s' & e & Hc)];
      rewrite Hc in H; [|discriminate].
    simpl in H. inversion H.
    exists sC, io, s2, ps, rs. repeat split; assumption.
  - left.
    destruct (@execute_python_code_install_fails env code timeout work_dir dependencies
                t Hm1 Hm2 Hd Hfail) as (tl & E & _).
    rewrite E in H. simpl in H. inversion H. now repeat split.
  - rewrite (install_fault t Hm1 Hm2 Hd Hp Hne) in H. discriminate.
Qed.

End Ways.

Lemma runs_under_timeouts (timeout : Z) (evs : list event) :
  forallb (runs_under timeout) evs = true ->
  forall t, In t (run_timeouts evs) -> t = timeout.
Proof.
  induction evs as [|e evs IH]; simpl; intros H t Hin; [contradiction|].
  apply andb_true_iff in H. destruct H as [He H].
  unfold run_timeouts in Hin. simpl in Hin. apply in_app_or in Hin.
  destruct Hin as [Hin|Hin]; [|now apply IH].
  destruct e; simpl in *; try contradiction.
  destruct Hin as [<-|[]]. now apply Z.eqb_eq in He.
Qed.

(** Every child process [execute_python_code] starts runs under the
    deadline the call was given. *)
Lemma temits_runs_under (env : Env) (code : str) (timeout : Z) (work_dir : Path)
  (dependencies : option (list str)) :
  temits (runs_under timeout)
    (execute_python_code env code timeout work_dir dependencies).
Proof.
  apply temits_execute_python_code, emits_stmt; try reflexivity.
  - now intros [].
  - eapply emits_weaken; [|apply emits_guarded_body].
    intros e H. apply andb_true_iff in H. tauto.
Qed.


Section Returned.

Variable env : Env.
Variable code : str.
Variable timeout : Z.
Variable work_dir : Path.
Variable dependencies : option (list str).

Lemma passes_not_fails :
  install_passes env dependencies -> truthy_list dependencies = true ->
  install_fails env -> False.
Proof.
  intros [Hskip|(p & Hp & Hrc)] Hd Hf; [congruence|].
  destruct Hf as [(p' & Hp' & Hrc')|(o & e & He)]; congruence.
Qed.

(** The artifacts of every dictionary the call returns. *)
Lemma returned_artifacts (t : list event) (r : Result.t) :
  snd (execute_python_code env code timeout work_dir dependencies t) = Ok r ->
  (Result.plots r = [] /\ Result.files r = [])
  \/ exists ps rs,
       scan_plot_dir env = Ok ps /\ scan_exec_dir env = Ok rs
       /\ Result.plots r = plots_of (filter is_png ps ++ filter is_png rs)
       /\ Result.files r = files_of rs.
Proof.
  intros H. apply returned_inv in H.
  destruct H as [(_ & _ & ->)|(_ & sC & io & s2 & ps & rs & HsC & Hrun & Hp & Hr & ->)].
  - left. now split.
  - right. exists ps, rs. split; [exact Hp|]. split; [exact Hr|].
    apply run_code_next in Hrun. destruct Hrun as [_ Hrun].
    destruct (Hrun eq_refl) as [(o & e & _ & ->)|(proc & err & _ & ->)];
      simpl; rewrite HsC; now split.
Qed.

(** The streams of a returned dictionary after a completed child. *)
Lemma returned_streams (t : list event) (r : Result.t) (proc : CompletedProcess.t) :
  install_passes env dependencies -> run_script env = Ok proc ->
  snd (execute_python_code env code timeout work_dir dependencies t) = Ok r ->
  Result.stdout r
  = join_nl (filter keep_line (split_nl (capped (CompletedProcess.stdout proc))))
  /\ Result.stderr r = capped (CompletedProcess.stderr proc).
Proof.
  intros Hpass Hproc H. apply returned_inv in H.
  destruct H as [(Hd & Hf & _)|(_ & sC & io & s2 & ps & rs & HsC & Hrun & _ & _ & ->)].
  - exfalso. exact (passes_not_fails Hpass Hd Hf).
  - apply run_code_next in Hrun. destruct Hrun as [_ Hrun].
    destruct (Hrun eq_refl) as [(o & e & Ht & _)|(proc' & err & Hp' & ->)];
      [congruence|].
    assert (proc' = proc) by congruence. subst proc'. now split.
Qed.

End Returned.


(* ================================================================== *)
(** ** The properties *)
(* ================================================================== *)

Section Lifecycle.

Variable env : Env.
Variable code : str.
Variable timeout : Z.
Variable work_dir : Path.
Variable dependencies : option (list str).

Lemma cleanup_trace (s : state) :
  cleanup env work_dir s
  = (mkState (trace s ++ ERmtree (exec_dir env work_dir) :: cleanup_log env)
       (Result.set_execution_time (time_end env - time_start env) (result s)),
     Next tt).
Proof.
  unfold cleanup, cleanup_log, log, try_except, bind, emit, lift, update,
    except_Exception, ret, raise.
  destruct (rmtree env) as [[]|e]; simpl; [reflexivity|].
  now rewrite <- app_assoc.
Qed.

(** The call once the workspace is created: what it appends to the trace
    and what it gives back, in terms of the guarded body. *)
Lemma execute_python_code_eq (t : list event) :
  mkdir_exec_dir env = Ok tt -> mkdir_plot_dir env = Ok tt ->
  execute_python_code env code timeout work_dir dependencies t
  = let (s1, c) :=
      guarded_body env code timeout work_dir dependencies
        (mkState ((t ++ [EMkdir (exec_dir env work_dir)])
                    ++ [EMkdir (plot_dir env work_dir)]) Result.initial) in
    (trace s1 ++ ERmtree (exec_dir env work_dir) :: cleanup_log env,
     outcome env c (result s1)).
Proof.
  intros Hm1 Hm2. unfold execute_python_code, execute_python_code_stmt.
  unfold bind at 1. unfold emit at 1. unfold bind at 1. rewrite Hm1. simpl lift.
  unfold ret at 1. unfold bind at 1. unfold emit at 1. unfold bind at 1.
  rewrite Hm2. simpl lift. unfold ret at 1. simpl trace. simpl result.
  unfold try_finally.
  destruct (guarded_body _ _ _ _ _ _) as [s1 c].
  rewrite cleanup_trace. now destruct c.
Qed.

(** On every way out, one workspace is created and removed. *)
Lemma execute_python_code_one_workspace (t : list event) :
  mkdir_exec_dir env = Ok tt -> mkdir_plot_dir env = Ok tt ->
  exists evs,
    fst (execute_python_code env code timeout work_dir dependencies t) = t ++ evs
    /\ one_workspace (exec_dir env work_dir) (cleanup_log env) evs.
Proof.
  intros Hm1 Hm2. rewrite (execute_python_code_eq t Hm1 Hm2).
  destruct (emits_guarded_body env code timeout work_dir dependencies
              (mkState ((t ++ [EMkdir (exec_dir env work_dir)])
                          ++ [EMkdir (plot_dir env work_dir)]) Result.initial))
    as (mid & E & F).
  destruct (guarded_body _ _ _ _ _ _) as [s1 c]. simpl in *.
  rewrite E, <- !app_assoc. simpl.
  eexists. split; [reflexivity|].
  exists mid. split; [reflexivity|].
  rewrite forallb_forall in *. intros e He. specialize (F e He).
  apply andb_true_iff in F. tauto.
Qed.

End Lifecycle.

(** Whether the final [rmtree] succeeds has no bearing on what is returned. *)
Lemma rmtree_outcome_irrelevant (env : Env) (code : str) (timeout : Z)
  (work_dir : Path) (dependencies : option (list str)) (t : list event)
  (r : res unit) :
  snd (execute_python_code (with_rmtree r env) code timeout work_dir dependencies t)
  = snd (execute_python_code env code timeout work_dir dependencies t).
Proof.
  destruct (mkdir_exec_dir env) as [[]|e] eqn:Hm1.
  - destruct (mkdir_plot_dir env) as [[]|e] eqn:Hm2.
    + rewrite (@execute_python_code_eq (with_rmtree r env) code timeout work_dir
                 dependencies t Hm1 Hm2).
      rewrite (@execute_python_code_eq env code timeout work_dir dependencies t Hm1 Hm2).
      change (guarded_body (with_rmtree r env) code timeout work_dir dependencies)
        with (guarded_body env code timeout work_dir dependencies).
      change (exec_dir (with_rmtree r env) work_dir) with (exec_dir env work_dir).
      change (plot_dir (with_rmtree r env) work_dir) with (plot_dir env work_dir).
      now destruct (guarded_body _ _ _ _ _ _) as [s1 c].
    + rewrite (@mkdir_plot_dir_fault (with_rmtree r env) code timeout work_dir
                 dependencies t e Hm1 Hm2).
      now rewrite (@mkdir_plot_dir_fault env code timeout work_dir dependencies t e
                     Hm1 Hm2).
  - rewrite (@mkdir_exec_dir_fault (with_rmtree r env) code timeout work_dir
               dependencies t e Hm1).
    now rewrite (@mkdir_exec_dir_fault env code timeout work_dir dependencies t e Hm1).
Qed.

Section WithFiles.

Variable cfg : Settings.
Variable fenv : FilesEnv.
Variable env : Env.
Variable code : str.
Variable files : list UploadFile.t.
Variable timeout : Z.

Lemma execute_with_files_eq (t : list event) :
  mkdir_files_dir fenv = Ok tt ->
  execute_with_files cfg fenv env code files timeout t
  = let (t1, r) :=
      with_files_body cfg fenv env code files timeout
        (t ++ [ELog INFO (lit "Executing code with "); EMkdir (files_dir cfg fenv)]) in
    (t1 ++ [ERmtree (files_dir cfg fenv)], r).
Proof.
  intros Hm. unfold execute_with_files.
  unfold tbind at 1. unfold tlog at 1. unfold temit at 1.
  unfold tbind at 1. unfold temit at 1. unfold tbind at 1. unfold tlift at 1.
  rewrite Hm. unfold t_finally. fold (with_files_body cfg fenv env code files timeout).
  rewrite <- app_assoc. simpl app.
  destruct (with_files_body _ _ _ _ _ _ _) as [t1 r].
  unfold t_except_pass, tbind, temit, tlift.
  now destruct (rmtree_files_dir fenv).
Qed.

Lemma temits_uploads (dir : Path) :
  temits is_upload_event (t_for_each files (save_upload fenv dir)).
Proof.
  apply temits_t_for_each. intros f. unfold save_upload.
  apply temits_tbind; [apply temits_tlift|intros content].
  apply temits_tbind; [now apply temits_temit|intros _].
  apply temits_tbind; [apply temits_tlift|intros _].
  now apply temits_tlog; intros [].
Qed.

End WithFiles.

Lemma save_upload_ok (fenv : FilesEnv) (dir : Path) (f : UploadFile.t)
  (content : bytes) (t : list event) :
  UploadFile.read f = Ok content ->
  write_bytes fenv (dir // UploadFile.filename f) = Ok tt ->
  save_upload fenv dir f t
  = (t ++ [EWriteBytes (dir // UploadFile.filename f) content;
           ELog INFO (lit "Uploaded file: ")], Ok tt).
Proof.
  intros Hr Hw. unfold save_upload, tlog, tbind, tlift, temit.
  rewrite Hr, Hw. now rewrite <- app_assoc.
Qed.

Lemma uploads_trace (fenv : FilesEnv) (dir : Path) (files : list UploadFile.t)
  (t : list event) :
  uploads_ok fenv dir files ->
  exists ups,
    t_for_each files (save_upload fenv dir) t = (t ++ ups, Ok tt)
    /\ forallb is_upload_event ups = true.
Proof.
  revert t. induction files as [|f fs IH]; intros t Hok.
  - exists []. simpl. unfold tret. now rewrite app_nil_r.
  - destruct (Hok f (or_introl eq_refl)) as [[content Hr] Hw].
    destruct (IH (t ++ [EWriteBytes (dir // UploadFile.filename f) content;
                        ELog INFO (lit "Uploaded file: ")])
                 (fun g Hg => Hok g (or_intror Hg))) as (ups & E & F).
    simpl. unfold tbind at 1. rewrite (save_upload_ok fenv dir f t Hr Hw), E.
    rewrite <- app_assoc. simpl.
    eexists. split; [reflexivity|]. simpl. exact F.
Qed.

Lemma temits_with_files_body (cfg : Settings) (fenv : FilesEnv) (env : Env)
  (code : str) (files : list UploadFile.t) (timeout : Z) :
  temits (fun _ => true) (with_files_body cfg fenv env code files timeout).
Proof.
  unfold with_files_body.
  apply temits_tbind.
  { eapply temits_weaken; [|apply temits_uploads]. reflexivity. }
  intros _. apply temits_tbind.
  { eapply temits_weaken; [|apply temits_runs_under]. reflexivity. }
  intros res. apply temits_tbind; [now apply temits_tlog|intros _].
  apply temits_tret.
Qed.

(** C1, amended.  Every call of [execute_python_code] whose two [mkdir]
    calls succeed creates one workspace directory [work_dir/<id>] with its
    [plots] subdirectory and calls [rmtree] on it once, after every other
    action on the file system, on every way out (normal completion,
    install failure, timeout, any fault during execution or collection); a
    failure of that removal is logged and does not change what is
    returned.  /execute and /execute-advanced make one such call with
    [work_dir = WORK_DIR].  /execute-with-files creates two nested
    directories per request: [WORK_DIR/<id>], without a [plots]
    subdirectory, for the uploads, and inside it the workspace of the one
    call it makes; both are removed, the inner one first, and a failure to
    remove the outer one is ignored without a log entry. *)
Theorem C1_workspace_lifecycle (cfg : Settings) :
  (forall env code timeout work_dir dependencies t,
     mkdir_exec_dir env = Ok tt -> mkdir_plot_dir env = Ok tt ->
     exists evs,
       fst (execute_python_code env code timeout work_dir dependencies t) = t ++ evs
       /\ one_workspace (exec_dir env work_dir) (cleanup_log env) evs)
  /\ (forall env code timeout work_dir dependencies t r,
        snd (execute_python_code (with_rmtree r env) code timeout work_dir
               dependencies t)
        = snd (execute_python_code env code timeout work_dir dependencies t))
  /\ (forall env request t,
        mkdir_exec_dir env = Ok tt -> mkdir_plot_dir env = Ok tt ->
        exists pre evs post,
          fst (execute_code cfg env request t) = t ++ pre ++ evs ++ post
          /\ forallb is_log pre = true /\ forallb is_log post = true
          /\ one_workspace (exec_dir env (WORK_DIR cfg)) (cleanup_log env) evs)
  /\ (forall env request t,
        mkdir_exec_dir env = Ok tt -> mkdir_plot_dir env = Ok tt ->
        exists pre evs post,
          fst (execute_advanced cfg env request t) = t ++ pre ++ evs ++ post
          /\ forallb is_log pre = true /\ forallb is_log post = true
          /\ one_workspace (exec_dir env (WORK_DIR cfg)) (cleanup_log env) evs)
  /\ (forall fenv env code files timeout t,
        mkdir_files_dir fenv = Ok tt ->
        exists mid,
          fst (execute_with_files cfg fenv env code files timeout t)
          = t ++ ELog INFO (lit "Executing code with ")
              :: EMkdir (files_dir cfg fenv)
              :: mid ++ [ERmtree (files_dir cfg fenv)]
          /\ (uploads_ok fenv (files_dir cfg fenv) files ->
              mkdir_exec_dir env = Ok tt -> mkdir_plot_dir env = Ok tt ->
              exists ups inner logs,
                mid = ups ++ inner ++ logs
                /\ forallb is_upload_event ups = true
                /\ one_workspace (exec_dir env (files_dir cfg fenv)) (cleanup_log env)
                     inner
                /\ forallb is_log logs = true))
  /\ (forall fenv env code files timeout t r,
        execute_with_files cfg (with_rmtree_files r fenv) env code files timeout t
        = execute_with_files cfg fenv env code files timeout t).
Proof.
  split; [|split; [|split; [|split; [|split]]]].
  - intros env code timeout work_dir dependencies t Hm1 Hm2.
    now apply execute_python_code_one_workspace.
  - intros. apply rmtree_outcome_irrelevant.
  - intros env request t Hm1 Hm2.
    unfold execute_code, tbind, tlog, temit, tret.
    destruct (@execute_python_code_one_workspace env (ExecuteRequest.code request)
                (Z.min (or_default (ExecuteRequest.timeout request)
                          (EXECUTION_TIMEOUT cfg)) (EXECUTION_TIMEOUT cfg))
                (WORK_DIR cfg) None
                (t ++ [ELog INFO (lit "Executing code (length: ")]) Hm1 Hm2)
      as (evs & E & W).
    destruct (execute_python_code _ _ _ _ _ _) as [t1 [res|e]]; simpl in E; subst t1.
    + exists [ELog INFO (lit "Executing code (length: ")], evs,
        [ELog INFO (lit "Execution completed: success=")].
      simpl. rewrite <- !app_assoc. simpl. now repeat split.
    + exists [ELog INFO (lit "Executing code (length: ")], evs, [].
      simpl. rewrite <- !app_assoc, app_nil_r. simpl. now repeat split.
  - intros env request t Hm1 Hm2.
    unfold execute_advanced, tbind, tlog, temit, tret.
    destruct (@execute_python_code_one_workspace env
                (AdvancedExecuteRequest.code request)
                (Z.min (or_default (AdvancedExecuteRequest.timeout request)
                          (EXECUTION_TIMEOUT cfg)) (EXECUTION_TIMEOUT cfg))
                (WORK_DIR cfg) (Some (AdvancedExecuteRequest.dependencies request))
                (t ++ [ELog INFO (lit "Advanced execution: code=")]) Hm1 Hm2)
      as (evs & E & W).
    destruct (execute_python_code _ _ _ _ _ _) as [t1 [res|e]]; simpl in E; subst t1.
    + exists [ELog INFO (lit "Advanced execution: code=")], evs,
        [ELog INFO (lit "Advanced execution completed: success=")].
      simpl. rewrite <- !app_assoc. simpl. now repeat split.
    + exists [ELog INFO (lit "Advanced execution: code=")], evs, [].
      simpl. rewrite <- !app_assoc, app_nil_r. simpl. now repeat split.
  - intros fenv env code files timeout t Hm.
    rewrite (execute_with_files_eq cfg fenv env code files timeout t Hm).
    destruct (temits_with_files_body cfg fenv env code files timeout
                (t ++ [ELog INFO (lit "Executing code with ");
                       EMkdir (files_dir cfg fenv)])) as (mid & E & _).
    destruct (with_files_body _ _ _ _ _ _ _) as [t1 r] eqn:Eb.
    simpl in E. subst t1. exists mid. split.
    { simpl. now rewrite <- !app_assoc. }
    intros Hups Hm1 Hm2. revert Eb. unfold with_files_body.
    unfold tbind at 1.
    destruct (@uploads_trace fenv (files_dir cfg fenv) files
                (t ++ [ELog INFO (lit "Executing code with ");
                       EMkdir (files_dir cfg fenv)]) Hups) as (ups & Eu & Fu).
    rewrite Eu. unfold tbind at 1.
    match goal with
    | |- context [execute_python_code ?e ?c ?to ?wd ?d ?t0] =>
        destruct (@execute_python_code_one_workspace e c to wd d t0 Hm1 Hm2)
          as (inner & Ei & W);
        destruct (execute_python_code e c to wd d t0) as [t2 [res|x]]
    end; simpl in Ei; subst t2; unfold tbind, tlog, temit, tret; intros Eb;
      inversion Eb as [[Ht Hr]]; clear Eb.
    + exists ups, inner, [ELog INFO (lit "Execution with files completed: success=")].
      rewrite <- !app_assoc in Ht. apply app_inv_head in Ht.
      simpl in Ht. apply (f_equal (@List.tl event)) in Ht. simpl in Ht.
      apply (f_equal (@List.tl event)) in Ht. simpl in Ht.
      now repeat split.
    + exists ups, inner, [].
      rewrite <- !app_assoc in Ht. apply app_inv_head in Ht.
      simpl in Ht. apply (f_equal (@List.tl event)) in Ht. simpl in Ht.
      apply (f_equal (@List.tl event)) in Ht. simpl in Ht.
      rewrite app_nil_r. now repeat split.
  - intros fenv env code files timeout t r.
    destruct (mkdir_files_dir fenv) as [[]|e] eqn:Hm.
    + rewrite (execute_with_files_eq cfg (with_rmtree_files r fenv) env code files
                 timeout t Hm).
      now rewrite (execute_with_files_eq cfg fenv env code files timeout t Hm).
    + unfold execute_with_files, tbind, tlog, temit, tlift. simpl. now rewrite Hm.
Qed.

Lemma C1_witness :
  exists evs,
    fst (execute_python_code Sample.hello (lit "print('hello')") 30
           (WORK_DIR Sample.cfg) None []) = [] ++ evs
    /\ one_workspace (exec_dir Sample.hello (WORK_DIR Sample.cfg))
         (cleanup_log Sample.hello) evs.
Proof.
  apply (proj1 (C1_workspace_lifecycle Sample.cfg)); reflexivity.
Defined.

(** C1 as stated fails for /execute-with-files: one request creates the
    upload directory [WORK_DIR/aaaa1111], which gets no [plots]
    subdirectory, and inside it the workspace [0123abcd] with its [plots];
    two trees are removed. *)
Lemma C1_counterexample :
  let t := fst (execute_with_files Sample.cfg Sample.fenv Sample.hello
                  (lit "print('hello')") [Sample.upload] 30 []) in
  created t
  = [lit "/tmp/code-executor/aaaa1111";
     lit "/tmp/code-executor/aaaa1111/0123abcd";
     lit "/tmp/code-executor/aaaa1111/0123abcd/plots"]
  /\ removed t
     = [lit "/tmp/code-executor/aaaa1111/0123abcd"; lit "/tmp/code-executor/aaaa1111"]
  /\ ~ (exists ws, created t = [ws; ws // lit "plots"]).
Proof.
  assert (H : created (fst (execute_with_files Sample.cfg Sample.fenv Sample.hello
                              (lit "print('hello')") [Sample.upload] 30 []))
              = [lit "/tmp/code-executor/aaaa1111";
                 lit "/tmp/code-executor/aaaa1111/0123abcd";
                 lit "/tmp/code-executor/aaaa1111/0123abcd/plots"])
    by (vm_compute; reflexivity).
  cbv zeta. split; [exact H|]. split; [vm_compute; reflexivity|].
  rewrite H. intros [ws Hws]. discriminate.
Qed.

(** C2.  For every response returned by any of the three execute
    endpoints, the success flag is true if and only if the error field is
    null. *)
Theorem C2_success_iff_no_error (cfg : Settings) (resp : response) :
  serves cfg resp -> (success_of resp = true <-> error_of resp = None).
Proof.
  intros H. apply serves_inv in H.
  destruct H as (env & code & timeout & wd & deps & t & res & _ & [->| ->]);
    simpl; destruct (Result.error res); simpl; split; congruence.
Qed.

Lemma C2_witness :
  success_of
    (Basic (ExecuteResponse.mk true (lit "hello" ++ [NL]) [] None [] (Some 5%Z))) = true
  <-> error_of
        (Basic (ExecuteResponse.mk true (lit "hello" ++ [NL]) [] None [] (Some 5%Z)))
      = None.
Proof.
  apply (@C2_success_iff_no_error Sample.cfg).
  eapply (@serves_execute Sample.cfg Sample.hello Sample.hello_request []).
  vm_compute. reflexivity.
Defined.





(** C4, amended.  /execute and /execute-advanced run the child under
    [min(requested, EXECUTION_TIMEOUT)] for every requested value other
    than 0; a request without a timeout or with timeout 0 runs under the
    ceiling [EXECUTION_TIMEOUT].  /execute-with-files runs the child under
    [min(requested, EXECUTION_TIMEOUT)] for every requested value. *)
Theorem C4_effective_timeout (cfg : Settings) :
  (forall v, v <> 0%Z ->
     clamp_timeout cfg (Some v) = Z.min v (EXECUTION_TIMEOUT cfg))
  /\ clamp_timeout cfg (Some 0%Z) = EXECUTION_TIMEOUT cfg
  /\ clamp_timeout cfg None = EXECUTION_TIMEOUT cfg
  /\ (forall env request timeout,
        In timeout (run_timeouts (fst (execute_code cfg env request []))) ->
        timeout = clamp_timeout cfg (ExecuteRequest.timeout request))
  /\ (forall env request timeout,
        In timeout (run_timeouts (fst (execute_advanced cfg env request []))) ->
        timeout = clamp_timeout cfg (AdvancedExecuteRequest.timeout request))
  /\ (forall fenv env code files requested timeout,
        In timeout
          (run_timeouts (fst (execute_with_files cfg fenv env code files requested []))) ->
        timeout = Z.min requested (EXECUTION_TIMEOUT cfg)).
Proof.
  repeat split.
  - intros v Hv. unfold clamp_timeout, or_default.
    destruct (Z.eqb_spec v 0); [contradiction|reflexivity].
  - unfold clamp_timeout, or_default. simpl. apply Z.min_id.
  - unfold clamp_timeout, or_default. apply Z.min_id.
  - intros env request timeout.
    assert (H : temits (runs_under (clamp_timeout cfg (ExecuteRequest.timeout request)))
                  (execute_code cfg env request)).
    { unfold execute_code.
      apply temits_tbind; [now apply temits_tlog; intros []|intros _].
      apply temits_tbind; [apply temits_runs_under|intros res].
      apply temits_tbind; [now apply temits_tlog; intros []|intros _].
      apply temits_tret. }
    destruct (H []) as [evs [E F]]. rewrite E. simpl.
    now apply runs_under_timeouts.
  - intros env request timeout.
    assert (H : temits
                  (runs_under (clamp_timeout cfg (AdvancedExecuteRequest.timeout request)))
                  (execute_advanced cfg env request)).
    { unfold execute_advanced.
      apply temits_tbind; [now apply temits_tlog; intros []|intros _].
      apply temits_tbind; [apply temits_runs_under|intros res].
      apply temits_tbind; [now apply temits_tlog; intros []|intros _].
      apply temits_tret. }
    destruct (H []) as [evs [E F]]. rewrite E. simpl.
    now apply runs_under_timeouts.
  - intros fenv env code files requested timeout.
    assert (H : temits (runs_under (Z.min requested (EXECUTION_TIMEOUT cfg)))
                  (execute_with_files cfg fenv env code files requested)).
    { unfold execute_with_files.
      apply temits_tbind; [now apply temits_tlog; intros []|intros _].
      apply temits_tbind; [now apply temits_temit|intros _].
      apply temits_tbind; [apply temits_tlift|intros _].
      apply temits_t_finally.
      - apply temits_tbind.
        + apply temits_t_for_each. intros f. unfold save_upload.
          apply temits_tbind; [apply temits_tlift|intros content].
          apply temits_tbind; [now apply temits_temit|intros _].
          apply temits_tbind; [apply temits_tlift|intros _].
          now apply temits_tlog; intros [].
        + intros _.
          apply temits_tbind; [apply temits_runs_under|intros res].
          apply temits_tbind; [now apply temits_tlog; intros []|intros _].
          apply temits_tret.
      - apply temits_t_except_pass.
        apply temits_tbind; [now apply temits_temit|intros _]. apply temits_tlift. }
    destruct (H []) as [evs [E F]]. rewrite E. simpl.
    now apply runs_under_timeouts.
Qed.

Lemma C4_witness :
  clamp_timeout Sample.cfg (Some 1%Z) = Z.min 1 (EXECUTION_TIMEOUT Sample.cfg)
  /\ 1%Z = clamp_timeout Sample.cfg
             (ExecuteRequest.timeout Sample.one_second_request).
Proof.
  split.
  - apply (proj1 (C4_effective_timeout Sample.cfg)). discriminate.
  - apply (proj1 (proj2 (proj2 (proj2 (C4_effective_timeout Sample.cfg))))
             Sample.hello Sample.one_second_request 1%Z).
    vm_compute. left. reflexivity.
Defined.

(** C4 as stated fails: a requested timeout of 0 is not used as given,
    the child runs under the ceiling of 30 seconds. *)
Lemma C4_counterexample :
  run_timeouts (fst (execute_code Sample.cfg Sample.hello Sample.zero_timeout_request []))
  = [30%Z]
  /\ 30%Z <> Z.min 0 (EXECUTION_TIMEOUT Sample.cfg).
Proof. split; [vm_compute; reflexivity|discriminate]. Qed.


(** C5.  In /execute-advanced, when dependencies are listed and the install
    command exits non-zero or runs into its 60-second timeout, the
    response has [success = false], the error set (for a non-zero exit:
    the fixed prefix followed by the install log, which is also returned as
    [install_output]), empty stdout and stderr, and neither the script is
    written nor a child process started for it.  With an empty dependency
    list no installer process is started; /execute never starts one. *)
Theorem C5_install_failure_short_circuits
  (cfg : Settings) (env : Env) (request : AdvancedExecuteRequest.t) (t : list event) :
  mkdir_exec_dir env = Ok tt -> mkdir_plot_dir env = Ok tt ->
  (AdvancedExecuteRequest.dependencies request <> [] -> install_fails env ->
   exists evs r,
     execute_advanced cfg env request t = (t ++ evs, Ok r)
     /\ AdvancedExecuteResponse.success r = false
     /\ AdvancedExecuteResponse.error r = Some (install_error env)
     /\ AdvancedExecuteResponse.stdout r = []
     /\ AdvancedExecuteResponse.stderr r = []
     /\ In (EPipInstall (AdvancedExecuteRequest.dependencies request) 60) evs
     /\ forallb (fun e => negb (is_execution e)) evs = true
     /\ (forall p, pip_install env = Ok p ->
           AdvancedExecuteResponse.install_output r
           = CompletedProcess.stdout p ++ CompletedProcess.stderr p
           /\ AdvancedExecuteResponse.error r
              = Some (lit "Failed to install dependencies: "
                        ++ AdvancedExecuteResponse.install_output r)))
  /\ (AdvancedExecuteRequest.dependencies request = [] ->
      exists evs,
        fst (execute_advanced cfg env request t) = t ++ evs
        /\ forallb (fun e => negb (is_pip e)) evs = true)
  /\ (forall basic : ExecuteRequest.t,
      exists evs,
        fst (execute_code cfg env basic t) = t ++ evs
        /\ forallb (fun e => negb (is_pip e)) evs = true).
Proof.
  intros Hm1 Hm2. split; [|split].
  - intros Hne Hf.
    assert (Hd : truthy_list (Some (AdvancedExecuteRequest.dependencies request)) = true).
    { simpl. destruct (AdvancedExecuteRequest.dependencies request); congruence. }
    unfold execute_advanced, tbind, tlog, temit, tret.
    destruct (@execute_python_code_install_fails env
                (AdvancedExecuteRequest.code request)
                (Z.min (or_default (AdvancedExecuteRequest.timeout request)
                          (EXECUTION_TIMEOUT cfg)) (EXECUTION_TIMEOUT cfg))
                (WORK_DIR cfg) (Some (AdvancedExecuteRequest.dependencies request))
                (t ++ [ELog INFO (lit "Advanced execution: code=")])
                Hm1 Hm2 Hd Hf) as (tl & E & F).
    rewrite E. simpl. rewrite <- !app_assoc. simpl.
    eexists. eexists. split; [reflexivity|].
    simpl. repeat split.
    + right. right. right. right. now left.
    + rewrite forallb_app. simpl. rewrite andb_true_r.
      rewrite forallb_forall in *. intros e He. specialize (F e He). now destruct e.
    + unfold install_log. now rewrite H.
    + unfold install_error, install_log. now rewrite H.
  - intros Hempty.
    assert (H : temits (fun e => negb (is_pip e)) (execute_advanced cfg env request)).
    { unfold execute_advanced. rewrite Hempty.
      apply temits_tbind; [now apply temits_tlog; intros []|intros _].
      apply temits_tbind; [now apply execute_python_code_no_pip|intros res].
      apply temits_tbind; [now apply temits_tlog; intros []|intros _].
      apply temits_tret. }
    apply H.
  - intros basic.
    assert (H : temits (fun e => negb (is_pip e)) (execute_code cfg env basic)).
    { unfold execute_code.
      apply temits_tbind; [now apply temits_tlog; intros []|intros _].
      apply temits_tbind; [now apply execute_python_code_no_pip|intros res].
      apply temits_tbind; [now apply temits_tlog; intros []|intros _].
      apply temits_tret. }
    apply H.
Qed.

Lemma C5_witness :
  exists evs r,
    execute_advanced Sample.cfg Sample.pip_fails Sample.failing_install_request []
    = ([] ++ evs, Ok r)
    /\ AdvancedExecuteResponse.success r = false
    /\ AdvancedExecuteResponse.stdout r = []
    /\ AdvancedExecuteResponse.stderr r = []
    /\ forallb (fun e => negb (is_execution e)) evs = true.
Proof.
  destruct (C5_install_failure_short_circuits Sample.cfg Sample.pip_fails
              Sample.failing_install_request [] eq_refl eq_refl) as [H _].
  destruct H as (evs & r & E & Hs & _ & Ho & He & _ & Hx & _).
  - discriminate.
  - left. eexists. split; [reflexivity|]. vm_compute. discriminate.
  - exists evs, r. now repeat split.
Defined.

Section Lengths.

Lemma weight_split_nl (s : str) : weight (split_nl s) = S (List.length s).
Proof.
  unfold weight. induction s as [|c t IH]; simpl; [reflexivity|].
  destruct (c =? NL)%N; simpl; [now rewrite IH|].
  destruct (split_nl t) as [|h r]; simpl in *; [discriminate|]. lia.
Qed.

Lemma weight_filter (f : str -> bool) (ls : list str) :
  (weight (filter f ls) <= weight ls)%nat.
Proof.
  unfold weight. induction ls as [|l r IH]; simpl; [lia|].
  destruct (f l); simpl; lia.
Qed.

Lemma length_join_nl (ls : list str) : List.length (join_nl ls) = pred (weight ls).
Proof.
  unfold weight. induction ls as [|l r IH]; [reflexivity|].
  destruct r as [|l' r']; [simpl; lia|].
  change (join_nl (l :: l' :: r')) with (l ++ NL :: join_nl (l' :: r')).
  rewrite length_app. cbn [List.length]. rewrite IH. simpl. lia.
Qed.

(** Removing lines never lengthens a text. *)
Lemma len_strip (s : str) :
  (len (join_nl (filter keep_line (split_nl s))) <= len s)%Z.
Proof.
  unfold len. rewrite length_join_nl.
  pose proof (weight_filter keep_line (split_nl s)) as H.
  rewrite weight_split_nl in H. lia.
Qed.

(** In code points, the returned stdout never exceeds [MAX_OUTPUT_SIZE],
    and neither does the returned stderr of a child that was not killed. *)
Lemma returned_lengths (env : Env) (code : str) (timeout : Z) (work_dir : Path)
  (dependencies : option (list str)) (t : list event) (r : Result.t) :
  snd (execute_python_code env code timeout work_dir dependencies t) = Ok r ->
  (len (Result.stdout r) <= MAX_OUTPUT_SIZE)%Z
  /\ ((len (Result.stderr r) <= MAX_OUTPUT_SIZE)%Z
      \/ Result.stderr r = timeout_stderr timeout).
Proof.
  intros H. apply returned_inv in H.
  destruct H as [(_ & _ & ->)|(_ & sC & io & s2 & ps & rs & HsC & Hrun & _ & _ & ->)].
  - simpl. split; [|left]; unfold len, MAX_OUTPUT_SIZE; simpl; lia.
  - simpl. apply run_code_next in Hrun. destruct Hrun as [_ Hrun].
    destruct (Hrun eq_refl) as [(o & e & _ & ->)|(proc & err & Hp & ->)]; simpl.
    + split; [|now right]. rewrite HsC. unfold len, MAX_OUTPUT_SIZE. simpl. lia.
    + split; [|left; apply len_capped].
      etransitivity; [apply len_strip|apply len_capped].
Qed.

End Lengths.

(** C6, on a child that prints 102400 times the two-byte letter U+00E9 to
    each stream: the returned stdout and stderr hold 102400 code points
    each, that is 204800 bytes each, twice the cap of 100 KiB. *)
Theorem C6_byte_length_exceeds_cap :
  match snd (execute_code Sample.cfg Sample.prints_accents Sample.hello_request []) with
  | Ok r =>
      len (ExecuteResponse.stdout r) = MAX_OUTPUT_SIZE
      /\ utf8_len (ExecuteResponse.stdout r) = (2 * MAX_OUTPUT_SIZE)%Z
      /\ utf8_len (ExecuteResponse.stderr r) = (2 * MAX_OUTPUT_SIZE)%Z
      /\ (MAX_OUTPUT_SIZE < utf8_len (ExecuteResponse.stdout r))%Z
  | Err _ => False
  end.
Proof. vm_compute. repeat split; reflexivity. Qed.
(** C7.  No line of the stdout text returned to the caller begins with
    [[PLOT_SAVED]].  After a completed child the returned text is the
    captured, truncated stdout of the child with every marker line removed
    and all other lines kept in order: when a line is left, the lines of
    the returned text are exactly the lines that are kept.  The returned
    text is empty only when the installer failed or the child timed out. *)
Theorem C7_no_marker_line_in_stdout :
  (forall env code timeout work_dir dependencies t r,
     snd (execute_python_code env code timeout work_dir dependencies t) = Ok r ->
     no_marker_line (Result.stdout r)
     /\ (forall proc,
           install_passes env dependencies -> run_script env = Ok proc ->
           let kept :=
             filter keep_line (split_nl (capped (CompletedProcess.stdout proc))) in
           Result.stdout r = join_nl kept
           /\ (kept <> [] -> split_nl (Result.stdout r) = kept))
     /\ ((truthy_list dependencies = true /\ install_fails env
          /\ Result.stdout r = [])
         \/ (install_passes env dependencies
             /\ (exists o e, run_script env = Err (TimeoutExpired o e))
             /\ Result.stdout r = [])
         \/ (install_passes env dependencies
             /\ exists proc,
                  run_script env = Ok proc
                  /\ Result.stdout r
                     = join_nl (filter keep_line
                                  (split_nl (capped (CompletedProcess.stdout proc)))))))
  /\ (forall cfg resp, serves cfg resp -> no_marker_line (stdout_of resp)).
Proof.
  assert (Hmarker : forall env code timeout work_dir dependencies t r,
     snd (execute_python_code env code timeout work_dir dependencies t) = Ok r ->
     no_marker_line (Result.stdout r)).
  { intros env code timeout work_dir dependencies t r H.
    apply returned_inv in H.
    destruct H as [(_ & _ & ->)|(_ & sC & io & s2 & ps & rs & _ & _ & _ & _ & ->)].
    - apply no_marker_empty.
    - simpl. apply strip_no_marker. }
  split.
  - intros env code timeout work_dir dependencies t r H.
    split; [exact (Hmarker _ _ _ _ _ _ _ H)|]. split.
    + intros proc Hpass Hproc kept.
      destruct (@returned_streams env code timeout work_dir dependencies t r proc
                  Hpass Hproc H) as [Ho _].
      split; [exact Ho|].
      intros Hne. rewrite Ho. apply split_join_nl; [exact Hne|].
      intros l Hl. apply filter_In in Hl. destruct Hl as [Hl _].
      exact (split_nl_no_newline _ _ Hl).
    + pose proof H as H'. apply returned_inv in H'.
      destruct H' as [(Hd & Hf & ->)
                     |((_ & _ & Hpass & _) & sC & io & s2 & ps & rs & HsC & Hrun & _ & _ & ->)].
      * left. now repeat split.
      * right. apply run_code_next in Hrun. destruct Hrun as [_ Hrun].
        destruct (Hrun eq_refl) as [(o & e & Ht & ->)|(proc & err & Hp & ->)].
        -- left. split; [exact Hpass|]. split; [now exists o, e|].
           simpl. rewrite HsC. reflexivity.
        -- right. split; [exact Hpass|]. exists proc. split; [exact Hp|reflexivity].
  - intros cfg resp H. apply serves_inv in H.
    destruct H as (env & code & timeout & wd & deps & t & res & E & [->| ->]);
      simpl; exact (Hmarker _ _ _ _ _ _ _ E).
Qed.

Lemma C7_witness :
  (no_marker_line (lit "hello" ++ NL :: lit "bye" ++ [NL])
   /\ split_nl (lit "hello" ++ NL :: lit "bye" ++ [NL]) = [lit "hello"; lit "bye"; []])
  /\ no_marker_line
       (stdout_of
          (Basic (ExecuteResponse.mk true (lit "hello" ++ NL :: lit "bye" ++ [NL]) []
                    None [PlotResult.mk (lit "png") (lit "UE5H")] (Some 5%Z)))).
Proof.
  assert (H : snd (execute_python_code Sample.shows_plot (lit "plt.show()") 30%Z
                     (WORK_DIR Sample.cfg) None [])
              = Ok (Result.mk (lit "hello" ++ NL :: lit "bye" ++ [NL]) [] None
                      [PlotResult.mk (lit "png") (lit "UE5H")] [] [] 5))
    by (vm_compute; reflexivity).
  split; [split|].
  - exact (proj1 (proj1 C7_no_marker_line_in_stdout _ _ _ _ _ _ _ H)).
  - refine (proj2 (proj1 (proj2 (proj1 C7_no_marker_line_in_stdout _ _ _ _ _ _ _ H))
                     (CompletedProcess.mk 0
                        (join_nl [lit "hello"; PLOT_SAVED ++ lit "/tmp/w/plot_1.png";
                                  lit "bye"; []]) [])
                     (or_introl eq_refl) eq_refl) _).
    vm_compute. discriminate.
  - apply (proj2 C7_no_marker_line_in_stdout Sample.cfg).
    eapply (@serves_execute Sample.cfg Sample.shows_plot Sample.hello_request []).
    vm_compute. reflexivity.
Defined.

Section ErrorExtraction.

Variable env : Env.
Variable code : str.
Variable timeout : Z.
Variable work_dir : Path.
Variable dependencies : option (list str).

Lemma contains_nonempty (sub s : str) :
  sub <> [] -> contains sub s = true -> truthy s = true.
Proof.
  intros Hsub. destruct s; [|reflexivity].
  simpl. destruct sub; [congruence|discriminate].
Qed.

(** [extract_error] on a dictionary whose stderr is [err]. *)
Lemma extract_error_eq (s : state) :
  let err := Result.stderr (result s) in
  extract_error s
  = if contains (lit "Error:") err then
      match second_to_last (split_nl err) with
      | Ok line => (mkState (trace s) (Result.set_error (Some line) (result s)), Next tt)
      | Err e => (s, Raise e)
      end
    else
      (mkState (trace s)
         (Result.set_error
            (Some (if truthy err then err
                   else lit "Execution failed with non-zero exit code"))
            (result s)),
       Next tt).
Proof.
  simpl. unfold extract_error, bind, get_result, lift, update, ret, raise.
  destruct (contains (lit "Error:") (Result.stderr (result s))) eqn:Hc; [|reflexivity].
  rewrite (contains_nonempty (sub := lit "Error:")) by (discriminate || exact Hc).
  destruct (second_to_last _); reflexivity.
Qed.

(** What is reported after a non-zero exit, when something is reported:
    the second-to-last element of the split stderr when "Error:" occurs;
    otherwise the stderr itself, or the fallback text when it is empty. *)
Lemma reported_error (t : list event) (proc : CompletedProcess.t)
  (ps rs : list DirEntry.t) :
  reaches_run env dependencies ->
  run_script env = Ok proc -> CompletedProcess.returncode proc <> 0%Z ->
  scan_plot_dir env = Ok ps -> scan_exec_dir env = Ok rs ->
  let err := capped (CompletedProcess.stderr proc) in
  (forall line,
     contains (lit "Error:") err = true ->
     second_to_last (split_nl err) = Ok line ->
     exists r,
       snd (execute_python_code env code timeout work_dir dependencies t) = Ok r
       /\ Result.error r = Some line)
  /\ (contains (lit "Error:") err = false -> err <> [] ->
      exists r,
        snd (execute_python_code env code timeout work_dir dependencies t) = Ok r
        /\ Result.error r = Some err)
  /\ (err = [] ->
      exists r,
        snd (execute_python_code env code timeout work_dir dependencies t) = Ok r
        /\ Result.error r = Some (lit "Execution failed with non-zero exit code")).
Proof.
  intros Hreach Hrun Hrc Hp Hr err.
  destruct (@through_run_collected env code timeout work_dir dependencies t ps rs
              Hreach Hp Hr) as (sC & io & HsC & H).
  pose proof (@run_code_failure env timeout work_dir sC proc Hrun Hrc) as Hf.
  rewrite extract_error_eq in Hf. simpl in Hf. fold err in Hf.
  split; [|split].
  - intros line Hc Hl. rewrite Hc, Hl in Hf.
    rewrite (H _ _ Hf). simpl. eexists. split; reflexivity.
  - intros Hc Hne. rewrite Hc in Hf.
    rewrite (H _ _ Hf). simpl. eexists. split; [reflexivity|].
    simpl. destruct err; [congruence|reflexivity].
  - intros He. rewrite He in Hf. simpl in Hf.
    rewrite (H _ _ Hf). simpl. eexists. split; reflexivity.
Qed.

End ErrorExtraction.

(** C8, where the code leaves it.  After a non-zero exit with a stderr
    that holds "Error:" but no newline, the split stderr has one element
    only: [[-2]] raises [IndexError], no error is reported and the call
    returns no result at all. *)
Theorem C8_no_line_before_the_last
  (env : Env) (code : str) (timeout : Z) (work_dir : Path)
  (dependencies : option (list str)) (t : list event) (proc : CompletedProcess.t) :
  reaches_run env dependencies ->
  run_script env = Ok proc -> CompletedProcess.returncode proc <> 0%Z ->
  contains (lit "Error:") (capped (CompletedProcess.stderr proc)) = true ->
  ~ In NL (capped (CompletedProcess.stderr proc)) ->
  snd (execute_python_code env code timeout work_dir dependencies t) = Err IndexError.
Proof.
  intros Hreach Hrun Hrc Hc Hnl.
  destruct (@through_run env code timeout work_dir dependencies t Hreach)
    as (sC & io & HsC & H).
  pose proof (@run_code_failure env timeout work_dir sC proc Hrun Hrc) as Hf.
  rewrite extract_error_eq in Hf. simpl in Hf.
  rewrite Hc, (split_nl_line _ Hnl) in Hf. simpl in Hf.
  now rewrite (H _ _ Hf).
Qed.

Lemma C8_witness :
  snd (execute_python_code Sample.exits_with_error
         (lit "import sys; sys.stderr.write('Error: boom'); sys.exit(1)") 30
         (WORK_DIR Sample.cfg) None []) = Err IndexError.
Proof.
  apply (@C8_no_line_before_the_last Sample.exits_with_error _ 30 (WORK_DIR Sample.cfg)
           None [] (CompletedProcess.mk 1 [] (lit "Error: boom"))).
  - repeat split; try reflexivity. now left.
  - reflexivity.
  - discriminate.
  - reflexivity.
  - vm_compute. intros H. repeat (destruct H as [H|H]; [discriminate|]). exact H.
Defined.




Lemma ExecuteResponse_of_add_files (fs : list FileResult.t) (res : Result.t) :
  ExecuteResponse_of (add_files fs res) = ExecuteResponse_of res.
Proof. reflexivity. Qed.

(** C10.  A response of /execute (and of /execute-with-files) has no
    [files] member: it is built from the dictionary of
    [execute_python_code] without looking at the files collected there.
    Only /execute-advanced returns them, as its [files] member. *)
Theorem C10_only_advanced_returns_files (cfg : Settings) :
  (forall resp,
     serves cfg resp ->
     (member "files" (members_of resp) <> None <-> exists r, resp = Advanced r))
  /\ (forall env request t t' r,
        execute_code cfg env request t = (t', Ok r) ->
        member "files" (ExecuteResponse_members r) = None
        /\ exists t0 t1 res,
             execute_python_code env (ExecuteRequest.code request)
               (clamp_timeout cfg (ExecuteRequest.timeout request)) (WORK_DIR cfg)
               None t0 = (t1, Ok res)
             /\ forall fs, r = ExecuteResponse_of (add_files fs res))
  /\ (forall env request t t' r,
        execute_advanced cfg env request t = (t', Ok r) ->
        exists t0 t1 res,
          execute_python_code env (AdvancedExecuteRequest.code request)
            (clamp_timeout cfg (AdvancedExecuteRequest.timeout request)) (WORK_DIR cfg)
            (Some (AdvancedExecuteRequest.dependencies request)) t0 = (t1, Ok res)
          /\ AdvancedExecuteResponse.files r = Result.files res
          /\ member "files" (AdvancedExecuteResponse_members r)
             = Some (JList (map json_of_file (Result.files res)))).
Proof.
  split; [|split].
  - intros resp _. split.
    + intros H. destruct resp as [r|r]; [|now exists r].
      exfalso. apply H. reflexivity.
    + intros [r ->]. discriminate.
  - intros env request t t' r H. split; [reflexivity|].
    apply execute_code_inv in H. destruct H as (t1 & res & E & -> & _).
    exists (t ++ [ELog INFO (lit "Executing code (length: ")]), t1, res.
    split; [exact E|]. intros fs. now rewrite ExecuteResponse_of_add_files.
  - intros env request t t' r H.
    apply execute_advanced_inv in H. destruct H as (t1 & res & E & -> & _).
    exists (t ++ [ELog INFO (lit "Advanced execution: code=")]), t1, res.
    split; [exact E|]. split; reflexivity.
Qed.

(** A run that writes [out.csv]: the advanced endpoint returns the file,
    the basic endpoint's response has no [files] member. *)
Lemma C10_witness :
  member "files"
    (ExecuteResponse_members
       (ExecuteResponse.mk true [] [] None [] (Some 5%Z))) = None
  /\ exists res, AdvancedExecuteResponse.files
       (AdvancedExecuteResponse.mk true [] [] None []
          [FileResult.mk (lit "out.csv") (lit "YSxi") 3] (Some 5%Z) [])
      = Result.files res.
Proof.
  split.
  - apply (proj1 (proj2 (C10_only_advanced_returns_files Sample.cfg))
             Sample.writes_csv Sample.hello_request []
             (fst (execute_code Sample.cfg Sample.writes_csv Sample.hello_request []))).
    vm_compute. reflexivity.
  - destruct (proj2 (proj2 (C10_only_advanced_returns_files Sample.cfg))
                Sample.writes_csv (Sample.advanced_request []) []
                (fst (execute_advanced Sample.cfg Sample.writes_csv
                        (Sample.advanced_request []) []))
                (AdvancedExecuteResponse.mk true [] [] None []
                   [FileResult.mk (lit "out.csv") (lit "YSxi") 3] (Some 5%Z) []))
      as (t0 & t1 & res & _ & H & _).
    + vm_compute. reflexivity.
    + exists res. exact H.
Defined.

(* ================================================================== *)
(** ** Further properties *)
(* ================================================================== *)

Section MoreStringLemmas.

Lemma has_newline_false (s : str) : has_newline s = false -> ~ In NL s.
Proof.
  unfold has_newline. intros H Hin.
  assert (E : existsb (N.eqb NL) s = true).
  { apply existsb_exists. exists NL. split; [exact Hin|apply N.eqb_refl]. }
  congruence.
Qed.

Lemma not_in_has_newline (s : str) : ~ In NL s -> has_newline s = false.
Proof.
  unfold has_newline. intros H.
  destruct (existsb (N.eqb NL) s) eqn:E; [|reflexivity].
  apply existsb_exists in E. destruct E as (c & Hc & Hnl).
  apply N.eqb_eq in Hnl. subst c. contradiction.
Qed.

Lemma join_nl_cons (l l' : str) (r : list str) :
  join_nl (l :: l' :: r) = l ++ NL :: join_nl (l' :: r).
Proof. reflexivity. Qed.

Lemma join_nl_cons_char (c : N) (h : str) (r : list str) :
  join_nl ((c :: h) :: r) = c :: join_nl (h :: r).
Proof. destruct r; reflexivity. Qed.

(** Joining the lines of a text gives the text back. *)
Lemma join_split_nl (s : str) : join_nl (split_nl s) = s.
Proof.
  induction s as [|c t IH]; [reflexivity|]. simpl.
  destruct (N.eqb_spec c NL) as [->|Hc].
  - destruct (split_nl t) as [|h r] eqn:E.
    + simpl in IH. now subst t.
    + rewrite join_nl_cons, IH. reflexivity.
  - destruct (split_nl t) as [|h r] eqn:E.
    + simpl in IH. now subst t.
    + rewrite join_nl_cons_char. now rewrite IH.
Qed.

(** Splitting distributes over a newline. *)
Lemma split_nl_newline (a b : str) :
  split_nl (a ++ NL :: b) = split_nl a ++ split_nl b.
Proof.
  induction a as [|c t IH]; [reflexivity|]. simpl.
  destruct (N.eqb_spec c NL) as [->|Hc].
  - now rewrite IH.
  - rewrite IH. destruct (split_nl t) as [|h r] eqn:E; [|reflexivity].
    destruct t; simpl in E; [discriminate|].
    destruct (n =? NL)%N; [discriminate|]. destruct (split_nl t); discriminate.
Qed.

Lemma filter_keep_all (ls : list str) :
  (forall l, In l ls -> is_marker_line l = false) -> filter keep_line ls = ls.
Proof.
  induction ls as [|l r IH]; intros H; [reflexivity|]. simpl.
  unfold keep_line at 1. rewrite (H l (or_introl eq_refl)). simpl.
  f_equal. apply IH. intros x Hx. apply H. now right.
Qed.

Lemma capped_short (s : str) : (len s <= MAX_OUTPUT_SIZE)%Z -> capped s = s.
Proof.
  unfold capped, slice_to, len. intros H.
  destruct (truthy s) eqn:E; [|symmetry; now apply truthy_false].
  apply firstn_all2. lia.
Qed.

End MoreStringLemmas.

Section Wrapper.

Lemma join_nl_two_more (pre : list str) (a b : str) :
  pre <> [] -> join_nl (pre ++ [a; b]) = join_nl pre ++ NL :: a ++ NL :: b.
Proof.
  induction pre as [|l r IH]; intros Hne; [congruence|].
  destruct r as [|l' r'].
  - reflexivity.
  - change ((l :: l' :: r') ++ [a; b]) with (l :: (l' :: r') ++ [a; b]).
    change ((l' :: r') ++ [a; b]) with (l' :: r' ++ [a; b]).
    rewrite !join_nl_cons.
    change (l' :: r' ++ [a; b]) with ((l' :: r') ++ [a; b]).
    rewrite IH by discriminate. now rewrite <- app_assoc.
Qed.

Lemma split_join_two_more (pre : list str) (a b : str) :
  (forall l, In l pre -> ~ In NL l) ->
  split_nl (join_nl (pre ++ [a; b])) = pre ++ split_nl a ++ split_nl b.
Proof.
  induction pre as [|l r IH]; intros Hnl.
  - simpl. apply split_nl_newline.
  - change ((l :: r) ++ [a; b]) with (l :: r ++ [a; b]).
    destruct (r ++ [a; b]) as [|x y] eqn:E.
    + destruct r; discriminate.
    + rewrite join_nl_cons, split_nl_app by (apply Hnl; now left).
      rewrite IH; [reflexivity|]. intros z Hz. apply Hnl. now right.
Qed.

End Wrapper.

(** The list without its last two elements. *)
Ltac all_but_last_two l :=
  lazymatch l with
  | [_; _] => constr:(@nil str)
  | ?a :: ?r => let p := all_but_last_two r in constr:(a :: p)
  end.

(** The text [create_wrapper_code] builds: 46 lines that do not depend on
    the code it is given, then that code and a final newline. *)
Lemma wrapper_lines (env : Env) (plot_dir : str) :
  has_newline (repr env plot_dir) = false ->
  exists preamble : list str,
    List.length preamble = 46%nat
    /\ (forall user_code,
          create_wrapper_code env user_code plot_dir
          = join_nl preamble ++ NL :: user_code ++ [NL])
    /\ (forall user_code,
          split_nl (create_wrapper_code env user_code plot_dir)
          = preamble ++ split_nl user_code ++ [[]])
    /\ (forall user_code i,
          nth (46 + i) (split_nl (create_wrapper_code env user_code plot_dir)) []
          = nth i (split_nl user_code ++ [[]]) []).
Proof.
  intros Hrepr.
  assert (H : exists pre : list str,
             List.length pre = 46%nat
             /\ (forall l, In l pre -> ~ In NL l)
             /\ forall user_code,
                  create_wrapper_code env user_code plot_dir
                  = join_nl (pre ++ [user_code; lit ""])).
  { eexists. split; [|split].
    3: { intros user_code. unfold create_wrapper_code.
         match goal with
         | |- join_nl ?l = join_nl (?P ++ _) =>
             let p := all_but_last_two l in unify P p
         end.
         reflexivity. }
    - reflexivity.
    - intros l Hin. apply has_newline_false. cbn [In] in Hin.
      repeat (destruct Hin as [<-|Hin];
              [first [reflexivity
                     |unfold has_newline; rewrite !existsb_app;
                      unfold has_newline in Hrepr; rewrite Hrepr; reflexivity]|]).
      contradiction. }
  destruct H as (pre & Hlen & Hnl & Hw).
  exists pre. split; [exact Hlen|].
  assert (Hne : pre <> []) by (destruct pre; [discriminate|discriminate]).
  split; [|split].
  - intros user_code. rewrite Hw. now apply join_nl_two_more.
  - intros user_code. rewrite Hw. now apply split_join_two_more.
  - intros user_code i. rewrite Hw, split_join_two_more by exact Hnl.
    rewrite app_nth2 by lia. rewrite Hlen. f_equal. lia.
Qed.

Section Script.

Variable env : Env.
Variable code : str.
Variable timeout : Z.
Variable work_dir : Path.
Variable dependencies : option (list str).

(** The one text a call writes is the wrapper around the code it is given. *)
Lemma temits_writes_only :
  temits (writes_only (create_wrapper_code env code (exec_dir env work_dir)))
    (execute_python_code env code timeout work_dir dependencies).
Proof.
  apply temits_execute_python_code, emits_stmt; try reflexivity.
  - now intros [].
  - unfold guarded_body. apply emits_bind.
    + eapply emits_weaken; [|apply emits_install]. now intros [].
    + intros _. unfold after_install.
      apply emits_bind.
      { apply emits_emit. simpl. apply str_eqb_eq. reflexivity. }
      intros _. apply emits_bind; [apply emits_lift|intros _].
      apply emits_bind.
      { unfold run_code, extract_error. emits_tac. }
      intros _. apply emits_bind.
      { eapply emits_weaken; [|apply emits_collect_plots]. now intros []. }
      intros _. apply emits_bind.
      { eapply emits_weaken; [|apply emits_strip]. discriminate. }
      intros _. eapply emits_weaken; [|apply emits_collect_files]. now intros [].
Qed.

End Script.

Lemma written_text {A : Type} (W : str) (m : T A) (p : Path) (content : str) :
  temits (writes_only W) m -> In (EWriteText p content) (fst (m [])) -> content = W.
Proof.
  intros Hm Hin. destruct (Hm []) as (evs & E & F). rewrite E in Hin. simpl in Hin.
  rewrite forallb_forall in F. apply F in Hin. simpl in Hin. now apply str_eqb_eq.
Qed.

Lemma temits_writes_only_execute_code (cfg : Settings) (env : Env)
  (request : ExecuteRequest.t) :
  temits (writes_only (create_wrapper_code env (ExecuteRequest.code request)
                         (exec_dir env (WORK_DIR cfg))))
    (execute_code cfg env request).
Proof.
  unfold execute_code.
  apply temits_tbind; [apply temits_tlog; now intros []|intros _].
  apply temits_tbind; [apply temits_writes_only|intros res].
  apply temits_tbind; [apply temits_tlog; now intros []|intros _]. apply temits_tret.
Qed.

Lemma temits_writes_only_execute_advanced (cfg : Settings) (env : Env)
  (request : AdvancedExecuteRequest.t) :
  temits (writes_only (create_wrapper_code env (AdvancedExecuteRequest.code request)
                         (exec_dir env (WORK_DIR cfg))))
    (execute_advanced cfg env request).
Proof.
  unfold execute_advanced.
  apply temits_tbind; [apply temits_tlog; now intros []|intros _].
  apply temits_tbind; [apply temits_writes_only|intros res].
  apply temits_tbind; [apply temits_tlog; now intros []|intros _]. apply temits_tret.
Qed.

Lemma temits_writes_only_execute_with_files (cfg : Settings) (fenv : FilesEnv)
  (env : Env) (code : str) (files : list UploadFile.t) (timeout : Z) :
  temits (writes_only (create_wrapper_code env
                         (chdir_line env (files_dir cfg fenv) ++ NL :: code)
                         (exec_dir env (files_dir cfg fenv))))
    (execute_with_files cfg fenv env code files timeout).
Proof.
  unfold execute_with_files.
  apply temits_tbind; [apply temits_tlog; now intros []|intros _].
  apply temits_tbind; [now apply temits_temit|intros _].
  apply temits_tbind; [apply temits_tlift|intros _].
  apply temits_t_finally.
  - apply temits_tbind.
    { eapply temits_weaken; [|apply temits_uploads]. now intros []. }
    intros _. apply temits_tbind.
    { unfold chdir_line. rewrite <- !app_assoc. apply temits_writes_only. }
    intros res. apply temits_tbind; [apply temits_tlog; now intros []|intros _].
    apply temits_tret.
  - apply temits_t_except_pass.
    apply temits_tbind; [now apply temits_temit|intros _]. apply temits_tlift.
Qed.

(** X1.  The script written is a preamble of 46 lines that does not depend
    on the code handed to [create_wrapper_code], followed by that code
    verbatim and a final newline.  /execute and /execute-advanced hand
    over the submitted code, so that line [i] of the submitted code is
    line [46 + i] of script.py; /execute-with-files puts one line in front
    of the submitted code, the change into the upload directory, which is
    line 46 of the script, and line [i] of the submitted code is line
    [47 + i].  (The [repr] of the directories holds no newline.) *)
Theorem script_keeps_code_after_the_preamble :
  (forall env plot_dir,
     has_newline (repr env plot_dir) = false ->
     exists preamble : list str,
       List.length preamble = 46%nat
       /\ (forall user_code,
             create_wrapper_code env user_code plot_dir
             = join_nl preamble ++ NL :: user_code ++ [NL])
       /\ (forall user_code,
             split_nl (create_wrapper_code env user_code plot_dir)
             = preamble ++ split_nl user_code ++ [[]])
       /\ (forall user_code i,
             nth (46 + i) (split_nl (create_wrapper_code env user_code plot_dir)) []
             = nth i (split_nl user_code ++ [[]]) []))
  /\ (forall cfg env request p content,
        has_newline (repr env (exec_dir env (WORK_DIR cfg))) = false ->
        In (EWriteText p content) (fst (execute_code cfg env request [])) ->
        content = create_wrapper_code env (ExecuteRequest.code request)
                    (exec_dir env (WORK_DIR cfg))
        /\ forall i,
             nth (46 + i) (split_nl content) []
             = nth i (split_nl (ExecuteRequest.code request) ++ [[]]) [])
  /\ (forall cfg env request p content,
        has_newline (repr env (exec_dir env (WORK_DIR cfg))) = false ->
        In (EWriteText p content) (fst (execute_advanced cfg env request [])) ->
        content = create_wrapper_code env (AdvancedExecuteRequest.code request)
                    (exec_dir env (WORK_DIR cfg))
        /\ forall i,
             nth (46 + i) (split_nl content) []
             = nth i (split_nl (AdvancedExecuteRequest.code request) ++ [[]]) [])
  /\ (forall cfg fenv env code files timeout p content,
        has_newline (repr env (files_dir cfg fenv)) = false ->
        has_newline (repr env (exec_dir env (files_dir cfg fenv))) = false ->
        In (EWriteText p content)
           (fst (execute_with_files cfg fenv env code files timeout [])) ->
        content = create_wrapper_code env
                    (chdir_line env (files_dir cfg fenv) ++ NL :: code)
                    (exec_dir env (files_dir cfg fenv))
        /\ nth 46 (split_nl content) [] = chdir_line env (files_dir cfg fenv)
        /\ forall i,
             nth (47 + i) (split_nl content) [] = nth i (split_nl code ++ [[]]) []).
Proof.
  split; [exact wrapper_lines|]. split; [|split].
  - intros cfg env request p content Hrepr Hin.
    apply (@written_text _ _ _ _ _ (temits_writes_only_execute_code cfg env request)) in Hin.
    split; [exact Hin|]. intros i. rewrite Hin.
    destruct (wrapper_lines env _ Hrepr) as (pre & _ & _ & _ & Hnth). apply Hnth.
  - intros cfg env request p content Hrepr Hin.
    apply (@written_text _ _ _ _ _ (temits_writes_only_execute_advanced cfg env request)) in Hin.
    split; [exact Hin|]. intros i. rewrite Hin.
    destruct (wrapper_lines env _ Hrepr) as (pre & _ & _ & _ & Hnth). apply Hnth.
  - intros cfg fenv env code files timeout p content Hdir Hrepr Hin.
    apply (@written_text _ _ _ _ _
             (temits_writes_only_execute_with_files cfg fenv env code files timeout))
      in Hin.
    split; [exact Hin|]. rewrite Hin.
    destruct (wrapper_lines env _ Hrepr) as (pre & _ & _ & _ & Hnth).
    assert (Hline : ~ In NL (chdir_line env (files_dir cfg fenv))).
    { apply has_newline_false. unfold chdir_line, has_newline.
      rewrite !existsb_app. unfold has_newline in Hdir. now rewrite Hdir. }
    split.
    + rewrite (Hnth _ 0%nat), split_nl_app by exact Hline. reflexivity.
    + intros i. change (47 + i)%nat with (46 + S i)%nat.
      rewrite Hnth, split_nl_app by exact Hline. reflexivity.
Qed.

Lemma script_keeps_code_after_the_preamble_witness :
  (exists preamble : list str,
     List.length preamble = 46%nat
     /\ nth (46 + 1)
          (split_nl (create_wrapper_code Sample.hello (lit "a" ++ NL :: lit "b")
                       (lit "/tmp/w"))) []
        = lit "b")
  /\ (exists p content,
        In (EWriteText p content)
           (fst (execute_code Sample.cfg Sample.hello Sample.hello_request []))
        /\ nth (46 + 0) (split_nl content) [] = lit "print('hello')")
  /\ (exists p content,
        In (EWriteText p content)
           (fst (execute_with_files Sample.cfg Sample.fenv Sample.hello
                   (lit "print('hello')") [Sample.upload] 30 []))
        /\ nth 46 (split_nl content) []
           = lit "import os; os.chdir('/tmp/code-executor/aaaa1111')"
        /\ nth (47 + 0) (split_nl content) [] = lit "print('hello')").
Proof.
  split; [|split].
  - destruct (proj1 script_keeps_code_after_the_preamble Sample.hello (lit "/tmp/w"))
      as (pre & Hlen & _ & _ & Hnth).
    + reflexivity.
    + exists pre. split; [exact Hlen|]. rewrite Hnth. reflexivity.
  - exists (lit "/tmp/code-executor/0123abcd/script.py").
    exists (create_wrapper_code Sample.hello (lit "print('hello')")
              (lit "/tmp/code-executor/0123abcd")).
    assert (Hin : In (EWriteText (lit "/tmp/code-executor/0123abcd/script.py")
                        (create_wrapper_code Sample.hello (lit "print('hello')")
                           (lit "/tmp/code-executor/0123abcd")))
                     (fst (execute_code Sample.cfg Sample.hello Sample.hello_request [])))
      by (vm_compute; tauto).
    split; [exact Hin|].
    exact (proj2 (proj1 (proj2 script_keeps_code_after_the_preamble)
                    Sample.cfg Sample.hello Sample.hello_request _ _ eq_refl Hin) 0%nat).
  - exists (lit "/tmp/code-executor/aaaa1111/0123abcd/script.py").
    exists (create_wrapper_code Sample.hello
              (lit "import os; os.chdir('/tmp/code-executor/aaaa1111')" ++ NL
                 :: lit "print('hello')")
              (lit "/tmp/code-executor/aaaa1111/0123abcd")).
    assert (Hin : In (EWriteText (lit "/tmp/code-executor/aaaa1111/0123abcd/script.py")
                        (create_wrapper_code Sample.hello
                           (lit "import os; os.chdir('/tmp/code-executor/aaaa1111')" ++ NL
                              :: lit "print('hello')")
                           (lit "/tmp/code-executor/aaaa1111/0123abcd")))
                     (fst (execute_with_files Sample.cfg Sample.fenv Sample.hello
                             (lit "print('hello')") [Sample.upload] 30 [])))
      by (vm_compute; tauto).
    split; [exact Hin|].
    destruct (proj2 (proj2 (proj2 (proj2 script_keeps_code_after_the_preamble))
                       Sample.cfg Sample.fenv Sample.hello (lit "print('hello')")
                       [Sample.upload] 30%Z _ _ eq_refl eq_refl Hin))
      as [H46 H47].
    split; [exact H46|exact (H47 0%nat)].
Defined.
(** X2.  After a child that exits with status 0, every returned result is
    a success, whatever the child wrote to its standard error; after a
    child that exits with another status, no returned result is.  (The
    install step was passed.) *)
Theorem success_iff_zero_exit
  (env : Env) (code : str) (timeout : Z) (work_dir : Path)
  (dependencies : option (list str)) (t : list event)
  (proc : CompletedProcess.t) (r : Result.t) :
  install_passes env dependencies ->
  run_script env = Ok proc ->
  snd (execute_python_code env code timeout work_dir dependencies t) = Ok r ->
  (Result.error r = None <-> CompletedProcess.returncode proc = 0%Z)
  /\ ExecuteResponse.success (ExecuteResponse_of r)
     = (CompletedProcess.returncode proc =? 0)%Z.
Proof.
  intros Hpass Hproc H.
  assert (Hiff : Result.error r = None <-> CompletedProcess.returncode proc = 0%Z).
  { pose proof H as H'. apply returned_inv in H'.
    destruct H' as [(Hd & Hf & _)|(Hreach & sC' & io' & s2' & ps & rs & _ & _ & Hp & Hr & _)].
    { exfalso. exact (passes_not_fails Hpass Hd Hf). }
    destruct (@through_run_collected env code timeout work_dir dependencies t ps rs
                Hreach Hp Hr) as (sC & io & HsC & Hthrough).
    destruct (Z.eq_dec (CompletedProcess.returncode proc) 0) as [Hrc|Hrc].
    - rewrite (Hthrough _ _ (@run_code_success env timeout work_dir sC proc Hproc Hrc))
        in H.
      simpl in H. inversion H. subst r. simpl. rewrite HsC. simpl. tauto.
    - pose proof (@run_code_failure env timeout work_dir sC proc Hproc Hrc) as Hf.
      rewrite extract_error_eq in Hf. simpl in Hf.
      destruct (contains _ _).
      + destruct (second_to_last _) as [line|x].
        * rewrite (Hthrough _ _ Hf) in H. simpl in H. inversion H. subst r. simpl.
          split; [discriminate|contradiction].
        * rewrite (Hthrough _ _ Hf) in H. discriminate.
      + rewrite (Hthrough _ _ Hf) in H. simpl in H. inversion H. subst r. simpl.
        split; [discriminate|contradiction]. }
  split; [exact Hiff|].
  simpl. destruct (Z.eqb_spec (CompletedProcess.returncode proc) 0) as [E|E].
  - apply Hiff in E. now rewrite E.
  - destruct (Result.error r) eqn:Er; [reflexivity|]. exfalso. apply E. now apply Hiff.
Qed.

Lemma success_iff_zero_exit_witness :
  exists r,
    snd (execute_python_code Sample.warns (lit "import old") 30
           (WORK_DIR Sample.cfg) None []) = Ok r
    /\ ExecuteResponse.success (ExecuteResponse_of r) = true
    /\ Result.stderr r = lit "DeprecationWarning: Error: old API".
Proof.
  eexists. split; [vm_compute; reflexivity|]. split; [|reflexivity].
  refine (proj2 (@success_iff_zero_exit Sample.warns (lit "import old") 30
                   (WORK_DIR Sample.cfg) None []
                   (CompletedProcess.mk 0 (lit "done")
                      (lit "DeprecationWarning: Error: old API")) _ _ _ _)).
  - now left.
  - reflexivity.
  - vm_compute. reflexivity.
Defined.

(** X3.  A stdout of at most [MAX_OUTPUT_SIZE] characters in which no
    line begins with the plot marker is returned exactly as the child
    wrote it, and so is a stderr of at most [MAX_OUTPUT_SIZE] characters. *)
Theorem short_output_is_returned_unchanged
  (env : Env) (code : str) (timeout : Z) (work_dir : Path)
  (dependencies : option (list str)) (t : list event)
  (proc : CompletedProcess.t) (r : Result.t) :
  install_passes env dependencies ->
  run_script env = Ok proc ->
  snd (execute_python_code env code timeout work_dir dependencies t) = Ok r ->
  ((len (CompletedProcess.stdout proc) <= MAX_OUTPUT_SIZE)%Z ->
   no_marker_line (CompletedProcess.stdout proc) ->
   Result.stdout r = CompletedProcess.stdout proc)
  /\ ((len (CompletedProcess.stderr proc) <= MAX_OUTPUT_SIZE)%Z ->
      Result.stderr r = CompletedProcess.stderr proc).
Proof.
  intros Hpass Hproc H.
  destruct (returned_streams code timeout work_dir t Hpass Hproc H) as [Ho He].
  split.
  - intros Hlen Hnm. rewrite Ho, (capped_short _ Hlen).
    rewrite filter_keep_all by exact Hnm. apply join_split_nl.
  - intros Hlen. now rewrite He, (capped_short _ Hlen).
Qed.

Lemma short_output_is_returned_unchanged_witness :
  exists r,
    snd (execute_python_code Sample.hello (lit "print('hello')") 30
           (WORK_DIR Sample.cfg) None []) = Ok r
    /\ Result.stdout r = lit "hello" ++ [NL].
Proof.
  eexists. split; [vm_compute; reflexivity|].
  refine (proj1 (@short_output_is_returned_unchanged Sample.hello
                   (lit "print('hello')") 30 (WORK_DIR Sample.cfg) None []
                   (CompletedProcess.mk 0 (lit "hello" ++ [NL]) []) _ _ _ _) _ _).
  - now left.
  - reflexivity.
  - vm_compute. reflexivity.
  - vm_compute. discriminate.
  - intros line Hin. vm_compute in Hin.
    destruct Hin as [<-|[<-|[]]]; reflexivity.
Defined.

(** X4.  The execution time of every returned result is the time from
    entry to the end of the cleanup, also after an install failure, where
    an earlier reading had been stored before the return. *)
Theorem execution_time_includes_cleanup
  (env : Env) (code : str) (timeout : Z) (work_dir : Path)
  (dependencies : option (list str)) (t : list event) (r : Result.t) :
  snd (execute_python_code env code timeout work_dir dependencies t) = Ok r ->
  Result.execution_time r = (time_end env - time_start env)%Z.
Proof.
  intros H. apply returned_inv in H.
  destruct H as [(_ & _ & ->)|(_ & sC & io & s2 & ps & rs & _ & _ & _ & _ & ->)];
    reflexivity.
Qed.

Lemma execution_time_includes_cleanup_witness :
  Result.execution_time (install_failure_result Sample.pip_fails)
  = (time_end Sample.pip_fails - time_start Sample.pip_fails)%Z.
Proof.
  apply (@execution_time_includes_cleanup Sample.pip_fails (lit "print(1)") 30
           (WORK_DIR Sample.cfg) (Some [lit "nonexistent-package-xyz"]) []).
  vm_compute. reflexivity.
Defined.

Section ArtifactLemmas.

Lemma in_files_of (rs : list DirEntry.t) (f : FileResult.t) :
  In f (files_of rs) ->
  exists e content,
    In e rs /\ is_candidate_file e = true /\ DirEntry.read e = Ok content
    /\ f = FileResult.mk (DirEntry.name e) (b64encode content)
             (Z.of_nat (List.length content)).
Proof.
  unfold files_of. intros H. apply in_flat_map in H. destruct H as (e & He & Hf).
  unfold file_of in Hf.
  destruct (is_candidate_file e) eqn:Hc; [|contradiction].
  destruct (DirEntry.read e) as [content|x] eqn:Hr; [|contradiction].
  destruct Hf as [<-|[]]. now exists e, content.
Qed.

Lemma in_plots_of (l : list DirEntry.t) (p : PlotResult.t) :
  In p (plots_of l) ->
  exists e content,
    In e l /\ DirEntry.read e = Ok content
    /\ p = PlotResult.mk (lit "png") (b64encode content).
Proof.
  unfold plots_of. intros H. apply in_flat_map in H. destruct H as (e & He & Hp).
  unfold plot_of in Hp.
  destruct (DirEntry.read e) as [content|x] eqn:Hr; [|contradiction].
  destruct Hp as [<-|[]]. now exists e, content.
Qed.

Lemma startswith_app (p s : str) :
  startswith p s = true -> exists r, s = p ++ r.
Proof.
  revert s. induction p as [|a p IH]; intros s H.
  - now exists s.
  - destruct s as [|b s]; [discriminate|]. simpl in H.
    apply andb_true_iff in H. destruct H as [Hab H].
    apply N.eqb_eq in Hab. subst b.
    destruct (IH s H) as [r ->]. now exists r.
Qed.

Lemma endswith_app (p s : str) :
  endswith p s = true -> exists b, s = b ++ p.
Proof.
  unfold endswith. intros H. apply startswith_app in H. destruct H as [r Hr].
  exists (rev r). rewrite <- (rev_involutive s), Hr, rev_app_distr.
  now rewrite rev_involutive.
Qed.

Lemma rfind_app (c : N) (a b : str) :
  rfind c (a ++ b)
  = match rfind c b with
    | Some i => Some (List.length a + i)%nat
    | None => rfind c a
    end.
Proof.
  induction a as [|x a IH]; simpl.
  - now destruct (rfind c b).
  - rewrite IH. destruct (rfind c b); [reflexivity|].
    now destruct (rfind c a).
Qed.

(** The suffix of a name that ends in [.png] after at least one character. *)
Lemma suffix_png (base : str) :
  base <> [] -> suffix (base ++ lit ".png") = lit ".png".
Proof.
  intros Hne. unfold suffix. rewrite rfind_app.
  change (rfind 46 (lit ".png")) with (Some 0%nat). cbv beta iota.
  rewrite Nat.add_0_r, length_app.
  change (List.length (lit ".png")) with 4%nat.
  destruct base as [|x base]; [congruence|].
  replace (0 <? List.length (x :: base))%nat with true
    by (symmetry; apply Nat.ltb_lt; simpl; lia).
  replace (List.length (x :: base) <? List.length (x :: base) + 4 - 1)%nat with true
    by (symmetry; apply Nat.ltb_lt; lia).
  simpl andb. cbv iota.
  rewrite skipn_app, skipn_all, Nat.sub_diag. reflexivity.
Qed.

End ArtifactLemmas.

(** X5.  Every FileArtifact of a returned result stands for a readable
    regular file of the workspace root: it carries that file's name, the
    base64 text of its content and the content's byte length.  script.py
    is never among them, and neither is a file whose lower-cased suffix is
    ".png" or ".pyc". *)
Theorem file_artifacts_come_from_the_workspace
  (env : Env) (code : str) (timeout : Z) (work_dir : Path)
  (dependencies : option (list str)) (t : list event) (r : Result.t)
  (f : FileResult.t) :
  snd (execute_python_code env code timeout work_dir dependencies t) = Ok r ->
  In f (Result.files r) ->
  FileResult.filename f <> lit "script.py"
  /\ lower (suffix (FileResult.filename f)) <> lit ".png"
  /\ lower (suffix (FileResult.filename f)) <> lit ".pyc"
  /\ exists rs e content,
       scan_exec_dir env = Ok rs /\ In e rs
       /\ DirEntry.is_file e = true
       /\ DirEntry.name e = FileResult.filename f
       /\ DirEntry.read e = Ok content
       /\ FileResult.data f = b64encode content
       /\ FileResult.size f = Z.of_nat (List.length content).
Proof.
  intros H Hin. apply returned_artifacts in H.
  destruct H as [(_ & Hf)|(ps & rs & _ & Hr & _ & Hf)];
    rewrite Hf in Hin; [contradiction|].
  apply in_files_of in Hin. destruct Hin as (e & content & He & Hc & Hread & ->).
  unfold is_candidate_file, excluded_suffix in Hc.
  apply andb_true_iff in Hc. destruct Hc as [Hc Hx].
  apply andb_true_iff in Hc. destruct Hc as [Hfile Hname].
  apply negb_true_iff in Hname, Hx. apply orb_false_iff in Hx. destruct Hx as [Hpng Hpyc].
  simpl. split; [|split; [|split]].
  - intros E. apply str_eqb_eq in E. congruence.
  - intros E. apply str_eqb_eq in E. congruence.
  - intros E. apply str_eqb_eq in E. congruence.
  - exists rs, e, content. now repeat split.
Qed.

Lemma file_artifacts_come_from_the_workspace_witness :
  FileResult.filename (FileResult.mk (lit "out.csv") (lit "YSxi") 3) <> lit "script.py".
Proof.
  apply (@file_artifacts_come_from_the_workspace Sample.writes_csv (lit "x") 30
           (WORK_DIR Sample.cfg) None []
           (Result.mk [] [] None [] [FileResult.mk (lit "out.csv") (lit "YSxi") 3] [] 5)).
  - vm_compute. reflexivity.
  - now left.
Defined.

(** X6.  Every Plot of a returned result has the format "png" and holds
    the base64 text of a readable entry, named [*.png], of the plots
    subdirectory or of the workspace root; there are never more plots
    than such entries. *)
Theorem plots_come_from_png_entries
  (env : Env) (code : str) (timeout : Z) (work_dir : Path)
  (dependencies : option (list str)) (t : list event) (r : Result.t) :
  snd (execute_python_code env code timeout work_dir dependencies t) = Ok r ->
  (forall p, In p (Result.plots r) ->
     PlotResult.format p = lit "png"
     /\ exists ps rs e content,
          scan_plot_dir env = Ok ps /\ scan_exec_dir env = Ok rs
          /\ (In e ps \/ In e rs)
          /\ endswith (lit ".png") (DirEntry.name e) = true
          /\ DirEntry.read e = Ok content
          /\ PlotResult.data p = b64encode content)
  /\ (forall ps rs,
        scan_plot_dir env = Ok ps -> scan_exec_dir env = Ok rs ->
        (List.length (Result.plots r)
         <= List.length (filter is_png ps) + List.length (filter is_png rs))%nat).
Proof.
  intros H. apply returned_artifacts in H.
  destruct H as [(Hp & _)|(ps & rs & Hps & Hrs & Hp & _)]; rewrite Hp.
  - split; [intros p []|]. intros. simpl. lia.
  - split.
    + intros p Hin. apply in_plots_of in Hin.
      destruct Hin as (e & content & He & Hread & ->).
      split; [reflexivity|].
      exists ps, rs, e, content. split; [exact Hps|]. split; [exact Hrs|].
      apply in_app_or in He.
      destruct He as [He|He]; apply filter_In in He; destruct He as [He Hpng];
        (split; [tauto|]); now repeat split.
    + intros ps' rs' Hps' Hrs'.
      assert (ps' = ps) by congruence. assert (rs' = rs) by congruence. subst.
      rewrite <- length_app.
      generalize (filter is_png ps ++ filter is_png rs). intros l.
      unfold plots_of. induction l as [|e l IH]; simpl; [lia|].
      rewrite length_app. unfold plot_of at 1.
      destruct (DirEntry.read e); simpl; lia.
Qed.

Lemma plots_come_from_png_entries_witness :
  PlotResult.format (PlotResult.mk (lit "png") (lit "UE5H")) = lit "png".
Proof.
  assert (H : snd (execute_python_code Sample.partly_unreadable (lit "x") 30
                     (WORK_DIR Sample.cfg) None [])
              = Ok (Result.mk [] [] None [PlotResult.mk (lit "png") (lit "UE5H")]
                      [FileResult.mk (lit "b.txt") (lit "YWJj") 3] [] 5))
    by (vm_compute; reflexivity).
  apply (proj1 (plots_come_from_png_entries _ _ _ _ _ _ H)). now left.
Defined.

(** X7.  An entry named [base.png] with a non-empty [base] is matched by
    the glob and skipped by the file loop, so it is returned as a plot at
    most.  The file named exactly ".png" is the one exception: pathlib
    gives that name no suffix, so the file loop keeps it, and the glob
    "*.png" matches it too; when it is a readable regular file of the
    workspace root it is returned both as a plot and as a file entry.  So
    a returned file entry whose name ends in ".png" can only be that
    file. *)
Theorem only_dot_png_is_plot_and_file_entry :
  (forall env code timeout work_dir dependencies t r f,
     snd (execute_python_code env code timeout work_dir dependencies t) = Ok r ->
     In f (Result.files r) ->
     endswith (lit ".png") (FileResult.filename f) = true ->
     FileResult.filename f = lit ".png")
  /\ (forall e base,
        base <> [] -> DirEntry.name e = base ++ lit ".png" ->
        is_png e = true /\ file_of e = [])
  /\ (forall e content,
        DirEntry.name e = lit ".png" -> DirEntry.is_file e = true ->
        DirEntry.read e = Ok content ->
        is_png e = true
        /\ plot_of e = [PlotResult.mk (lit "png") (b64encode content)]
        /\ file_of e = [FileResult.mk (lit ".png") (b64encode content)
                          (Z.of_nat (List.length content))])
  /\ (forall env code timeout work_dir dependencies t r rs e content,
        snd (execute_python_code env code timeout work_dir dependencies t) = Ok r ->
        install_passes env dependencies ->
        scan_exec_dir env = Ok rs -> In e rs ->
        DirEntry.name e = lit ".png" -> DirEntry.is_file e = true ->
        DirEntry.read e = Ok content ->
        In (PlotResult.mk (lit "png") (b64encode content)) (Result.plots r)
        /\ In (FileResult.mk (lit ".png") (b64encode content)
                 (Z.of_nat (List.length content))) (Result.files r)).
Proof.
  assert (Hbase : forall e base,
            base <> [] -> DirEntry.name e = base ++ lit ".png" ->
            is_png e = true /\ file_of e = []).
  { intros e base Hne Hn. split.
    - unfold is_png, endswith. rewrite Hn, rev_app_distr.
      generalize (rev base). intros l. reflexivity.
    - unfold file_of, is_candidate_file, excluded_suffix.
      rewrite Hn, suffix_png by exact Hne.
      change (str_eqb (lower (lit ".png")) (lit ".png")) with true.
      simpl. now rewrite andb_false_r. }
  assert (Hdot : forall e content,
            DirEntry.name e = lit ".png" -> DirEntry.is_file e = true ->
            DirEntry.read e = Ok content ->
            is_png e = true
            /\ plot_of e = [PlotResult.mk (lit "png") (b64encode content)]
            /\ file_of e = [FileResult.mk (lit ".png") (b64encode content)
                              (Z.of_nat (List.length content))]).
  { intros e content Hn Hf Hr. split; [|split].
    - unfold is_png. now rewrite Hn.
    - unfold plot_of. now rewrite Hr.
    - unfold file_of, is_candidate_file. rewrite Hn, Hf, Hr. reflexivity. }
  split; [|split; [exact Hbase|split; [exact Hdot|]]].
  - intros env code timeout work_dir dependencies t r f H Hin Hends.
    apply returned_artifacts in H.
    destruct H as [(_ & Hf)|(ps & rs & _ & Hr & _ & Hf)];
      rewrite Hf in Hin; [contradiction|].
    apply in_files_of in Hin. destruct Hin as (e & content & He & Hc & Hread & ->).
    simpl in *. apply endswith_app in Hends. destruct Hends as [base Hb].
    destruct base as [|x base]; [exact Hb|]. exfalso.
    destruct (Hbase e (x :: base) ltac:(discriminate) Hb) as [_ Hnone].
    unfold file_of in Hnone. rewrite Hc, Hread in Hnone. discriminate.
  - intros env code timeout work_dir dependencies t r rs e content H Hpass Hrs He
      Hn Hf Hr.
    destruct (Hdot e content Hn Hf Hr) as (Hpng & Hplot & Hfile).
    apply returned_inv in H.
    destruct H as [(Hd & Hfail & _)
                  |(_ & sC & io & s2 & ps & rs' & HsC & Hrun & _ & Hrs' & ->)].
    { exfalso. exact (passes_not_fails Hpass Hd Hfail). }
    assert (rs' = rs) by congruence. subst rs'.
    apply run_code_next in Hrun. destruct Hrun as [_ Hrun].
    assert (Hp : Result.plots (result s2) = [] /\ Result.files (result s2) = []).
    { destruct (Hrun eq_refl) as [(o & x & _ & ->)|(proc & err & _ & ->)];
        simpl; rewrite HsC; now split. }
    destruct Hp as [Hp0 Hf0]. simpl. rewrite Hp0, Hf0. simpl. split.
    + unfold plots_of. apply in_flat_map. exists e. split.
      * apply in_or_app. right. apply filter_In. now split.
      * rewrite Hplot. now left.
    + unfold files_of. apply in_flat_map. exists e. split; [exact He|].
      rewrite Hfile. now left.
Qed.

Lemma only_dot_png_is_plot_and_file_entry_witness :
  FileResult.filename (FileResult.mk (lit ".png") (lit "UE5H") 3) = lit ".png"
  /\ In (PlotResult.mk (lit "png") (lit "UE5H"))
        [PlotResult.mk (lit "png") (lit "UE5H")]
  /\ In (FileResult.mk (lit ".png") (lit "UE5H") 3)
        [FileResult.mk (lit ".png") (lit "UE5H") 3]
  /\ file_of (Sample.file "figure.png" "PNG") = [].
Proof.
  assert (H : snd (execute_python_code Sample.dot_png (lit "x") 30
                     (WORK_DIR Sample.cfg) None [])
              = Ok (Result.mk [] [] None [PlotResult.mk (lit "png") (lit "UE5H")]
                      [FileResult.mk (lit ".png") (lit "UE5H") 3] [] 5))
    by (vm_compute; reflexivity).
  split; [|split; [|split]].
  - apply (proj1 only_dot_png_is_plot_and_file_entry _ _ _ _ _ _ _ _ H).
    + now left.
    + reflexivity.
  - exact (proj1 (proj2 (proj2 (proj2 only_dot_png_is_plot_and_file_entry))
                    Sample.dot_png (lit "x") 30%Z (WORK_DIR Sample.cfg) None []
                    _ (Sample.bare_root ++ [Sample.file ".png" "PNG"])
                    (Sample.file ".png" "PNG") (bytes_of_string "PNG") H
                    (or_introl eq_refl) eq_refl
                    ltac:(simpl; tauto) eq_refl eq_refl eq_refl)).
  - exact (proj2 (proj2 (proj2 (proj2 only_dot_png_is_plot_and_file_entry))
                    Sample.dot_png (lit "x") 30%Z (WORK_DIR Sample.cfg) None []
                    _ (Sample.bare_root ++ [Sample.file ".png" "PNG"])
                    (Sample.file ".png" "PNG") (bytes_of_string "PNG") H
                    (or_introl eq_refl) eq_refl
                    ltac:(simpl; tauto) eq_refl eq_refl eq_refl)).
  - exact (proj2 (proj1 (proj2 only_dot_png_is_plot_and_file_entry)
                    (Sample.file "figure.png" "PNG") (lit "figure")
                    ltac:(discriminate) eq_refl)).
Defined.

Section Phases.

Lemma stages_app (e1 e2 : list event) : stages (e1 ++ e2) = stages e1 ++ stages e2.
Proof. unfold stages. apply flat_map_app. Qed.

Lemma stages_bounds (lo hi : nat) (evs : list event) :
  forallb (in_stages lo hi) evs = true ->
  forall n, In n (stages evs) -> (lo <= n <= hi)%nat.
Proof.
  induction evs as [|e evs IH]; simpl; intros H n Hin; [contradiction|].
  apply andb_true_iff in H. destruct H as [He H].
  unfold stages in Hin. simpl in Hin. apply in_app_or in Hin.
  destruct Hin as [Hin|Hin]; [|now apply IH].
  unfold in_stages in He. destruct (stage e) as [k|]; [|contradiction].
  destruct Hin as [<-|[]]. apply andb_true_iff in He. destruct He as [H1 H2].
  apply Nat.leb_le in H1, H2. lia.
Qed.

Lemma nondecreasing_app (k : nat) (l1 l2 : list nat) :
  (forall n, In n l1 -> (n <= k)%nat) -> (forall n, In n l2 -> (k <= n)%nat) ->
  nondecreasing l1 = true -> nondecreasing l2 = true ->
  nondecreasing (l1 ++ l2) = true.
Proof.
  intros H1 H2 S1 S2. induction l1 as [|a r IH]; [exact S2|].
  simpl app. destruct r as [|b r'].
  - simpl. destruct l2 as [|c l2']; [reflexivity|].
    apply andb_true_iff. split; [|exact S2].
    apply Nat.leb_le. specialize (H1 a (or_introl eq_refl)).
    specialize (H2 c (or_introl eq_refl)). lia.
  - simpl in S1. apply andb_true_iff in S1. destruct S1 as [Hab S1].
    change ((b :: r') ++ l2) with (b :: r' ++ l2) in *.
    simpl. apply andb_true_iff. split; [exact Hab|].
    apply IH; [|exact S1]. intros n Hn. apply H1. now right.
Qed.

Lemma in_stages_weaken (lo hi lo' hi' : nat) (evs : list event) :
  (lo' <= lo)%nat -> (hi <= hi')%nat ->
  forallb (in_stages lo hi) evs = true -> forallb (in_stages lo' hi') evs = true.
Proof.
  intros Hlo Hhi H. rewrite forallb_forall in *. intros e He. specialize (H e He).
  unfold in_stages in *. destruct (stage e); [|reflexivity].
  apply andb_true_iff in H. destruct H as [H1 H2]. apply Nat.leb_le in H1, H2.
  apply andb_true_iff. split; apply Nat.leb_le; lia.
Qed.

(** Events of the stages [lo..mid] followed by events of the stages
    [mid..hi], each in order, are in order. *)
Lemma ordered_app (lo mid hi : nat) (e1 e2 : list event) :
  (lo <= mid <= hi)%nat ->
  forallb (in_stages lo mid) e1 = true -> nondecreasing (stages e1) = true ->
  forallb (in_stages mid hi) e2 = true -> nondecreasing (stages e2) = true ->
  forallb (in_stages lo hi) (e1 ++ e2) = true
  /\ nondecreasing (stages (e1 ++ e2)) = true.
Proof.
  intros Hb F1 S1 F2 S2. split.
  - rewrite forallb_app.
    rewrite (@in_stages_weaken lo mid lo hi e1 (Nat.le_refl lo) (proj2 Hb) F1).
    now rewrite (@in_stages_weaken mid hi lo hi e2 (proj1 Hb) (Nat.le_refl hi) F2).
  - rewrite stages_app. apply (@nondecreasing_app mid); try assumption.
    + intros n Hn. apply (@stages_bounds lo mid e1 F1) in Hn. lia.
    + intros n Hn. apply (@stages_bounds mid hi e2 F2) in Hn. lia.
Qed.

Lemma one_stage_ordered (k : nat) (evs : list event) :
  forallb (in_stages k k) evs = true -> nondecreasing (stages evs) = true.
Proof.
  intros H. pose proof (@stages_bounds k k evs H) as Hb. clear H.
  induction (stages evs) as [|a r IH]; [reflexivity|].
  simpl. destruct r as [|b r']; [reflexivity|].
  apply andb_true_iff. split.
  - apply Nat.leb_le. pose proof (Hb a (or_introl eq_refl)).
    pose proof (Hb b (or_intror (or_introl eq_refl))). lia.
  - apply IH. intros n Hn. apply Hb. now right.
Qed.

Lemma phased_of_emits {A : Type} (k : nat) (m : M A) :
  emits (in_stages k k) m -> phased k k m.
Proof.
  intros H s. destruct (H s) as (evs & E & F). exists evs.
  split; [exact E|]. split; [exact F|]. now apply (@one_stage_ordered k).
Qed.

Lemma phased_bind {A B : Type} (lo mid hi : nat) (m : M A) (k : A -> M B) :
  (lo <= mid <= hi)%nat ->
  phased lo mid m -> (forall a, phased mid hi (k a)) -> phased lo hi (bind m k).
Proof.
  intros Hb Hm Hk s. unfold bind.
  destruct (Hm s) as (e1 & E1 & F1 & S1).
  destruct (m s) as [s1 [a| |e]]; simpl in E1.
  - destruct (Hk a s1) as (e2 & E2 & F2 & S2).
    exists (e1 ++ e2). rewrite E2, E1, app_assoc. split; [reflexivity|].
    now apply (@ordered_app lo mid hi).
  - exists e1. split; [exact E1|]. split; [|exact S1].
    eapply (@in_stages_weaken lo mid); [| |eassumption]; lia.
  - exists e1. split; [exact E1|]. split; [|exact S1].
    eapply (@in_stages_weaken lo mid); [| |eassumption]; lia.
Qed.

Lemma phased_try_finally {A : Type} (lo mid hi : nat) (m : M A) (f : M unit) :
  (lo <= mid <= hi)%nat ->
  phased lo mid m -> phased mid hi f -> phased lo hi (try_finally m f).
Proof.
  intros Hb Hm Hf s. unfold try_finally.
  destruct (Hm s) as (e1 & E1 & F1 & S1).
  destruct (m s) as [s1 c]. simpl in E1.
  destruct (Hf s1) as (e2 & E2 & F2 & S2).
  destruct (f s1) as [s2 [a| |e]]; simpl in E2; simpl;
    exists (e1 ++ e2); rewrite E2, E1, app_assoc; (split; [reflexivity|]);
    now apply (@ordered_app lo mid hi).
Qed.

Variable env : Env.
Variable code : str.
Variable timeout : Z.
Variable work_dir : Path.
Variable dependencies : option (list str).

Lemma phased_install : phased 1 1 (install_dependencies env dependencies).
Proof.
  apply phased_of_emits. eapply emits_weaken; [|apply emits_install]. now intros [].
Qed.

Lemma phased_run_code : phased 3 3 (run_code env timeout work_dir).
Proof. apply phased_of_emits. unfold run_code, extract_error. emits_tac. Qed.

Lemma phased_collect_plots : phased 4 4 (collect_plots env work_dir).
Proof.
  apply phased_of_emits. eapply emits_weaken; [|apply emits_collect_plots].
  now intros [].
Qed.

Lemma phased_collect_files : phased 4 4 (collect_files env work_dir).
Proof.
  apply phased_of_emits. eapply emits_weaken; [|apply emits_collect_files].
  now intros [].
Qed.

Lemma phased_after_install : phased 2 4 (after_install env code timeout work_dir).
Proof.
  unfold after_install.
  eapply (@phased_bind _ _ _ 2%nat); [lia| |intros _].
  { apply phased_of_emits. now apply emits_emit. }
  eapply (@phased_bind _ _ _ 2%nat); [lia| |intros _].
  { apply phased_of_emits. apply emits_lift. }
  eapply (@phased_bind _ _ _ 3%nat); [lia| |intros _].
  { intros s. destruct (phased_run_code s) as (evs & E & F & S). exists evs.
    split; [exact E|]. split; [|exact S].
    eapply (@in_stages_weaken 3 3); [| |eassumption]; lia. }
  eapply (@phased_bind _ _ _ 4%nat); [lia| |intros _].
  { intros s. destruct (phased_collect_plots s) as (evs & E & F & S). exists evs.
    split; [exact E|]. split; [|exact S].
    eapply (@in_stages_weaken 4 4); [| |eassumption]; lia. }
  eapply (@phased_bind _ _ _ 4%nat); [lia| |intros _].
  { apply phased_of_emits. eapply emits_weaken; [|apply emits_strip]. discriminate. }
  apply phased_collect_files.
Qed.

Lemma phased_stmt :
  phased 0 5 (execute_python_code_stmt env code timeout work_dir dependencies).
Proof.
  unfold execute_python_code_stmt.
  eapply (@phased_bind _ _ _ 0%nat); [lia| |intros _].
  { apply phased_of_emits. now apply emits_emit. }
  eapply (@phased_bind _ _ _ 0%nat); [lia| |intros _].
  { apply phased_of_emits. apply emits_lift. }
  eapply (@phased_bind _ _ _ 0%nat); [lia| |intros _].
  { apply phased_of_emits. now apply emits_emit. }
  eapply (@phased_bind _ _ _ 0%nat); [lia| |intros _].
  { apply phased_of_emits. apply emits_lift. }
  eapply (@phased_try_finally _ _ 5%nat); [lia| |].
  - unfold guarded_body. eapply (@phased_bind _ _ _ 1%nat); [lia| |intros _].
    + intros s. destruct (phased_install s) as (evs & E & F & S). exists evs.
      split; [exact E|]. split; [|exact S].
      eapply (@in_stages_weaken 1 1); [| |eassumption]; lia.
    + intros s. destruct (phased_after_install s) as (evs & E & F & S). exists evs.
      split; [exact E|]. split; [|exact S].
      eapply (@in_stages_weaken 2 4); [| |eassumption]; lia.
  - apply phased_of_emits. apply emits_cleanup; [reflexivity|now intros []].
Qed.

End Phases.

(** X8.  On every way through [execute_python_code], whether it returns
    or raises, the actions on the outside world happen in pipeline order:
    the directories are created, then the installer runs, then the script
    is written, then it is run, then plots and files are looked up and
    read, and last the workspace is removed. *)
Theorem stages_run_in_pipeline_order
  (env : Env) (code : str) (timeout : Z) (work_dir : Path)
  (dependencies : option (list str)) (t : list event) :
  exists evs,
    fst (execute_python_code env code timeout work_dir dependencies t) = t ++ evs
    /\ nondecreasing (stages evs) = true.
Proof.
  unfold execute_python_code.
  destruct (phased_stmt env code timeout work_dir dependencies (mkState t Result.initial))
    as (evs & E & _ & S).
  destruct (execute_python_code_stmt _ _ _ _ _ _) as [s [a| |e]]; simpl in *;
    exists evs; now split.
Qed.

Section EndpointTraces.

Variable cfg : Settings.

Lemma temits_execute_code (P : event -> bool) (env : Env) (request : ExecuteRequest.t) :
  (forall e, is_log e = true -> P e = true) ->
  temits P (execute_python_code env (ExecuteRequest.code request)
              (clamp_timeout cfg (ExecuteRequest.timeout request)) (WORK_DIR cfg) None) ->
  temits P (execute_code cfg env request).
Proof.
  intros Hlog H. unfold execute_code.
  apply temits_tbind; [now apply temits_tlog|intros _].
  apply temits_tbind; [exact H|intros res].
  apply temits_tbind; [now apply temits_tlog|intros _].
  apply temits_tret.
Qed.

Lemma temits_execute_advanced (P : event -> bool) (env : Env)
  (request : AdvancedExecuteRequest.t) :
  (forall e, is_log e = true -> P e = true) ->
  temits P (execute_python_code env (AdvancedExecuteRequest.code request)
              (clamp_timeout cfg (AdvancedExecuteRequest.timeout request)) (WORK_DIR cfg)
              (Some (AdvancedExecuteRequest.dependencies request))) ->
  temits P (execute_advanced cfg env request).
Proof.
  intros Hlog H. unfold execute_advanced.
  apply temits_tbind; [now apply temits_tlog|intros _].
  apply temits_tbind; [exact H|intros res].
  apply temits_tbind; [now apply temits_tlog|intros _].
  apply temits_tret.
Qed.

Lemma temits_execute_with_files_runs_under (fenv : FilesEnv) (env : Env) (code : str)
  (files : list UploadFile.t) (requested : Z) :
  temits (runs_under (Z.min requested (EXECUTION_TIMEOUT cfg)))
    (execute_with_files cfg fenv env code files requested).
Proof.
  unfold execute_with_files.
  apply temits_tbind; [now apply temits_tlog; intros []|intros _].
  apply temits_tbind; [now apply temits_temit|intros _].
  apply temits_tbind; [apply temits_tlift|intros _].
  apply temits_t_finally.
  - apply temits_tbind.
    + eapply temits_weaken; [|apply temits_uploads]. now intros [].
    + intros _.
      apply temits_tbind; [apply temits_runs_under|intros res].
      apply temits_tbind; [now apply temits_tlog; intros []|intros _].
      apply temits_tret.
  - apply temits_t_except_pass.
    apply temits_tbind; [now apply temits_temit|intros _]. apply temits_tlift.
Qed.

End EndpointTraces.

(** X9.  Whatever timeout a request asks for, no endpoint ever starts the
    child process under a deadline above [EXECUTION_TIMEOUT]. *)
Theorem deadline_never_exceeds_ceiling (cfg : Settings) :
  (forall env request timeout,
     In timeout (run_timeouts (fst (execute_code cfg env request []))) ->
     (timeout <= EXECUTION_TIMEOUT cfg)%Z)
  /\ (forall env request timeout,
        In timeout (run_timeouts (fst (execute_advanced cfg env request []))) ->
        (timeout <= EXECUTION_TIMEOUT cfg)%Z)
  /\ (forall fenv env code files requested timeout,
        In timeout
          (run_timeouts (fst (execute_with_files cfg fenv env code files requested []))) ->
        (timeout <= EXECUTION_TIMEOUT cfg)%Z).
Proof.
  split; [|split].
  - intros env request timeout Hin.
    destruct (@temits_execute_code cfg
                (runs_under (clamp_timeout cfg (ExecuteRequest.timeout request)))
                env request (fun e H => ltac:(now destruct e))
                (temits_runs_under _ _ _ _ _) []) as (evs & E & F).
    rewrite E in Hin. simpl in Hin.
    rewrite (@runs_under_timeouts _ evs F timeout Hin). apply Z.le_min_r.
  - intros env request timeout Hin.
    destruct (@temits_execute_advanced cfg
                (runs_under (clamp_timeout cfg (AdvancedExecuteRequest.timeout request)))
                env request (fun e H => ltac:(now destruct e))
                (temits_runs_under _ _ _ _ _) []) as (evs & E & F).
    rewrite E in Hin. simpl in Hin.
    rewrite (@runs_under_timeouts _ evs F timeout Hin). apply Z.le_min_r.
  - intros fenv env code files requested timeout Hin.
    destruct (temits_execute_with_files_runs_under cfg fenv env code files requested [])
      as (evs & E & F).
    rewrite E in Hin. simpl in Hin.
    rewrite (@runs_under_timeouts _ evs F timeout Hin). apply Z.le_min_r.
Qed.

Lemma deadline_never_exceeds_ceiling_witness :
  (30 <= EXECUTION_TIMEOUT Sample.cfg)%Z.
Proof.
  apply (proj1 (deadline_never_exceeds_ceiling Sample.cfg) Sample.hello
           (ExecuteRequest.mk (lit "while True: pass") (Some 3600%Z)) 30%Z).
  vm_compute. now left.
Defined.

Section Faults.

Variable env : Env.
Variable code : str.
Variable timeout : Z.
Variable work_dir : Path.
Variable dependencies : option (list str).

Lemma run_code_fault (s : state) (e : exn) :
  run_script env = Err e -> (forall o x, e <> TimeoutExpired o x) ->
  run_code env timeout work_dir s
  = (mkState
       (trace s ++ [ERunScript (code_file env work_dir) timeout (exec_dir env work_dir)])
       (result s),
     Raise e).
Proof.
  intros H Hne. unfold run_code, try_except, bind, emit, lift, raise. rewrite H.
  destruct e as [o x| |]; [exfalso; now apply (Hne o x)|reflexivity|reflexivity].
Qed.

Lemma run_settles_next (s : state) :
  run_settles env -> exists s2, run_code env timeout work_dir s = (s2, Next tt).
Proof.
  intros [(proc & Hp & Hrc)|(o & e & Hp)].
  - rewrite (@run_code_success env timeout work_dir s proc Hp Hrc). eexists. reflexivity.
  - rewrite (@run_code_timeout env timeout work_dir s o e Hp). eexists. reflexivity.
Qed.

(** The whole call in terms of the collection steps, for a request that
    reaches the child process and whose child lets the collection start. *)
Lemma through_collection (t : list event) :
  reaches_run env dependencies -> run_settles env ->
  exists s2,
    forall s3 c3,
      (collect_plots env work_dir ;; strip_plot_markers ;;
       collect_files env work_dir) s2 = (s3, c3) ->
      exists tail,
        execute_python_code env code timeout work_dir dependencies t
        = (trace s3 ++ ERmtree (exec_dir env work_dir) :: tail,
           outcome env c3 (result s3)).
Proof.
  intros (Hm1 & Hm2 & Hinst & Hw) Hset.
  set (collection := collect_plots env work_dir ;; strip_plot_markers ;;
                     collect_files env work_dir).
  unfold execute_python_code, execute_python_code_stmt.
  unfold bind at 1. unfold emit at 1. unfold bind at 1. rewrite Hm1. simpl lift.
  unfold ret at 1. unfold bind at 1. unfold emit at 1. unfold bind at 1.
  rewrite Hm2. simpl lift. unfold ret at 1.
  simpl trace. simpl result.
  unfold try_finally, guarded_body. unfold bind at 1.
  destruct (@install_passes_eq env dependencies
              (mkState ((t ++ [EMkdir (exec_dir env work_dir)])
                          ++ [EMkdir (plot_dir env work_dir)]) Result.initial) Hinst)
    as (ievs & io & Hi & _).
  rewrite Hi. unfold after_install.
  unfold bind at 1. unfold emit at 1. unfold bind at 1. rewrite Hw. simpl lift.
  unfold ret at 1. simpl trace. simpl result.
  match goal with
  | |- context [bind (run_code _ _ _) _ ?s] =>
      destruct (run_settles_next s Hset) as [s2 Hrun]
  end.
  exists s2. intros s3 c3 Hcol. subst collection.
  unfold bind at 1. rewrite Hrun, Hcol.
  destruct (@cleanup_eq env work_dir s3) as (tl & Hcl & _). rewrite Hcl.
  exists tl. now destruct c3.
Qed.

End Faults.

(** X10.  A fault of the operating system is not turned into an error
    response: [execute_python_code] raises it, and so do /execute and
    /execute-advanced.  This holds of a fault that occurs while the
    installer is started, the script is written or the child is started,
    and, after a child that exits with status 0 or is killed at the
    deadline, of a fault that the glob of the plots subdirectory raises and
    of a workspace root that cannot be listed.  In the last case both
    globs return, the root matching nothing, the plots of the plots
    subdirectory are read, and it is [iterdir] that raises; the removal of
    the workspace follows. *)
Theorem faults_are_raised
  (env : Env) (code : str) (timeout : Z) (work_dir : Path)
  (dependencies : option (list str)) (t : list event) (e : exn) :
  mkdir_exec_dir env = Ok tt -> mkdir_plot_dir env = Ok tt ->
  (forall o x, e <> TimeoutExpired o x) ->
  (truthy_list dependencies = true /\ pip_install env = Err e)
  \/ (install_passes env dependencies /\ write_text env = Err e)
  \/ (reaches_run env dependencies /\ run_script env = Err e)
  \/ (reaches_run env dependencies /\ run_settles env /\ scan_plot_dir env = Err e)
  \/ (reaches_run env dependencies /\ run_settles env
      /\ (exists ps, scan_plot_dir env = Ok ps) /\ scan_exec_dir env = Err e) ->
  snd (execute_python_code env code timeout work_dir dependencies t) = Err e
  /\ (forall cfg request t0,
        code = ExecuteRequest.code request ->
        timeout = clamp_timeout cfg (ExecuteRequest.timeout request) ->
        work_dir = WORK_DIR cfg -> dependencies = None ->
        t = t0 ++ [ELog INFO (lit "Executing code (length: ")] ->
        snd (execute_code cfg env request t0) = Err e)
  /\ (forall cfg request t0,
        code = AdvancedExecuteRequest.code request ->
        timeout = clamp_timeout cfg (AdvancedExecuteRequest.timeout request) ->
        work_dir = WORK_DIR cfg ->
        dependencies = Some (AdvancedExecuteRequest.dependencies request) ->
        t = t0 ++ [ELog INFO (lit "Advanced execution: code=")] ->
        snd (execute_advanced cfg env request t0) = Err e)
  /\ (forall ps,
        reaches_run env dependencies -> run_settles env ->
        scan_plot_dir env = Ok ps -> scan_exec_dir env = Err e ->
        exists before tail,
          fst (execute_python_code env code timeout work_dir dependencies t)
          = before
              ++ EGlobPng (plot_dir env work_dir) :: EGlobPng (exec_dir env work_dir)
              :: flat_map plot_events
                   (map (with_path (plot_dir env work_dir)) (filter is_png ps))
              ++ EIterdir (exec_dir env work_dir) :: ERmtree (exec_dir env work_dir)
              :: tail).
Proof.
  intros Hm1 Hm2 Hne Hcase.
  assert (Hroot : forall ps,
            reaches_run env dependencies -> run_settles env ->
            scan_plot_dir env = Ok ps -> scan_exec_dir env = Err e ->
            exists before tail,
              execute_python_code env code timeout work_dir dependencies t
              = (before
                   ++ EGlobPng (plot_dir env work_dir)
                   :: EGlobPng (exec_dir env work_dir)
                   :: flat_map plot_events
                        (map (with_path (plot_dir env work_dir)) (filter is_png ps))
                   ++ EIterdir (exec_dir env work_dir)
                   :: ERmtree (exec_dir env work_dir) :: tail,
                 Err e)).
  { intros ps Hreach Hset Hp Hr.
    destruct (@through_collection env code timeout work_dir dependencies t Hreach Hset)
      as (s2 & H).
    edestruct H as (tail & E).
    { unfold bind.
      rewrite (@collect_plots_unlisted env work_dir ps e s2 Hp Hr),
        strip_plot_markers_eq, (@collect_files_fault env work_dir e _ Hr).
      reflexivity. }
    exists (trace s2), tail. rewrite E. simpl. unfold globbed. simpl.
    rewrite app_nil_r. f_equal.
    repeat (rewrite <- app_assoc; simpl). reflexivity. }
  assert (H : snd (execute_python_code env code timeout work_dir dependencies t) = Err e).
  { destruct Hcase as [(Hd & Hp)|[(Hpass & Hw)|[(Hreach & Hrun)|[(Hreach & Hset & Hp)
                      |(Hreach & Hset & (ps & Hp) & Hr)]]]].
    - now apply install_fault.
    - now apply write_text_fault.
    - destruct (@through_run env code timeout work_dir dependencies t Hreach)
        as (sC & io & _ & H).
      now rewrite (H _ _ (@run_code_fault env timeout work_dir sC e Hrun Hne)).
    - destruct (@through_run env code timeout work_dir dependencies t Hreach)
        as (sC & io & _ & H).
      destruct (@run_settles_next env timeout work_dir sC Hset) as [s2 Hrun].
      rewrite (H _ _ Hrun). unfold bind at 1.
      now rewrite (@collect_plots_fault_plot_dir env work_dir e s2 Hp).
    - destruct (Hroot ps Hreach Hset Hp Hr) as (before & tail & E). now rewrite E. }
  split; [exact H|]. split; [|split].
  - intros cfg request t0 -> -> -> -> ->.
    unfold execute_code, tbind, tlog, temit. unfold clamp_timeout in H.
    destruct (execute_python_code _ _ _ _ _ _) as [t1 [res|x]]; simpl in *;
      congruence.
  - intros cfg request t0 -> -> -> -> ->.
    unfold execute_advanced, tbind, tlog, temit. unfold clamp_timeout in H.
    destruct (execute_python_code _ _ _ _ _ _) as [t1 [res|x]]; simpl in *;
      congruence.
  - intros ps Hreach Hset Hp Hr.
    destruct (Hroot ps Hreach Hset Hp Hr) as (before & tail & E).
    exists before, tail. now rewrite E.
Qed.

Lemma faults_are_raised_witness :
  snd (execute_code Sample.cfg Sample.read_only Sample.hello_request []) = Err OSError
  /\ snd (execute_python_code Sample.root_gone (lit "print(1)") 30
            (WORK_DIR Sample.cfg) None []) = Err OSError
  /\ exists before tail,
       fst (execute_python_code Sample.root_gone (lit "print(1)") 30
              (WORK_DIR Sample.cfg) None [])
       = before
           ++ EGlobPng (lit "/tmp/code-executor/0123abcd/plots")
           :: EGlobPng (lit "/tmp/code-executor/0123abcd")
           :: [] ++ EIterdir (lit "/tmp/code-executor/0123abcd")
           :: ERmtree (lit "/tmp/code-executor/0123abcd") :: tail.
Proof.
  assert (Hreach : reaches_run Sample.root_gone None)
    by (repeat split; now left).
  assert (Hset : run_settles Sample.root_gone)
    by (left; eexists; split; reflexivity).
  split; [|split].
  - apply (proj1 (proj2 (@faults_are_raised Sample.read_only
                           (ExecuteRequest.code Sample.hello_request)
                           (clamp_timeout Sample.cfg
                              (ExecuteRequest.timeout Sample.hello_request))
                           (WORK_DIR Sample.cfg) None
                           ([] ++ [ELog INFO (lit "Executing code (length: ")]) OSError
                           eq_refl eq_refl ltac:(discriminate)
                           ltac:(right; left; split; [now left|reflexivity])))
             Sample.cfg Sample.hello_request []); reflexivity.
  - apply (@faults_are_raised Sample.root_gone (lit "print(1)") 30
             (WORK_DIR Sample.cfg) None [] OSError eq_refl eq_refl
             ltac:(discriminate)).
    right; right; right; right.
    split; [exact Hreach|split; [exact Hset|split; [now exists []|reflexivity]]].
  - refine (proj2 (proj2 (proj2
              (@faults_are_raised Sample.root_gone (lit "print(1)") 30
                 (WORK_DIR Sample.cfg) None [] OSError eq_refl eq_refl
                 ltac:(discriminate) _))) [] Hreach Hset eq_refl eq_refl).
    right; right; right; right.
    split; [exact Hreach|split; [exact Hset|split; [now exists []|reflexivity]]].
Defined.

(** X11.  When the workspace directory is created but its plots
    subdirectory cannot be, the call raises before the guarded block is
    entered: nothing else happens and the directory just created is not
    removed. *)
Theorem plots_mkdir_failure_leaves_the_workspace
  (env : Env) (code : str) (timeout : Z) (work_dir : Path)
  (dependencies : option (list str)) (t : list event) (e : exn) :
  mkdir_exec_dir env = Ok tt -> mkdir_plot_dir env = Err e ->
  exists evs,
    execute_python_code env code timeout work_dir dependencies t = (t ++ evs, Err e)
    /\ created evs = [exec_dir env work_dir; plot_dir env work_dir]
    /\ removed evs = []
    /\ forallb (fun ev => is_mkdir_event ev) evs = true.
Proof.
  intros Hm1 Hm2.
  rewrite (@mkdir_plot_dir_fault env code timeout work_dir dependencies t e Hm1 Hm2).
  eexists. split; [reflexivity|]. now repeat split.
Qed.

Lemma plots_mkdir_failure_leaves_the_workspace_witness :
  exists evs,
    execute_python_code Sample.no_plot_dir (lit "print(1)") 30 (WORK_DIR Sample.cfg)
      None [] = ([] ++ evs, Err OSError)
    /\ removed evs = [].
Proof.
  destruct (@plots_mkdir_failure_leaves_the_workspace Sample.no_plot_dir
              (lit "print(1)") 30 (WORK_DIR Sample.cfg) None [] OSError
              eq_refl eq_refl) as (evs & E & _ & Hr & _).
  exists evs. now split.
Defined.
Section Uploads.

Variable fenv : FilesEnv.
Variable dir : Path.

(** The loop over uploads that are all read and written appends exactly
    their events and goes on. *)
Lemma uploads_saved (saved more : list UploadFile.t) (t : list event) :
  uploads_ok fenv dir saved ->
  t_for_each (saved ++ more) (save_upload fenv dir) t
  = t_for_each more (save_upload fenv dir) (t ++ saved_events dir saved).
Proof.
  revert t. induction saved as [|g sv IH]; intros t Hok.
  - simpl. now rewrite app_nil_r.
  - destruct (Hok g (or_introl eq_refl)) as [[content Hr] Hw].
    simpl app. simpl t_for_each. unfold tbind at 1.
    rewrite (@save_upload_ok fenv dir g content t Hr Hw).
    rewrite IH by (intros h Hh; apply Hok; now right).
    unfold saved_events. simpl flat_map. rewrite Hr.
    now rewrite <- app_assoc.
Qed.

(** The loop stops at an upload that cannot be read or written. *)
Lemma upload_fails (f : UploadFile.t) (rest : list UploadFile.t) (t : list event)
  (e : exn) :
  (UploadFile.read f = Err e
   \/ exists content,
        UploadFile.read f = Ok content
        /\ write_bytes fenv (dir // UploadFile.filename f) = Err e) ->
  t_for_each (f :: rest) (save_upload fenv dir) t
  = (t ++ attempted_events dir f, Err e).
Proof.
  intros [Hr|(content & Hr & Hw)]; simpl; unfold attempted_events;
    unfold save_upload, tbind, tlift, temit, tlog; rewrite Hr.
  - now rewrite app_nil_r.
  - now rewrite Hw.
Qed.

Lemma fst_tbind_extends {A B : Type} (m : T A) (k : A -> T B) (t : list event) :
  (forall a, temits (fun _ => true) (k a)) ->
  exists evs, fst (tbind m k t) = fst (m t) ++ evs.
Proof.
  intros Hk. unfold tbind. destruct (m t) as [t1 [a|e]].
  - destruct (Hk a t1) as (evs & E & _). now exists evs.
  - exists []. simpl. now rewrite app_nil_r.
Qed.

(** An upload that is read is written before anything else is done with it. *)
Lemma upload_written (f : UploadFile.t) (rest : list UploadFile.t) (t : list event)
  (content : bytes) :
  UploadFile.read f = Ok content ->
  exists evs,
    fst (t_for_each (f :: rest) (save_upload fenv dir) t)
    = t ++ EWriteBytes (dir // UploadFile.filename f) content :: evs.
Proof.
  intros Hr. simpl t_for_each.
  destruct (@fst_tbind_extends unit unit (save_upload fenv dir f)
              (fun _ => t_for_each rest (save_upload fenv dir)) t) as (e1 & E1).
  { intros _. eapply temits_weaken; [|apply temits_uploads]. reflexivity. }
  rewrite E1. clear E1.
  unfold save_upload. unfold tbind at 1. unfold tlift at 1. rewrite Hr.
  match goal with
  | |- context [tbind ?m ?k t] =>
      destruct (@fst_tbind_extends unit unit m k t) as (e2 & E2)
  end.
  { intros _. apply temits_tbind; [apply temits_tlift|intros _].
    now apply temits_tlog. }
  rewrite E2. unfold temit. simpl fst. rewrite <- !app_assoc. simpl.
  now exists (e2 ++ e1).
Qed.

End Uploads.

(** An absolute right operand replaces the left one, in pathlib's normal
    form. *)
Lemma joinpath_absolute (p : Path) (c : str) :
  startswith [SLASH] c = true ->
  p // c = PurePath c /\ startswith [SLASH] (PurePath c) = true.
Proof.
  intros H. unfold joinpath, PurePath, path_root. rewrite H.
  destruct (startswith [SLASH; SLASH] c && negb (startswith [SLASH; SLASH; SLASH] c));
    split; reflexivity.
Qed.

(** X12.  In /execute-with-files, when an uploaded file cannot be read or
    written, the request raises that fault.  Its trace is exactly: the log
    line of the request, the creation of the upload directory, for every
    file before the failing one its write followed by its log line, in the
    order of the request, then the write of the failing file when it was
    read but could not be written, then the removal of the upload
    directory.  So the files before it have been written, no later file
    is, no child process is started and no inner workspace is created. *)
Theorem failed_upload_stops_the_request
  (cfg : Settings) (fenv : FilesEnv) (env : Env) (code : str)
  (saved : list UploadFile.t) (f : UploadFile.t) (rest : list UploadFile.t)
  (timeout : Z) (t : list event) (e : exn) :
  mkdir_files_dir fenv = Ok tt ->
  uploads_ok fenv (files_dir cfg fenv) saved ->
  (UploadFile.read f = Err e
   \/ exists content,
        UploadFile.read f = Ok content
        /\ write_bytes fenv (files_dir cfg fenv // UploadFile.filename f) = Err e) ->
  execute_with_files cfg fenv env code (saved ++ f :: rest) timeout t
  = (t ++ ELog INFO (lit "Executing code with ") :: EMkdir (files_dir cfg fenv)
       :: saved_events (files_dir cfg fenv) saved
       ++ attempted_events (files_dir cfg fenv) f
       ++ [ERmtree (files_dir cfg fenv)],
     Err e)
  /\ written_paths (saved_events (files_dir cfg fenv) saved)
     = map (fun g => files_dir cfg fenv // UploadFile.filename g) saved.
Proof.
  intros Hm Hok Hf. split.
  - rewrite (execute_with_files_eq cfg fenv env code (saved ++ f :: rest) timeout t Hm).
    unfold with_files_body. unfold tbind at 1.
    rewrite (@uploads_saved fenv (files_dir cfg fenv) saved (f :: rest) _ Hok).
    rewrite (@upload_fails fenv (files_dir cfg fenv) f rest _ e Hf).
    rewrite <- !app_assoc. reflexivity.
  - clear Hf. induction saved as [|g sv IH]; [reflexivity|].
    destruct (Hok g (or_introl eq_refl)) as [[content Hr] _].
    unfold written_paths, saved_events. simpl. rewrite Hr. simpl. f_equal.
    apply IH. intros h Hh. apply Hok. now right.
Qed.

Lemma failed_upload_stops_the_request_witness :
  execute_with_files Sample.cfg Sample.fenv_no_etc Sample.hello (lit "print(1)")
    ([Sample.upload] ++ Sample.dotted_upload :: [Sample.upload]) 30 []
  = ([ELog INFO (lit "Executing code with ");
      EMkdir (lit "/tmp/code-executor/aaaa1111");
      EWriteBytes (lit "/tmp/code-executor/aaaa1111/data.csv") (bytes_of_string "a,b");
      ELog INFO (lit "Uploaded file: ");
      EWriteBytes (lit "/etc/cron.d/job") (bytes_of_string "x");
      ERmtree (lit "/tmp/code-executor/aaaa1111")],
     Err OSError)
  /\ execute_with_files Sample.cfg Sample.fenv Sample.hello (lit "print(1)")
       ([Sample.upload] ++ Sample.broken_upload :: [Sample.upload]) 30 []
     = ([ELog INFO (lit "Executing code with ");
         EMkdir (lit "/tmp/code-executor/aaaa1111");
         EWriteBytes (lit "/tmp/code-executor/aaaa1111/data.csv") (bytes_of_string "a,b");
         ELog INFO (lit "Uploaded file: ");
         ERmtree (lit "/tmp/code-executor/aaaa1111")],
        Err OSError).
Proof.
  split.
  - refine (proj1 (@failed_upload_stops_the_request Sample.cfg Sample.fenv_no_etc
                     Sample.hello (lit "print(1)") [Sample.upload] Sample.dotted_upload
                     [Sample.upload] 30 [] OSError _ _ _)).
    + reflexivity.
    + intros f [<-|[]]. split; [eexists|]; reflexivity.
    + right. eexists. split; reflexivity.
  - refine (proj1 (@failed_upload_stops_the_request Sample.cfg Sample.fenv
                     Sample.hello (lit "print(1)") [Sample.upload] Sample.broken_upload
                     [Sample.upload] 30 [] OSError _ _ _)).
    + reflexivity.
    + intros f [<-|[]]. split; [eexists|]; reflexivity.
    + now left.
Defined.

(** X13.  In /execute-with-files an uploaded file whose name is an
    absolute path is written at that path in pathlib's normal form (empty
    and "." components dropped), whatever the directory of the request is
    and wherever the file stands among the uploads: joining the directory
    with an absolute name gives the name, so the write follows the writes
    of the files before it and lands outside the directory unless the name
    itself points into it. *)
Theorem absolute_upload_name_leaves_the_directory
  (cfg : Settings) (fenv : FilesEnv) (env : Env) (code : str)
  (saved : list UploadFile.t) (f : UploadFile.t) (rest : list UploadFile.t)
  (timeout : Z) (t : list event) (content : bytes) :
  mkdir_files_dir fenv = Ok tt ->
  uploads_ok fenv (files_dir cfg fenv) saved ->
  UploadFile.read f = Ok content ->
  startswith [SLASH] (UploadFile.filename f) = true ->
  files_dir cfg fenv // UploadFile.filename f = PurePath (UploadFile.filename f)
  /\ startswith [SLASH] (PurePath (UploadFile.filename f)) = true
  /\ exists later,
       fst (execute_with_files cfg fenv env code (saved ++ f :: rest) timeout t)
       = t ++ ELog INFO (lit "Executing code with ") :: EMkdir (files_dir cfg fenv)
           :: saved_events (files_dir cfg fenv) saved
           ++ EWriteBytes (PurePath (UploadFile.filename f)) content :: later.
Proof.
  intros Hm Hok Hr Habs.
  destruct (joinpath_absolute (files_dir cfg fenv) _ Habs) as [Hj Hs].
  split; [exact Hj|]. split; [exact Hs|].
  rewrite (execute_with_files_eq cfg fenv env code (saved ++ f :: rest) timeout t Hm).
  destruct (with_files_body _ _ _ _ _ _ _) as [t1 r] eqn:Eb.
  assert (E : exists evs,
            t1 = (t ++ [ELog INFO (lit "Executing code with ");
                        EMkdir (files_dir cfg fenv)])
                 ++ saved_events (files_dir cfg fenv) saved
                 ++ EWriteBytes (PurePath (UploadFile.filename f)) content :: evs).
  { change t1 with (fst (t1, r)). rewrite <- Eb. unfold with_files_body.
    match goal with
    | |- context [tbind ?m ?k ?t0] =>
        destruct (@fst_tbind_extends unit ExecuteResponse.t m k t0) as (e1 & E1)
    end.
    { intros _. apply temits_tbind.
      - eapply temits_weaken; [|apply temits_runs_under]. reflexivity.
      - intros res. apply temits_tbind; [now apply temits_tlog|intros _].
        apply temits_tret. }
    rewrite E1. clear E1.
    rewrite (@uploads_saved fenv (files_dir cfg fenv) saved (f :: rest) _ Hok).
    destruct (@upload_written fenv (files_dir cfg fenv) f rest
                ((t ++ [ELog INFO (lit "Executing code with ");
                        EMkdir (files_dir cfg fenv)])
                 ++ saved_events (files_dir cfg fenv) saved) content Hr)
      as (e2 & E2).
    rewrite E2, Hj. exists (e2 ++ e1). now rewrite <- !app_assoc. }
  destruct E as (evs & ->). exists (evs ++ [ERmtree (files_dir cfg fenv)]).
  simpl fst. rewrite <- !app_assoc. reflexivity.
Qed.

Lemma absolute_upload_name_leaves_the_directory_witness :
  exists later,
    fst (execute_with_files Sample.cfg Sample.fenv Sample.hello (lit "print(1)")
           ([Sample.upload] ++ Sample.dotted_upload :: []) 30 [])
    = [ELog INFO (lit "Executing code with ");
       EMkdir (lit "/tmp/code-executor/aaaa1111");
       EWriteBytes (lit "/tmp/code-executor/aaaa1111/data.csv") (bytes_of_string "a,b");
       ELog INFO (lit "Uploaded file: ");
       EWriteBytes (lit "/etc/cron.d/job") (bytes_of_string "x")] ++ later.
Proof.
  destruct (@absolute_upload_name_leaves_the_directory Sample.cfg Sample.fenv
              Sample.hello (lit "print(1)") [Sample.upload] Sample.dotted_upload []
              30 [] (bytes_of_string "x")) as (_ & _ & later & E).
  - reflexivity.
  - intros f [<-|[]]. split; [eexists|]; reflexivity.
  - reflexivity.
  - reflexivity.
  - exists later. exact E.
Defined.

Section InstallOutput.

Variable env : Env.
Variable code : str.
Variable timeout : Z.
Variable work_dir : Path.
Variable dependencies : option (list str).

(** The install step that lets the request go on, with the log it stores. *)
Lemma install_passes_log (s : state) :
  install_passes env dependencies -> result s = Result.initial ->
  exists evs,
    install_dependencies env dependencies s
    = (mkState (trace s ++ evs)
         (Result.set_install_output (install_output_of env dependencies)
            Result.initial),
       Next tt).
Proof.
  intros Hpass Hs. unfold install_output_of, install_dependencies.
  destruct (truthy_list dependencies) eqn:Hd.
  - destruct Hpass as [Hskip|(p & Hp & Hrc)]; [congruence|].
    unfold log, try_except, bind, emit, lift, update, get_result, ret.
    rewrite Hp, Hrc. simpl. rewrite Hs, <- !app_assoc. eexists. reflexivity.
  - exists []. unfold pass, ret. rewrite app_nil_r. destruct s as [tr r].
    simpl in *. now subst r.
Qed.

Lemma install_output_after_run (s s2 : state) (c : ctl unit) :
  run_code env timeout work_dir s = (s2, c) -> c = Next tt ->
  Result.install_output (result s2) = Result.install_output (result s).
Proof.
  intros Hrun Hc. apply run_code_next in Hrun. destruct Hrun as [_ Hrun].
  destruct (Hrun Hc) as [(o & e & _ & ->)|(proc & err & _ & ->)]; reflexivity.
Qed.

End InstallOutput.

(** X14.  The installer log of every returned result is the installer's
    stdout followed by its stderr whenever dependencies were listed and
    the installer ran to its end, with whatever exit status; it is empty
    when no dependencies were listed or the installer timed out. *)
Theorem install_output_is_the_installer_log
  (env : Env) (code : str) (timeout : Z) (work_dir : Path)
  (dependencies : option (list str)) (t : list event) (r : Result.t) :
  snd (execute_python_code env code timeout work_dir dependencies t) = Ok r ->
  Result.install_output r = install_output_of env dependencies
  /\ AdvancedExecuteResponse.install_output (AdvancedExecuteResponse_of r)
     = install_output_of env dependencies
  /\ (truthy_list dependencies = false -> Result.install_output r = [])
  /\ (forall p, truthy_list dependencies = true -> pip_install env = Ok p ->
        Result.install_output r
        = CompletedProcess.stdout p ++ CompletedProcess.stderr p).
Proof.
  intros H.
  assert (Hio : Result.install_output r = install_output_of env dependencies).
  { pose proof H as H'. apply returned_inv in H'.
    destruct H' as [(Hd & Hf & ->)|(Hreach & _ & _ & _ & ps & rs & _ & _ & Hp & Hr & _)].
    - unfold install_output_of. rewrite Hd. reflexivity.
    - destruct Hreach as (Hm1 & Hm2 & Hpass & Hw).
      revert H. unfold execute_python_code, execute_python_code_stmt.
      unfold bind at 1. unfold emit at 1. unfold bind at 1. rewrite Hm1. simpl lift.
      unfold ret at 1. unfold bind at 1. unfold emit at 1. unfold bind at 1.
      rewrite Hm2. simpl lift. unfold ret at 1. simpl trace. simpl result.
      unfold try_finally, guarded_body. unfold bind at 1.
      destruct (@install_passes_log env dependencies
                  (mkState ((t ++ [EMkdir (exec_dir env work_dir)])
                              ++ [EMkdir (plot_dir env work_dir)]) Result.initial)
                  Hpass eq_refl) as (ievs & Hi).
      rewrite Hi. unfold after_install.
      unfold bind at 1. unfold emit at 1. unfold bind at 1. rewrite Hw. simpl lift.
      unfold ret at 1. simpl trace. simpl result. unfold bind at 1.
      destruct (run_code env timeout work_dir _) as [s2 c] eqn:Erun.
      destruct c as [[]| |e].
      + pose proof (@install_output_after_run env timeout work_dir _ _ _ Erun eq_refl)
          as Hkeep. simpl in Hkeep.
        destruct (@collect_eq env work_dir ps rs s2 Hp Hr) as (cevs & Hc & _).
        rewrite Hc.
        destruct (cleanup_eq env work_dir
                    (mkState (trace s2 ++ cevs) (collected ps rs (result s2))))
          as (tl & Hcl & _).
        rewrite Hcl. simpl. intros E. inversion E. simpl. exact Hkeep.
      + exfalso. now destruct (@run_code_next env timeout work_dir _ _ _ Erun) as [Hnr _].
      + destruct (cleanup_eq env work_dir s2) as (tl & Hcl & _). rewrite Hcl.
        discriminate. }
  split; [exact Hio|]. split; [exact Hio|]. split.
  - intros Hd. rewrite Hio. unfold install_output_of. now rewrite Hd.
  - intros p Hd Hp. rewrite Hio. unfold install_output_of. now rewrite Hd, Hp.
Qed.

Lemma install_output_is_the_installer_log_witness :
  exists r,
    snd (execute_python_code Sample.pip_talks (lit "import numpy") 30
           (WORK_DIR Sample.cfg) (Some [lit "numpy"]) []) = Ok r
    /\ Result.install_output r = lit "Collecting numpyWARNING: cache disabled".
Proof.
  eexists. split; [vm_compute; reflexivity|].
  refine (proj1 (@install_output_is_the_installer_log Sample.pip_talks
                   (lit "import numpy") 30 (WORK_DIR Sample.cfg) (Some [lit "numpy"])
                   [] _ _)).
  vm_compute. reflexivity.
Defined.

(** X15.  Truncation keeps a prefix: the returned stderr of a completed
    child is the first [MAX_OUTPUT_SIZE] characters of what the child
    wrote, and the returned stdout is made of the lines of the first
    [MAX_OUTPUT_SIZE] characters of its stdout. *)
Theorem truncation_keeps_a_prefix
  (env : Env) (code : str) (timeout : Z) (work_dir : Path)
  (dependencies : option (list str)) (t : list event)
  (proc : CompletedProcess.t) (r : Result.t) :
  install_passes env dependencies ->
  run_script env = Ok proc ->
  snd (execute_python_code env code timeout work_dir dependencies t) = Ok r ->
  Result.stderr r = firstn (Z.to_nat MAX_OUTPUT_SIZE) (CompletedProcess.stderr proc)
  /\ (exists dropped, CompletedProcess.stderr proc = Result.stderr r ++ dropped)
  /\ Result.stdout r
     = join_nl (filter keep_line
                  (split_nl (firstn (Z.to_nat MAX_OUTPUT_SIZE)
                               (CompletedProcess.stdout proc)))).
Proof.
  intros Hpass Hproc H.
  destruct (returned_streams code timeout work_dir t Hpass Hproc H) as [Ho He].
  assert (Hc : forall s, capped s = firstn (Z.to_nat MAX_OUTPUT_SIZE) s).
  { intros s. unfold capped, slice_to. destruct s; [|reflexivity].
    cbn [truthy]. symmetry. apply firstn_nil. }
  rewrite Hc in Ho, He. split; [exact He|]. split; [|exact Ho].
  exists (skipn (Z.to_nat MAX_OUTPUT_SIZE) (CompletedProcess.stderr proc)).
  rewrite He. symmetry. apply firstn_skipn.
Qed.

Lemma truncation_keeps_a_prefix_witness :
  exists r,
    snd (execute_python_code Sample.warns (lit "import old") 30
           (WORK_DIR Sample.cfg) None []) = Ok r
    /\ Result.stderr r
       = firstn (Z.to_nat MAX_OUTPUT_SIZE) (lit "DeprecationWarning: Error: old API").
Proof.
  eexists. split; [vm_compute; reflexivity|].
  refine (proj1 (@truncation_keeps_a_prefix Sample.warns (lit "import old") 30
                   (WORK_DIR Sample.cfg) None []
                   (CompletedProcess.mk 0 (lit "done")
                      (lit "DeprecationWarning: Error: old API")) _ _ _ _)).
  - now left.
  - reflexivity.
  - vm_compute. reflexivity.
Defined.

(** X16.  Counted in characters, the stdout of every response of the
    three endpoints is at most [MAX_OUTPUT_SIZE] long, and so is the
    stderr of every returned result unless it is the fixed text of a
    timeout. *)
Theorem output_is_capped_in_characters (cfg : Settings) :
  (forall resp, serves cfg resp -> (len (stdout_of resp) <= MAX_OUTPUT_SIZE)%Z)
  /\ (forall env code timeout work_dir dependencies t r,
        snd (execute_python_code env code timeout work_dir dependencies t) = Ok r ->
        (len (Result.stderr r) <= MAX_OUTPUT_SIZE)%Z
        \/ Result.stderr r = timeout_stderr timeout).
Proof.
  split.
  - intros resp H. apply serves_inv in H.
    destruct H as (env & code & timeout & wd & deps & t & res & E & [->| ->]);
      simpl; apply (returned_lengths _ _ _ _ _ _ E).
  - intros env code timeout work_dir dependencies t r H.
    apply (returned_lengths _ _ _ _ _ _ H).
Qed.

Lemma output_is_capped_in_characters_witness :
  (len (stdout_of
          (Basic (ExecuteResponse.mk true (lit "hello" ++ [NL]) [] None [] (Some 5%Z))))
   <= MAX_OUTPUT_SIZE)%Z.
Proof.
  apply (proj1 (output_is_capped_in_characters Sample.cfg)).
  eapply (@serves_execute Sample.cfg Sample.hello Sample.hello_request []).
  vm_compute. reflexivity.
Defined.



